(** * Order and shipment synchronisation: status normalisation, payload
      mapping and batch delivery

    A shallow embedding of the decision logic of the two cloud functions
    ([function_shipment_tracking] and [functions]) and the properties their
    design document states about it.

    Conventions of the embedding.
    - A Python [str] is a [string]; one [ascii] stands for one code point, so
      the strings covered are those over code points 0..255 (the status
      tables need nothing else: a-acute is 225, o-acute is 243).
    - A Python [int] is a [Z]; lengths and indices are [nat].
    - A [dict] whose iteration order the code relies on is an association
      list; a [dict] used as a finite map is a [gmap].
    - A function that can raise returns [inl message] for the exception and
      [inr value] for the result.
    - Network calls and [time.sleep] are threaded through an explicit
      [World]; the retrying senders are defined by well-founded recursion.
    - What the code takes from pandas and the time-zone database
      ([pd.to_datetime], [DataFrame.groupby], the rules of
      America/Santiago) is a parameter of the development, [PandasEnv];
      what is assumed of [groupby] is stated as [GroupbyContract]. *)

From Stdlib Require Import ZArith List String Ascii Lia DecimalString.
From stdpp Require Import gmap strings list fin_maps.
From Equations Require Import Equations.
From Equations.Prop Require Import Logic.
Import ListNotations.

Local Open Scope string_scope.
Local Open Scope Z_scope.

(** ** Python built-ins used by the services *)

Module Py.

(** [str.isspace] on one code point of the range 0..255. *)
Definition isspace (c : ascii) : bool :=
  let n := nat_of_ascii c in
  ((9 <=? n) && (n <=? 13) || (28 <=? n) && (n <=? 32)
   || (n =? 133) || (n =? 160))%nat.

(** [str.lower] on one code point of the range 0..255: the letters A..Z
    and the accented capitals 192..222 (215, the multiplication sign, is
    not a letter) move up by 32. *)
Definition lower_char (c : ascii) : ascii :=
  let n := nat_of_ascii c in
  if ((65 <=? n) && (n <=? 90)
      || (192 <=? n) && (n <=? 222) && negb (n =? 215))%nat
  then ascii_of_nat (n + 32) else c.

Fixpoint lower (s : string) : string :=
  match s with
  | EmptyString => EmptyString
  | String c s' => String (lower_char c) (lower s')
  end.

Fixpoint lstrip (s : string) : string :=
  match s with
  | EmptyString => EmptyString
  | String c s' => if isspace c then lstrip s' else s
  end.

(** [rstrip] keeps a character when it is not a space or when something
    is kept after it. *)
Fixpoint rstrip (s : string) : string :=
  match s with
  | EmptyString => EmptyString
  | String c s' =>
      match rstrip s' with
      | EmptyString => if isspace c then EmptyString else String c EmptyString
      | r => String c r
      end
  end.

Definition strip (s : string) : string := rstrip (lstrip s).

(** [str(n)] for an [int]. *)
Definition str_of_int (n : Z) : string := NilZero.string_of_int (Z.to_int n).

(** [s[:n]]. *)
Definition prefix (n : nat) (s : string) : string := substring 0 n s.

(** Truth value of a [str]: non-empty. *)
Definition nonempty (s : string) : bool :=
  match s with EmptyString => false | _ => true end.

(** [d.get(k)] and [k in d] on a dict kept as an association list. *)
Fixpoint dict_get {V : Type} (k : string) (d : list (string * V)) : option V :=
  match d with
  | [] => None
  | (k', v) :: d' => if String.eqb k k' then Some v else dict_get k d'
  end.

Definition dict_keys {V : Type} (d : list (string * V)) : list string :=
  map fst d.

(** [x in xs] for a list of strings. *)
Definition mem (x : string) (xs : list string) : bool :=
  existsb (String.eqb x) xs.

Definition digit_val (c : ascii) : option Z :=
  let n := nat_of_ascii c in
  if ((48 <=? n) && (n <=? 57))%nat then Some (Z.of_nat (n - 48)) else None.

(** Decimal digits, with single underscores allowed between digits. *)
Fixpoint parse_digits (s : string) (acc : Z) (after_digit : bool) : option Z :=
  match s with
  | EmptyString => if after_digit then Some acc else None
  | String c s' =>
      match digit_val c with
      | Some d => parse_digits s' (10 * acc + d) true
      | None =>
          if Ascii.eqb c "_" && after_digit then parse_digits s' acc false
          else None
      end
  end.

(** The white space [int(s)] skips around the number. It is not that of
    [str.strip]: the separators 28..31 are left where they are, and make
    the literal invalid. *)
Definition int_isspace (c : ascii) : bool :=
  let n := nat_of_ascii c in
  ((9 <=? n) && (n <=? 13) || (n =? 32) || (n =? 133) || (n =? 160))%nat.

Fixpoint int_lstrip (s : string) : string :=
  match s with
  | EmptyString => EmptyString
  | String c s' => if int_isspace c then int_lstrip s' else s
  end.

Fixpoint int_rstrip (s : string) : string :=
  match s with
  | EmptyString => EmptyString
  | String c s' =>
      match int_rstrip s' with
      | EmptyString => if int_isspace c then EmptyString else String c EmptyString
      | r => String c r
      end
  end.

(** [int(s)] for a [str]; [None] is the [ValueError]. *)
Definition int_of_str (s : string) : option Z :=
  match int_rstrip (int_lstrip s) with
  | String "+" r => parse_digits r 0 false
  | String "-" r => option_map Z.opp (parse_digits r 0 false)
  | t => parse_digits t 0 false
  end.

(** [str(xs)] for a list of strings that need no escaping. *)
Definition repr_list (xs : list string) : string :=
  "[" ++ String.concat ", " (map (fun x => "'" ++ x ++ "'") xs) ++ "]".

(** Sequencing of computations that can raise. *)
Definition bind {A B : Type} (m : string + A) (k : A -> string + B) : string + B :=
  match m with inl e => inl e | inr a => k a end.

End Py.

Notation "'let*' x ':=' m 'in' k" := (Py.bind m (fun x => k))
  (at level 10, x name, m at level 100, k at level 200).

(** ** utils/status_mapping.py *)

Module StatusMapping.

Definition a_acute : string := String "225" EmptyString.
Definition o_acute : string := String "243" EmptyString.
Definition en_transito : string := "en tr" ++ a_acute ++ "nsito".
Definition excepcion : string := "excepci" ++ o_acute ++ "n".

Definition PLUGUP_STATUS_MAPPING : list (string * list string) :=
  [ ("pending", ["pending"; "pendiente"; "created"; "acknowledged"]);
    ("ready_to_ship",
      ["ready_to_ship"; "lista para despacho"; "handling"; "ready_to_ship"]);
    ("dispatched", ["shipped"; "enviado"; en_transito; "shipped"]);
    ("in_transit", ["shipped"; en_transito; "transit"; "in_transit"]);
    ("out_for_delivery", ["out_for_delivery"; "en reparto"]);
    ("delivered", ["delivered"; "entregada"; "entregado"; "delivered"]);
    ("delivery_failed",
      ["not_delivered"; "failed_delivery"; excepcion; "delivery_failed"]);
    ("cancelled",
      ["cancelled"; "canceled"; "cancelada"; "cancelado"; "cancelled"]);
    ("returned", ["returned"; "devuelto"; "returned"]) ].

Definition MARKETPLACE_STATUS_MAPPING : list (string * list (string * string)) :=
  [ ("meli",
      [ ("pending", "pending"); ("handling", "ready_to_ship");
        ("ready_to_ship", "ready_to_ship"); ("shipped", "dispatched");
        ("delivered", "delivered"); ("not_delivered", "delivery_failed");
        ("cancelled", "cancelled") ]);
    ("fala",
      [ ("pending", "pending"); ("ready_to_ship", "ready_to_ship");
        ("shipped", "dispatched"); ("delivered", "delivered");
        ("canceled", "cancelled"); ("returned", "returned") ]);
    ("walm",
      [ ("created", "pending"); ("acknowledged", "ready_to_ship");
        ("shipped", "dispatched"); ("delivered", "delivered");
        ("cancelled", "cancelled") ]);
    ("cenc",
      [ ("pendiente", "pending"); ("lista para despacho", "ready_to_ship");
        ("enviado", "dispatched"); (en_transito, "in_transit");
        ("entregada", "delivered"); ("entregado", "delivered");
        ("cancelada", "cancelled"); ("cancelado", "cancelled");
        ("devuelto", "returned") ]) ].

(** The two tables are module-level globals in the source; the functions
    are written once over arbitrary tables and then closed over the
    globals, so that the invariant linking [validate_status_mapping] to
    [normalize_status] can be stated for any pair of tables. *)
Section Tables.

Variable general : list (string * list string).
Variable specific : list (string * list (string * string)).

(** The [for plugup_status, raw_statuses in ....items()] loop: the first
    canonical status, in table order, one of whose lower-cased aliases
    is the cleaned status. *)
Fixpoint general_lookup (clean_status : string)
         (items : list (string * list string)) : option string :=
  match items with
  | [] => None
  | (plugup_status, raw_statuses) :: rest =>
      if Py.mem clean_status (map Py.lower raw_statuses)
      then Some plugup_status
      else general_lookup clean_status rest
  end.

(** [raw_status] and [marketplace] are [None] or a [str]. *)
Definition normalize_status_in (raw_status marketplace : option string) : string :=
  match raw_status, marketplace with
  | Some rs, Some mp =>
      if negb (Py.nonempty rs) || negb (Py.nonempty mp) then "pending"
      else
        let clean_status := Py.strip (Py.lower rs) in
        let clean_marketplace := Py.strip (Py.lower mp) in
        let marketplace_mapping :=
          match Py.dict_get clean_marketplace specific with
          | Some m => m
          | None => []
          end in
        match Py.dict_get clean_status marketplace_mapping with
        | Some normalized => normalized
        | None =>
            match general_lookup clean_status general with
            | Some plugup_status => plugup_status
            | None => "pending"
            end
        end
  | _, _ => "pending"
  end.

(** The inner loop of [validate_status_mapping] over one marketplace. *)
Fixpoint validate_mapping (marketplace : string)
         (mapping : list (string * string)) : string + bool :=
  match mapping with
  | [] => inr true
  | (raw_status, plugup_status) :: rest =>
      if negb (Py.mem plugup_status (Py.dict_keys general))
      then inl ("Invalid PlugUp status '" ++ plugup_status ++ "' in "
                ++ marketplace ++ " mapping for '" ++ raw_status ++ "'")
      else validate_mapping marketplace rest
  end.

Fixpoint validate_marketplaces
         (items : list (string * list (string * string))) : string + bool :=
  match items with
  | [] => inr true
  | (marketplace, mapping) :: rest =>
      match validate_mapping marketplace mapping with
      | inl e => inl e
      | inr _ => validate_marketplaces rest
      end
  end.

Definition validate_status_mapping_in : string + bool :=
  validate_marketplaces specific.

End Tables.

Definition normalize_status : option string -> option string -> string :=
  normalize_status_in PLUGUP_STATUS_MAPPING MARKETPLACE_STATUS_MAPPING.

Definition get_supported_statuses : list string :=
  Py.dict_keys PLUGUP_STATUS_MAPPING.


Definition get_marketplace_statuses (marketplace : string) : list string :=
  let clean_marketplace := Py.strip (Py.lower marketplace) in
  let marketplace_mapping :=
    match Py.dict_get clean_marketplace MARKETPLACE_STATUS_MAPPING with
    | Some m => m
    | None => []
    end in
  Py.dict_keys marketplace_mapping.

(** The cleaned status has an entry in the table of the cleaned
    marketplace. *)
Definition in_specific_table (clean_status clean_marketplace : string) : Prop :=
  exists mapping normalized,
    Py.dict_get clean_marketplace MARKETPLACE_STATUS_MAPPING = Some mapping
    /\ Py.dict_get clean_status mapping = Some normalized.

(** The cleaned status is, case-insensitively, an alias of some canonical
    status of the general table. *)
Definition in_general_table (clean_status : string) : Prop :=
  exists plugup_status raw_statuses,
    In (plugup_status, raw_statuses) PLUGUP_STATUS_MAPPING
    /\ In clean_status (map Py.lower raw_statuses).

End StatusMapping.


(** ** The pandas values the transformers handle *)

Module Pandas.

(** A [pd.Timestamp] (and a [datetime.datetime], whose [nanosecond] is 0).
    [utcoffset], in minutes east of UTC, is [None] for a timestamp without
    time zone. *)
Record Timestamp := mkTimestamp {
  year : N; month : N; day : N;
  hour : N; minute : N; second : N;
  microsecond : N; nanosecond : N;
  utcoffset : option Z
}.

Definition with_offset (ts : Timestamp) (off : option Z) : Timestamp :=
  mkTimestamp (year ts) (month ts) (day ts) (hour ts) (minute ts)
              (second ts) (microsecond ts) (nanosecond ts) off.

Definition str_of_N (n : N) : string := NilZero.string_of_uint (N.to_uint n).

Fixpoint zeros (k : nat) : string :=
  match k with O => "" | S k' => String "0" (zeros k') end.

(** ["%0wd" % n]. *)
Definition zfill (w : nat) (n : N) : string :=
  let s := str_of_N n in zeros (w - String.length s) ++ s.

Definition format_date (ts : Timestamp) : string :=
  zfill 4 (year ts) ++ "-" ++ zfill 2 (month ts) ++ "-" ++ zfill 2 (day ts).

Definition format_hms (ts : Timestamp) : string :=
  zfill 2 (hour ts) ++ ":" ++ zfill 2 (minute ts) ++ ":" ++ zfill 2 (second ts).

(** The [+HH:MM] or [-HH:MM] suffix; nothing for a naive timestamp. *)
Definition format_offset (off : option Z) : string :=
  match off with
  | None => ""
  | Some m =>
      let a := Z.to_N (Z.abs m) in
      (if m <? 0 then "-" else "+")
        ++ zfill 2 (a / 60)%N ++ ":" ++ zfill 2 (a mod 60)%N
  end.

Inductive Timespec := Auto | Seconds.

(** [Timestamp.isoformat(sep, timespec)]: with ["seconds"] the time stops
    at the seconds; with ["auto"] six digits follow when [microsecond] is
    not 0, and the nanoseconds follow them (three digits) or stand alone
    (nine digits) when [nanosecond] is not 0. *)
Definition format_fraction (spec : Timespec) (ts : Timestamp) : string :=
  match spec with
  | Seconds => ""
  | Auto =>
      if (nanosecond ts =? 0)%N then
        if (microsecond ts =? 0)%N then ""
        else "." ++ zfill 6 (microsecond ts)
      else
        if (microsecond ts =? 0)%N then "." ++ zfill 9 (nanosecond ts)
        else "." ++ zfill 6 (microsecond ts) ++ zfill 3 (nanosecond ts)
  end.

Definition isoformat (sep : string) (spec : Timespec) (ts : Timestamp) : string :=
  format_date ts ++ sep ++ format_hms ts ++ format_fraction spec ts
    ++ format_offset (utcoffset ts).

(** One cell of a DataFrame row. *)
Inductive Cell :=
| CNone
| CNaN
| CNaT
| CStr (s : string)
| CInt (n : Z)
| CTimestamp (ts : Timestamp)
| CDatetime (dt : Timestamp).

Definition isna (c : Cell) : bool :=
  match c with CNone | CNaN | CNaT => true | _ => false end.

(** [str(value)]. *)
Definition str (c : Cell) : string :=
  match c with
  | CNone => "None"
  | CNaN => "nan"
  | CNaT => "NaT"
  | CStr s => s
  | CInt n => Py.str_of_int n
  | CTimestamp ts | CDatetime ts => isoformat " " Auto ts
  end.

(** A row ([pd.Series]) maps column names to cells. *)
Definition get (row : gmap string Cell) (field : string) : Cell :=
  match row !! field with Some c => c | None => CNone end.

Definition get_default (row : gmap string Cell) (field : string) (d : Cell) : Cell :=
  match row !! field with Some c => c | None => d end.

Definition getitem (row : gmap string Cell) (field : string) : string + Cell :=
  match row !! field with
  | Some c => inr c
  | None => inl ("KeyError: '" ++ field ++ "'")
  end.

End Pandas.

Import Pandas.


(** What the services take from pandas and the time-zone database:
    [pd.to_datetime(value, errors="coerce", utc=False)] on a cell that is
    neither a timestamp nor missing ([None] stands for [NaT]), and the rules
    of the zone America/Santiago: [tz_localize] gives the offset of a wall
    time, or raises when the wall time does not exist or is ambiguous
    ([None]); [tz_convert] moves a zoned timestamp to the zone.
    [groupby column df] is what iterating [df.groupby(column)] yields, the
    pairs of a key and the rows of that key, or the exception the call
    raises; what the services rely on of it is [GroupbyContract] below. *)
Class PandasEnv := {
  to_datetime : Cell -> option Timestamp;
  santiago_localize : Timestamp -> option Z;
  santiago_convert : Timestamp -> Timestamp;
  groupby : string -> list (gmap string Cell)
            -> string + list (Cell * list (gmap string Cell))
}.

(** The [isinstance] chain both flows use to turn a value into a
    [pd.Timestamp]: a [pd.Timestamp] as it is, a [datetime] through
    [pd.Timestamp(value)], anything else through [pd.to_datetime]. *)
Definition as_timestamp `{PandasEnv} (value : Cell) : option Timestamp :=
  match value with
  | CTimestamp ts => Some ts
  | CDatetime dt => Some (mkTimestamp (year dt) (month dt) (day dt)
                            (hour dt) (minute dt) (second dt)
                            (microsecond dt) 0 (utcoffset dt))
  | other => to_datetime other
  end.

(** ** company_mapping.py *)

Module CompanyMapping.

Definition COMPANY_NAME_TO_UUID : list (string * string) :=
  [ ("bamo_company", "c12585ee-c8f4-4103-b7f0-37bd62401a65") ].

Definition get_company_uuid (company_name : string) : string + string :=
  match Py.dict_get company_name COMPANY_NAME_TO_UUID with
  | None =>
      inl ("Company '" ++ company_name ++ "' not found in mapping. "
           ++ "Available companies: "
           ++ Py.repr_list (Py.dict_keys COMPANY_NAME_TO_UUID) ++ ". "
           ++ "Please update COMPANY_NAME_TO_UUID in company_mapping.py")
  | Some uuid => inr uuid
  end.

End CompanyMapping.

(** ** function_shipment_tracking/services/transformer_service.py *)

Module ShipmentTransformerService.

Section WithEnv.

Context `{PandasEnv}.

Definition required_fields : list string :=
  [ "marketplace_order_id"; "marketplace"; "company_id"; "event_status";
    "event_timestamp" ].

Definition _validate_required_fields (row : gmap string Cell) : bool :=
  forallb
    (fun field =>
       let value := get row field in
       negb (isna value
             || match value with CNone => true | _ => false end
             || String.eqb (Py.strip (str value)) ""))
    required_fields.

Definition _format_timestamp (timestamp_value : Cell) : option string :=
  if isna timestamp_value
     || match timestamp_value with CNone => true | _ => false end
  then None
  else
    match as_timestamp timestamp_value with
    | None => None
    | Some ts =>
        let ts := match utcoffset ts with
                  | None => with_offset ts (Some 0)
                  | Some _ => ts
                  end in
        Some (isoformat "T" Auto ts)
    end.

Definition optional_fields : list (string * string) :=
  [ ("event_location", "event_location"); ("courier_name", "courier_name");
    ("tracking_number", "tracking_number"); ("notes", "notes") ].

(** One round of the loop over [optional_fields]. *)
Definition add_optional (row : gmap string Cell)
           (event : gmap string string) (item : string * string)
  : gmap string string :=
  let '(event_field, row_field) := item in
  let value := get row row_field in
  if negb (isna value)
     && negb (match value with CNone => true | _ => false end)
     && Py.nonempty (Py.strip (str value))
  then <[event_field := Py.strip (str value)]> event
  else event.

Definition _build_tracking_event (row : gmap string Cell)
  : string + gmap string string :=
  let* event_status := getitem row "event_status" in
  let* marketplace := getitem row "marketplace" in
  let normalized_status :=
    StatusMapping.normalize_status (Some (str event_status))
                                   (Some (str marketplace)) in
  let* raw_timestamp := getitem row "event_timestamp" in
  let* event_timestamp :=
    match _format_timestamp raw_timestamp with
    | Some s =>
        if Py.nonempty s then inr s
        else let* order_id := getitem row "marketplace_order_id" in
             inl ("Invalid event_timestamp for order " ++ str order_id)
    | None =>
        let* order_id := getitem row "marketplace_order_id" in
        inl ("Invalid event_timestamp for order " ++ str order_id)
    end in
  let* company_id := getitem row "company_id" in
  let company_name := str company_id in
  let* company_uuid :=
    match CompanyMapping.get_company_uuid company_name with
    | inr uuid => inr uuid
    | inl e =>
        let* order_id := getitem row "marketplace_order_id" in
        inl ("Company mapping error for order " ++ str order_id ++ ": " ++ e)
    end in
  let* order_id := getitem row "marketplace_order_id" in
  let* marketplace := getitem row "marketplace" in
  let event : gmap string string :=
    <["event_timestamp" := event_timestamp]>
    (<["event_status" := normalized_status]>
    (<["company_id" := company_uuid]>
    (<["marketplace" := Py.lower (str marketplace)]>
    (<["marketplace_order_id" := str order_id]> ∅)))) in
  inr (fold_left (add_optional row) optional_fields event).

(** The loop of [transform_to_tracking_events]: the events so far and
    the number of rows skipped. *)
Definition transform_step (acc : list (gmap string string) * Z)
           (row : gmap string Cell) : list (gmap string string) * Z :=
  let '(tracking_events, skipped_count) := acc in
  if negb (_validate_required_fields row)
  then (tracking_events, skipped_count + 1)
  else match _build_tracking_event row with
       | inr event => ((tracking_events ++ [event])%list, skipped_count)
       | inl _ => (tracking_events, skipped_count + 1)
       end.

Definition transform_to_tracking_events (df : list (gmap string Cell))
  : list (gmap string string) :=
  match df with
  | [] => []
  | _ => fst (fold_left transform_step df ([], 0))
  end.

End WithEnv.

End ShipmentTransformerService.

(** ** functions/utils/datetime_utils.py *)

Module DatetimeUtils.

Section WithEnv.

Context `{PandasEnv}.

Definition to_iso8601_clt (value : Cell) : option string :=
  match value with
  | CNone | CNaN => None
  | CNaT => None
  | _ =>
      match as_timestamp value with
      | None => None
      | Some ts =>
          match utcoffset ts with
          | Some _ => Some (isoformat "T" Seconds (santiago_convert ts))
          | None =>
              match santiago_localize ts with
              | Some off => Some (isoformat "T" Seconds (with_offset ts (Some off)))
              | None => None
              end
          end
      end
  end.

End WithEnv.

End DatetimeUtils.

(** ** functions/services/transformer_service.py *)

Module OrderTransformerService.

(** One line item of the ["sku"] mapping. *)
Record SkuItem := mkSkuItem {
  quantity : Z;
  name : string;
  market_place_match_id : string;
  order_item_id : string
}.

(** The values of a webhook payload. *)
Inductive PValue :=
| PNone
| PStr (s : string)
| PSku (d : gmap string SkuItem).

(** [int(value)] on a cell. *)
Definition int_of_cell (c : Cell) : string + Z :=
  match c with
  | CInt n => inr n
  | CStr s =>
      match Py.int_of_str s with
      | Some n => inr n
      | None => inl ("ValueError: invalid literal for int() with base 10: '"
                     ++ s ++ "'")
      end
  | CNaN => inl "ValueError: cannot convert float NaN to integer"
  | _ => inl "TypeError: int() argument must be a string or a real number"
  end.

(** The loop of [_build_sku_dict], started from the empty dict. *)
Fixpoint build_sku_loop (rows : list (gmap string Cell))
         (sku_dict : gmap string SkuItem) : string + gmap string SkuItem :=
  match rows with
  | [] => inr sku_dict
  | row :: rest =>
      let* seller_sku := getitem row "seller_sku" in
      let* qty := getitem row "quantity" in
      let* qty := int_of_cell qty in
      let* sku_name := getitem row "sku_name" in
      let* match_id := getitem row "market_place_match_id" in
      let item :=
        mkSkuItem qty (str sku_name) (str match_id)
                  (str (get_default row "order_item_id" (CStr ""))) in
      build_sku_loop rest (<[str seller_sku := item]> sku_dict)
  end.

Definition _build_sku_dict (group : list (gmap string Cell))
  : string + gmap string SkuItem :=
  build_sku_loop group ∅.

Section WithEnv.

Context `{PandasEnv}.

Definition _build_webhook_payload (order_id : Cell)
           (first_row : gmap string Cell) (sku_dict : gmap string SkuItem)
  : string + gmap string PValue :=
  let order_created_raw := get first_row "order_created_at" in
  let shipping_promise_raw := get first_row "shipping_promise_date" in
  let order_created_iso := DatetimeUtils.to_iso8601_clt order_created_raw in
  let shipping_promise_iso := DatetimeUtils.to_iso8601_clt shipping_promise_raw in
  match order_created_iso with
  | None =>
      inl ("Missing required date field: order_created_at for order "
           ++ str order_id)
  | Some order_created =>
      let* shipping_id := getitem first_row "shipping_id" in
      let* status := getitem first_row "status" in
      let* shipping_status := getitem first_row "shipping_status" in
      let* logistic_type := getitem first_row "logistic_type" in
      let* marketplace := getitem first_row "marketplace" in
      inr (<["sku" := PSku sku_dict]>
          (<["shipping_promise_date" :=
               match shipping_promise_iso with
               | Some s => PStr s
               | None => PNone
               end]>
          (<["order_created_at" := PStr order_created]>
          (<["market_place" := PStr (str marketplace)]>
          (<["logistic_type" := PStr (str logistic_type)]>
          (<["shipping_status" := PStr (str shipping_status)]>
          (<["status" := PStr (str status)]>
          (<["shipping_id" := PStr (str shipping_id)]>
          (<["order" := PStr (str order_id)]> ∅)))))))))
  end.

(** The body of the loop over the groups: the payload, or the exception
    the [except] clause swallows. *)
Definition transform_group (order_id : Cell) (group : list (gmap string Cell))
  : string + gmap string PValue :=
  match group with
  | [] => inl "IndexError: single positional indexer is out-of-bounds"
  | first_row :: _ =>
      let* sku_dict := _build_sku_dict group in
      _build_webhook_payload order_id first_row sku_dict
  end.

(** The loop [for order_id, group in ...]: a group whose payload cannot
    be built is logged and left out. *)
Definition transform_groups (groups : list (Cell * list (gmap string Cell)))
  : list (gmap string PValue) :=
  fold_left
    (fun webhooks '(order_id, group) =>
       match transform_group order_id group with
       | inr webhook => (webhooks ++ [webhook])%list
       | inl _ => webhooks
       end)
    groups [].

(** [df.groupby('order_id')] is called outside the [try]: what it raises
    leaves the method. *)
Definition transform_to_webhooks (df : list (gmap string Cell))
  : string + list (gmap string PValue) :=
  match df with
  | [] => inr []
  | _ =>
      let* groups := groupby "order_id" df in
      inr (transform_groups groups)
  end.

End WithEnv.

End OrderTransformerService.


(** ** The endpoint as the delivery services see it *)

Module Http.

(** A decoded JSON body. Numbers are integers, as in the summary the edge
    function returns. *)
#[local] Set Warnings "-register-all".
Inductive JValue :=
| JNull
| JBool (b : bool)
| JInt (n : Z)
| JStr (s : string)
| JList (l : list JValue)
| JDict (d : list (string * JValue)).

(** Truth value of a decoded body ([if response_data:]). *)
Definition truthy (v : JValue) : bool :=
  match v with
  | JNull => false
  | JBool b => b
  | JInt n => negb (n =? 0)
  | JStr s => Py.nonempty s
  | JList l => match l with [] => false | _ => true end
  | JDict d => match d with [] => false | _ => true end
  end.

(** [v.get(key, default)]: only a dict has [get]. *)
Definition jget (v : JValue) (key : string) (default : JValue) : string + JValue :=
  match v with
  | JDict d =>
      inr (match Py.dict_get key d with Some x => x | None => default end)
  | _ => inl "AttributeError: object has no attribute 'get'"
  end.

(** The operand of an integer addition: an [int], or a [bool] counted as
    0 or 1; anything else makes [count += v] raise. *)
Definition as_int (v : JValue) : string + Z :=
  match v with
  | JInt n => inr n
  | JBool b => inr (if b then 1 else 0)
  | _ => inl "TypeError: unsupported operand type(s) for +="
  end.

(** What [list.extend(v)] appends: the items of a list, the characters of
    a string, the keys of a dict. *)
Definition iterate (v : JValue) : string + list JValue :=
  match v with
  | JList l => inr l
  | JStr s => inr (map (fun c => JStr (String c EmptyString)) (list_ascii_of_string s))
  | JDict d => inr (map (fun kv => JStr (fst kv)) d)
  | _ => inl "TypeError: object is not iterable"
  end.

(** One [requests.post] call ends with a response or with an exception.
    [Timeout] is [requests.exceptions.Timeout] (read and connect
    timeouts), [ConnectionError] a connection failure that is not a
    timeout, [RequestException] any other exception of the library,
    [OtherException] anything else. [json] is [None] when
    [response.json()] raises [ValueError]. *)
Inductive Outcome :=
| Response (status_code : Z) (text : string) (json : option JValue)
| Timeout
| ConnectionError (e : string)
| RequestException (e : string)
| OtherException (e : string).

(** The world a service acts on: the endpoint answers the [n]-th request
    of the run with [network n]; [posts] logs the request bodies and
    [sleeps] the [time.sleep] durations, oldest first. *)
Record World (Body : Type) := mkWorld {
  network : nat -> Outcome;
  posts : list Body;
  sleeps : list Z
}.
Arguments mkWorld {Body} _ _ _.
Arguments network {Body} _ _.
Arguments posts {Body} _.
Arguments sleeps {Body} _.

Definition post {Body : Type} (body : Body) (w : World Body) : Outcome * World Body :=
  (network w (length (posts w)),
   mkWorld (network w) (posts w ++ [body])%list (sleeps w)).

Definition sleep {Body : Type} (seconds : Z) (w : World Body) : World Body :=
  mkWorld (network w) (posts w) (sleeps w ++ [seconds])%list.

End Http.

Import Http.

(** ** function_shipment_tracking/config.py *)

Module Config.

(** The class attributes read from the environment; an unset variable is
    [None]. *)
Record Config := mkConfig {
  SUPABASE_URL : option string;
  SUPABASE_SERVICE_ROLE_KEY : option string;
  SUPABASE_TIMEOUT : Z;
  MAX_RETRY_ATTEMPTS : Z;
  LOOKBACK_MINUTES : Z;
  BATCH_SIZE : Z
}.

(** [getattr(cls, var)] for the two required variables. *)
Definition getattr (cls : Config) (var : string) : option string :=
  if String.eqb var "SUPABASE_URL" then SUPABASE_URL cls
  else if String.eqb var "SUPABASE_SERVICE_ROLE_KEY" then SUPABASE_SERVICE_ROLE_KEY cls
  else None.

Definition required_vars : list string :=
  [ "SUPABASE_URL"; "SUPABASE_SERVICE_ROLE_KEY" ].

(** The variables of [required_vars] that are unset or empty, in order. *)
Definition missing_vars (cls : Config) : list string :=
  List.filter
    (fun var =>
       negb match getattr cls var with
            | Some value => Py.nonempty value
            | None => false
            end)
    required_vars.

Definition validate (cls : Config) : string + bool :=
  match missing_vars cls with
  | [] => inr true
  | missing =>
      inl ("Missing required environment variables: " ++ String.concat ", " missing)
  end.

End Config.

(** ** function_shipment_tracking/services/supabase_service.py *)

Module SupabaseService.

Record SupabaseResult := mkResult {
  total : Z;
  successful : Z;
  failed : Z;
  errors : list JValue
}.

Definition to_dict (self : SupabaseResult) : list (string * JValue) :=
  [ ("total_events", JInt (total self));
    ("successful", JInt (successful self));
    ("failed", JInt (failed self));
    ("errors", JList (take 10 (errors self))) ].

(** The configuration [__init__] reads. *)
Record Service := mkService {
  timeout : Z;
  max_retries : Z;
  batch_size : Z
}.

(** A batch is a list of tracking events. *)
Abbreviation Batch := (list (gmap string string)).

(** One delivery of a batch. The method calls itself with
    [retry_count + 1] after [time.sleep(2 ** retry_count)]; every call of
    the code starts at [retry_count = 0], so the exponent is never
    negative. The recursion is well founded on
    [max_retries - retry_count], which each retry decreases. *)
Equations? _send_batch_to_supabase (self : Service) (events : Batch)
           (retry_count : Z) (w : World Batch)
  : (bool * string * JValue) * World Batch
  by wf (Z.to_nat (max_retries self - retry_count)) lt :=
  _send_batch_to_supabase self events retry_count w with post events w => {
    | (Response status_code text json, w1) with inspect (status_code =? 200) => {
        | exist _ true is_200 :=
            match json with
            | Some response_data =>
                ((true, "Success: " ++ Py.str_of_int status_code, response_data), w1)
            | None =>
                ((true, "Success: " ++ Py.str_of_int status_code, JDict []), w1)
            end
        | exist _ false not_200 with
              inspect ((status_code >=? 500) && (retry_count <? max_retries self)) => {
            | exist _ true retry :=
                _send_batch_to_supabase self events (retry_count + 1)
                                        (sleep (2 ^ retry_count) w1)
            | exist _ false no_retry :=
                ((false,
                  "Failed: " ++ Py.str_of_int status_code ++ " - "
                    ++ Py.prefix 200 text,
                  JDict []), w1) } }
    | (Timeout, w1) with inspect (retry_count <? max_retries self) => {
        | exist _ true retry :=
            _send_batch_to_supabase self events (retry_count + 1)
                                    (sleep (2 ^ retry_count) w1)
        | exist _ false no_retry :=
            ((false, "Timeout after " ++ Py.str_of_int (timeout self) ++ "s",
              JDict []), w1) }
    | (ConnectionError e, w1) :=
        ((false, "Connection error: " ++ e, JDict []), w1)
    | (RequestException e, w1) :=
        ((false, "Request exception: " ++ e, JDict []), w1)
    | (OtherException e, w1) :=
        ((false, "Unexpected exception: " ++ e, JDict []), w1) }.
Proof. all: lia. Qed.

(** [range(0, stop, step)] for a positive [step]; [fuel] bounds the number
    of items, and [stop] items are never exceeded. *)
Fixpoint range_from (fuel i stop step : nat) : list nat :=
  match fuel with
  | O => []
  | S fuel' =>
      if (i <? stop)%nat then i :: range_from fuel' (i + step) stop step
      else []
  end.

(** [range(0, stop, step)]: a zero step raises, a negative one gives the
    empty range. *)
Definition range0 (stop : nat) (step : Z) : string + list nat :=
  if step =? 0 then inl "ValueError: range() arg 3 must not be zero"
  else if step <? 0 then inr []
  else inr (range_from stop 0 stop (Z.to_nat step)).

Definition _chunk_events (self : Service) (events : Batch) : string + list Batch :=
  let* starts := range0 (length events) (batch_size self) in
  inr (map (fun i => take (Z.to_nat (batch_size self)) (drop i events)) starts).

(** The counters of [send_tracking_events]. *)
Record Tally := mkTally {
  success_count : Z;
  error_count : Z;
  error_list : list JValue
}.

(** The branch of the loop body for a successful batch. *)
Definition account_success (batch : Batch) (response_data : JValue) (t : Tally)
  : string + Tally :=
  if truthy response_data then
    let* batch_created := jget response_data "created" (JInt 0) in
    let* batch_updated := jget response_data "updated" (JInt 0) in
    let* batch_skipped := jget response_data "skipped" (JInt 0) in
    let* batch_errors := jget response_data "errors" (JInt 0) in
    let* created := as_int batch_created in
    let* updated := as_int batch_updated in
    let success_count := success_count t + (created + updated) in
    let* reported := as_int batch_errors in
    let error_count := error_count t + reported in
    let* details := jget response_data "details" (JDict []) in
    let* error_messages := jget details "error_messages" JNull in
    if truthy error_messages then
      let* messages := iterate error_messages in
      inr (mkTally success_count error_count (error_list t ++ messages)%list)
    else inr (mkTally success_count error_count (error_list t))
  else
    inr (mkTally (success_count t + Z.of_nat (length batch))
                 (error_count t) (error_list t)).

(** The branch of the loop body for a failed batch. *)
Definition account_failure (batch_index : nat) (batch : Batch)
           (message : string) (t : Tally) : Tally :=
  mkTally (success_count t)
          (error_count t + Z.of_nat (length batch))
          (error_list t
             ++ [JStr ("Batch " ++ Py.str_of_int (Z.of_nat batch_index + 1)
                       ++ ": " ++ message)])%list.

(** The loop [for batch_index, batch in enumerate(event_batches)]. An
    exception of the loop body leaves the loop. *)
Fixpoint send_batches (self : Service) (batch_index : nat)
         (event_batches : list Batch) (t : Tally) (w : World Batch)
  : (string + Tally) * World Batch :=
  match event_batches with
  | [] => (inr t, w)
  | batch :: rest =>
      let '((success, message, response_data), w1) :=
        _send_batch_to_supabase self batch 0 w in
      if success then
        match account_success batch response_data t with
        | inl e => (inl e, w1)
        | inr t1 => send_batches self (S batch_index) rest t1 w1
        end
      else
        send_batches self (S batch_index) rest
                     (account_failure batch_index batch message t) w1
  end.

Definition send_tracking_events (self : Service) (events : Batch)
           (w : World Batch) : (string + SupabaseResult) * World Batch :=
  match events with
  | [] => (inr (mkResult 0 0 0 []), w)
  | _ =>
      match _chunk_events self events with
      | inl e => (inl e, w)
      | inr event_batches =>
          match send_batches self 0 event_batches (mkTally 0 0 []) w with
          | (inl e, w1) => (inl e, w1)
          | (inr t, w1) =>
              (inr (mkResult (Z.of_nat (length events)) (success_count t)
                             (error_count t) (error_list t)), w1)
          end
      end
  end.

(** [SupabaseService()]: the configuration is validated, then read. *)
Definition __init__ (cfg : Config.Config) : string + Service :=
  let* _ := Config.validate cfg in
  inr (mkService (Config.SUPABASE_TIMEOUT cfg) (Config.MAX_RETRY_ATTEMPTS cfg)
                 (Config.BATCH_SIZE cfg)).

(** The probe: one request with an empty list of events. The handler of
    [ConnectionError] comes first in the source, so a connect timeout,
    which is both a connection error and a timeout, is reported by it; the
    flag is the same for both. *)
Definition test_connectivity (self : Service) (w : World Batch)
  : (bool * string) * World Batch :=
  let '(outcome, w1) := post [] w in
  match outcome with
  | Response status_code text _ =>
      if status_code =? 400 then
        ((true,
          "Connectivity OK - Got expected validation error (400): "
            ++ Py.prefix 200 text), w1)
      else if status_code =? 401 then
        ((false, "Authentication failed (401): " ++ Py.prefix 200 text), w1)
      else if status_code =? 404 then
        ((false, "Endpoint not found (404): " ++ Py.prefix 200 text), w1)
      else
        ((true,
          "Connectivity OK - Got response (" ++ Py.str_of_int status_code ++ "): "
            ++ Py.prefix 200 text), w1)
  | ConnectionError e => ((false, "Connection failed: " ++ e), w1)
  | Timeout => ((false, "Request timed out"), w1)
  | RequestException e | OtherException e => ((false, "Test failed: " ++ e), w1)
  end.

End SupabaseService.

(** ** functions/services/webhook_service.py *)

Module WebhookService.

Import OrderTransformerService.

Record WebhookResult := mkResult {
  total : Z;
  successful : Z;
  failed : Z;
  errors : list string
}.

Definition to_dict (self : WebhookResult) : list (string * JValue) :=
  [ ("total_orders", JInt (total self));
    ("successful", JInt (successful self));
    ("failed", JInt (failed self));
    ("errors", JList (map JStr (take 10 (errors self)))) ].

Record Service := mkService {
  timeout : Z;
  max_retries : Z
}.

(** An order is a webhook payload. *)
Abbreviation Order := (gmap string PValue).

(** One delivery of an order, with the same retry scheme as the edge
    function client; any exception that is not a timeout ends it. *)

Equations? _send_single_order (self : Service) (order : Order)
           (retry_count : Z) (w : World Order)
  : (bool * string) * World Order
  by wf (Z.to_nat (max_retries self - retry_count)) lt :=
  _send_single_order self order retry_count w with post order w => {
    | (Response status_code text _, w1) with
          inspect ((status_code =? 200) || (status_code =? 201)) => {
        | exist _ true is_success :=
            ((true, "Success: " ++ Py.str_of_int status_code), w1)
        | exist _ false not_success with
              inspect ((status_code >=? 500) && (retry_count <? max_retries self)) => {
            | exist _ true retry :=
                _send_single_order self order (retry_count + 1)
                                   (sleep (2 ^ retry_count) w1)
            | exist _ false no_retry :=
                ((false,
                  "Failed: " ++ Py.str_of_int status_code ++ " - "
                    ++ Py.prefix 100 text), w1) } }
    | (Timeout, w1) with inspect (retry_count <? max_retries self) => {
        | exist _ true retry :=
            _send_single_order self order (retry_count + 1)
                               (sleep (2 ^ retry_count) w1)
        | exist _ false no_retry :=
            ((false, "Timeout after " ++ Py.str_of_int (timeout self) ++ "s"), w1) }
    | (ConnectionError e, w1) := ((false, "Exception: " ++ e), w1)
    | (RequestException e, w1) := ((false, "Exception: " ++ e), w1)
    | (OtherException e, w1) := ((false, "Exception: " ++ e), w1) }.
Proof. all: lia. Qed.

(** [order.get(key, 'unknown')] as it is interpolated into a message; the
    two keys read this way hold strings. *)
Definition describe (v : option PValue) : string :=
  match v with
  | Some (PStr s) => s
  | Some PNone => "None"
  | Some (PSku _) => "{...}"
  | None => "unknown"
  end.

(** The loop of [send_batch]. *)
Fixpoint send_orders (self : Service) (orders : list Order)
         (success_count error_count : Z) (errors : list string)
         (w : World Order) : (Z * Z * list string) * World Order :=
  match orders with
  | [] => ((success_count, error_count, errors), w)
  | order :: rest =>
      let order_id := describe (order !! "order") in
      let marketplace := describe (order !! "market_place") in
      let '((success, message), w1) := _send_single_order self order 0 w in
      if success then send_orders self rest (success_count + 1) error_count errors w1
      else
        let entry := "Order " ++ order_id ++ " (" ++ marketplace ++ "): " ++ message in
        send_orders self rest success_count (error_count + 1)
                    (errors ++ [entry])%list w1
  end.

Definition send_batch (self : Service) (orders : list Order) (w : World Order)
  : WebhookResult * World Order :=
  let '((success_count, error_count, errors), w1) :=
    send_orders self orders 0 0 [] w in
  (mkResult (Z.of_nat (length orders)) success_count error_count errors, w1).

End WebhookService.

(** ** function_shipment_tracking/main.py *)

Module ShipmentTrackingMain.

Section WithEnv.

Context `{PandasEnv}.

Definition error_response (message : string) : list (string * JValue) * Z :=
  ([ ("status", JStr "error"); ("message", JStr message) ], 500).

(** [sync_shipment_tracking]: [fetch] is what
    [BigQueryService().fetch_recent_tracking_events()] gives, the rows or
    the exception it raises; an exception is carried as its description.
    The result is the response body and the HTTP status. *)
Definition sync_shipment_tracking (cfg : Config.Config)
           (fetch : string + list (gmap string Cell))
           (w : World (list (gmap string string)))
  : (list (string * JValue) * Z) * World (list (gmap string string)) :=
  match fetch with
  | inl e => (error_response ("Shipment tracking sync failed: " ++ e), w)
  | inr [] =>
      (([ ("status", JStr "success");
          ("message", JStr "No tracking events to process") ], 200), w)
  | inr events_df =>
      match ShipmentTransformerService.transform_to_tracking_events events_df with
      | [] =>
          (([ ("status", JStr "success");
              ("message", JStr "No valid tracking events to process") ], 200), w)
      | tracking_events =>
          match SupabaseService.__init__ cfg with
          | inl e => (error_response ("Shipment tracking sync failed: " ++ e), w)
          | inr supabase_service =>
              let '((connectivity_ok, connectivity_msg), w1) :=
                SupabaseService.test_connectivity supabase_service w in
              if negb connectivity_ok then
                (error_response ("Supabase connectivity test failed: "
                                 ++ connectivity_msg), w1)
              else
                match SupabaseService.send_tracking_events
                        supabase_service tracking_events w1 with
                | (inl e, w2) =>
                    (error_response ("Shipment tracking sync failed: " ++ e), w2)
                | (inr result, w2) =>
                    ((([ ("status", JStr "completed");
                         ("bigquery_events", JInt (Z.of_nat (length events_df)));
                         ("valid_events", JInt (Z.of_nat (length tracking_events)));
                         ("connectivity_test", JStr connectivity_msg) ]
                         ++ SupabaseService.to_dict result)%list, 200), w2)
                end
          end
      end
  end.

End WithEnv.

End ShipmentTrackingMain.

(** ** functions/main.py *)

Module OrdersMain.

Section WithEnv.

Context `{PandasEnv}.


End WithEnv.

End OrdersMain.

(** ** Vocabulary of the statements and sample inputs *)

Module Vocabulary.

Import OrderTransformerService.

(** An optional field is present and non-blank in a row. *)
Definition present_nonblank (value : Cell) : bool :=
  negb (isna value) && Py.nonempty (Py.strip (str value)).

(** The optional fields of a tracking event. *)
Definition tracking_optional_fields : list string :=
  [ "event_location"; "courier_name"; "tracking_number"; "notes" ].

(** The key under which a row enters the line-item mapping. *)
Definition seller_sku_of (row : gmap string Cell) : string :=
  str (get row "seller_sku").

(** The line item a row contributes. *)
Definition sku_item_of (row : gmap string Cell) : string + SkuItem :=
  let* qty := getitem row "quantity" in
  let* qty := int_of_cell qty in
  let* sku_name := getitem row "sku_name" in
  let* match_id := getitem row "market_place_match_id" in
  inr (mkSkuItem qty (str sku_name) (str match_id)
                 (str (get_default row "order_item_id" (CStr "")))).

(** The value a payload holds under a key, when the payload was built. *)
Definition payload_field {V : Type} (r : string + gmap string V) (key : string)
  : option V :=
  match r with inr payload => payload !! key | inl _ => None end.

Definition succeeded {A : Type} (r : string + A) : bool :=
  match r with inr _ => true | inl _ => false end.

(** The number of line items of a webhook payload. *)
Definition line_item_count (payload : gmap string PValue) : option nat :=
  match payload !! "sku" with
  | Some (PSku sku_dict) => Some (size sku_dict)
  | _ => None
  end.

(** The quantity a webhook payload records for a seller SKU. *)
Definition line_item_quantity (payload : gmap string PValue) (seller_sku : string)
  : option Z :=
  match payload !! "sku" with
  | Some (PSku sku_dict) => quantity <$> sku_dict !! seller_sku
  | _ => None
  end.

(** A summary the dispatcher can account for without raising. *)
Definition summary_accepted (response_data : JValue) : Prop :=
  forall batch t, exists t',
    SupabaseService.account_success batch response_data t = inr t'.

(** The endpoint answers every request with status 200 and a body that
    is not JSON or is an accepted summary. *)
Definition always_succeeds {Body : Type} (w : World Body) : Prop :=
  forall n, exists text json,
    network w n = Response 200 text json
    /\ forall response_data, json = Some response_data ->
                             summary_accepted response_data.

(** The waits of [k] consecutive retries that start at [retry_count]. *)
Definition backoff_waits (retry_count : Z) (k : nat) : list Z :=
  map (fun i => 2 ^ (retry_count + Z.of_nat i)) (seq 0 k).

(** What one delivery leaves in the world: [k] posts of the same body,
    with the [k - 1] waits of the backoff between them. *)
Definition trace_of {Body : Type} (body : Body) (retry_count : Z) (k : nat)
           (w w' : World Body) : Prop :=
  network w' = network w
  /\ posts w' = (posts w ++ repeat body k)%list
  /\ sleeps w' = (sleeps w ++ backoff_waits retry_count (k - 1))%list.

(** An answer both delivery clients meet with a retry while retries
    remain: a timeout or a status of 500 or more. *)
Definition retryable (outcome : Outcome) : bool :=
  match outcome with
  | Timeout => true
  | Response status_code _ _ => status_code >=? 500
  | _ => false
  end.

(** The keys a tracking event can hold. *)
Definition tracking_event_keys : list string :=
  (ShipmentTransformerService.required_fields ++ tracking_optional_fields)%list.

(** The keys of a webhook payload. *)
Definition webhook_payload_keys : list string :=
  [ "order"; "shipping_id"; "status"; "shipping_status"; "logistic_type";
    "market_place"; "order_created_at"; "shipping_promise_date"; "sku" ].

(** A row takes part in the grouping: its key is not null. *)
Definition has_group_key (column : string) (row : gmap string Cell) : bool :=
  negb (isna (get row column)).

(** A key that is an integer or a string. *)
Definition plain_key (key : Cell) : bool :=
  match key with
  | CInt _ | CStr _ => true
  | _ => false
  end.

(** A group never is empty, and the rows of an integer or string key hold
    that very key. *)
Definition group_ok (column : string) (g : Cell * list (gmap string Cell)) : Prop :=
  snd g <> []
  /\ forall row, In row (snd g) ->
                 plain_key (fst g) = true -> get row column = fst g.

(** The frame has the column: every row holds a cell for it. *)
Definition has_column (column : string) (df : list (gmap string Cell)) : Prop :=
  forall row, In row df -> is_Some (row !! column).

(** What the services rely on of [df.groupby(column)], called with its
    default arguments and iterated:
    - on a frame without the column it raises ([KeyError]);
    - when it returns, every row whose key is not null is in exactly one
      group (null keys are dropped), no group is empty, and the rows of an
      integer or string key hold that key;
    - it returns on a frame with the column whose keys are integers,
      strings or null. *)
Record GroupbyContract `{PandasEnv} : Prop := {
  groupby_missing_column :
    forall column df,
      df <> [] ->
      (forall row, In row df -> row !! column = None) ->
      exists e, groupby column df = inl e;
  groupby_partition :
    forall column df groups,
      groupby column df = inr groups ->
      Permutation (concat (map snd groups))
                  (List.filter (has_group_key column) df);
  groupby_groups :
    forall column df groups,
      groupby column df = inr groups ->
      Forall (group_ok column) groups;
  groupby_returns :
    forall column df,
      has_column column df ->
      (forall row, In row df ->
                   isna (get row column) || plain_key (get row column) = true) ->
      exists groups, groupby column df = inr groups
}.

(** An answer to the connectivity probe that fails it: status 401 or 404,
    or any exception. *)
Definition probe_fails (outcome : Outcome) : bool :=
  match outcome with
  | Response status_code _ _ => (status_code =? 401) || (status_code =? 404)
  | _ => true
  end.

(** An environment variable is set to a non-empty value. *)
Definition is_set (value : option string) : Prop :=
  exists s, value = Some s /\ s <> "".

(** The endpoint never returns a structured summary: a 200 response has
    a body that is not JSON or decodes to an empty value. *)
Definition unstructured {Body : Type} (w : World Body) : Prop :=
  forall n text response_data,
    network w n = Response 200 text (Some response_data) ->
    truthy response_data = false.

(** The items of all batches. *)
Definition batch_items {A : Type} (batches : list (list A)) : Z :=
  Z.of_nat (length (concat batches)).

(** The time slept over a list of waits. *)
Definition total_wait (waits : list Z) : Z := fold_right Z.add 0 waits.

(** The world after [k] posts of one body with the backoff waits between
    and after them. *)
Definition after_retries {Body : Type} (body : Body) (retry_count : Z) (k : nat)
           (w : World Body) : World Body :=
  mkWorld (network w) (posts w ++ repeat body k)%list
          (sleeps w ++ backoff_waits retry_count k)%list.

End Vocabulary.

Module Samples.

Import Vocabulary OrderTransformerService.

(** Grouping for the examples, by integer and string keys: the rows of
    each key in row order, the keys sorted, integers before strings. *)
Definition key_eqb (a b : Cell) : bool :=
  match a, b with
  | CInt x, CInt y => (x =? y)%Z
  | CStr x, CStr y => String.eqb x y
  | _, _ => false
  end.

Definition key_ltb (a b : Cell) : bool :=
  match a, b with
  | CInt x, CInt y => (x <? y)%Z
  | CInt _, CStr _ => true
  | CStr x, CStr y => String.ltb x y
  | _, _ => false
  end.

Fixpoint insert_row (key : Cell) (row : gmap string Cell)
         (groups : list (Cell * list (gmap string Cell)))
  : list (Cell * list (gmap string Cell)) :=
  match groups with
  | [] => [(key, [row])]
  | (k, rows) :: rest =>
      if key_eqb key k then (k, (rows ++ [row])%list) :: rest
      else if key_ltb key k then (key, [row]) :: groups
      else (k, rows) :: insert_row key row rest
  end.

Definition group_rows (column : string) (df : list (gmap string Cell))
  : list (Cell * list (gmap string Cell)) :=
  fold_left
    (fun groups row =>
       match get row column with
       | (CInt _ | CStr _) as key => insert_row key row groups
       | _ => groups
       end)
    df [].

(** A frame without the column raises [KeyError]. The examples group by
    integers and strings only: on a key of another kind this environment
    gives up, which the contract allows. *)
Definition sample_groupby (column : string) (df : list (gmap string Cell))
  : string + list (Cell * list (gmap string Cell)) :=
  if forallb (fun row => match row !! column with Some _ => true | None => false end) df
  then
    if forallb (fun row => isna (get row column) || plain_key (get row column)) df
    then inr (group_rows column df)
    else inl "NotImplementedError: keys other than int and str"
  else inl ("KeyError: '" ++ column ++ "'").

(** An environment for the examples: nothing but timestamps parses, the
    zone has the constant offset -03:00, and frames are grouped by
    [sample_groupby]. *)
Definition env : PandasEnv :=
  {| to_datetime := fun _ => None;
     santiago_localize := fun _ => Some (-180);
     santiago_convert := fun ts => ts;
     groupby := sample_groupby |}.

Definition half_past : Timestamp := mkTimestamp 2024 1 1 0 0 0 500000 0 None.
Definition new_year : Timestamp := mkTimestamp 2024 1 1 0 0 0 0 0 None.

Definition tracking_row : gmap string Cell :=
  <["marketplace_order_id" := CStr "A1"]>
  (<["marketplace" := CStr "meli"]>
  (<["company_id" := CStr "bamo_company"]>
  (<["event_status" := CStr "shipped"]>
  (<["event_timestamp" := CTimestamp new_year]>
  (<["courier_name" := CStr " Correos "]>
  (<["notes" := CStr "   "]> ∅)))))).

Definition order_row (seller_sku : string) (qty : Z) : gmap string Cell :=
  <["order_id" := CStr "o1"]>
  (<["seller_sku" := CStr seller_sku]>
  (<["quantity" := CInt qty]>
  (<["sku_name" := CStr "mug"]>
  (<["market_place_match_id" := CStr "m1"]>
  (<["shipping_id" := CStr "s1"]>
  (<["status" := CStr "paid"]>
  (<["shipping_status" := CStr "pending"]>
  (<["logistic_type" := CStr "flex"]>
  (<["marketplace" := CStr "meli"]>
  (<["order_created_at" := CTimestamp new_year]> ∅)))))))))).

Definition supabase : SupabaseService.Service := SupabaseService.mkService 30 3 100.
Definition supabase_single : SupabaseService.Service := SupabaseService.mkService 30 3 1.
Definition webhook : WebhookService.Service := WebhookService.mkService 30 3.

Definition refused {Body : Type} : World Body :=
  mkWorld (fun _ => ConnectionError "refused") [] [].
Definition timing_out {Body : Type} : World Body :=
  mkWorld (fun _ => Timeout) [] [].
Definition healthy {Body : Type} : World Body :=
  mkWorld (fun _ => Response 200 "ok" None) [] [].
Definition slow_start {Body : Type} : World Body :=
  mkWorld (fun n => if (n <? 2)%nat then Timeout else Response 200 "ok" None) [] [].
(** The second connection is refused. *)
Definition flaky {Body : Type} : World Body :=
  mkWorld (fun n => if (n =? 1)%nat then ConnectionError "refused"
                    else Response 200 "ok" None) [] [].
(** A summary with two error messages. *)
Definition summary : JValue :=
  JDict [("created", JInt 0); ("errors", JInt 1);
         ("details",
           JDict [("error_messages", JList [JStr "bad sku"; JStr "bad date"])])].
(** The first request is answered with [summary], the others are refused. *)
Definition reporting {Body : Type} : World Body :=
  mkWorld (fun n => if (n =? 0)%nat then Response 200 "ok" (Some summary)
                    else ConnectionError "refused") [] [].

Definition event : gmap string string := <["marketplace_order_id" := "A1"]> ∅.

End Samples.

(** * Properties *)

(** ** Status normalisation *)

Module StatusMappingFacts.

Import StatusMapping.

Lemma mem_In (x : string) (xs : list string) : Py.mem x xs = true <-> In x xs.
Proof.
  unfold Py.mem. rewrite existsb_exists. split.
  - intros (y & Hy & Heq). apply String.eqb_eq in Heq. now subst.
  - intros Hx. exists x. split; [assumption | apply String.eqb_refl].
Qed.

Lemma dict_get_In {V : Type} (k : string) (d : list (string * V)) (v : V) :
  Py.dict_get k d = Some v -> In (k, v) d.
Proof.
  induction d as [| [k' v'] d IH]; simpl; [discriminate |].
  destruct (String.eqb k k') eqn:E.
  - apply String.eqb_eq in E. intros [= ->]. subst. now left.
  - intros Hget. right. now apply IH.
Qed.

Lemma general_lookup_key (clean_status plugup_status : string)
      (items : list (string * list string)) :
  general_lookup clean_status items = Some plugup_status ->
  In plugup_status (Py.dict_keys items).
Proof.
  induction items as [| [k aliases] items IH]; simpl; [discriminate |].
  destruct (Py.mem clean_status (map Py.lower aliases)).
  - intros [= ->]. now left.
  - intros Hrest. right. now apply IH.
Qed.

Lemma general_lookup_unmatched (clean_status : string)
      (items : list (string * list string)) :
  (forall plugup_status raw_statuses,
      In (plugup_status, raw_statuses) items ->
      ~ In clean_status (map Py.lower raw_statuses)) ->
  general_lookup clean_status items = None.
Proof.
  induction items as [| [k aliases] items IH]; intros Hno; simpl; [reflexivity |].
  destruct (Py.mem clean_status (map Py.lower aliases)) eqn:E.
  - apply mem_In in E. exfalso. apply (Hno k aliases); [now left | assumption].
  - apply IH. intros k' al Hin. apply (Hno k' al). now right.
Qed.

Lemma general_lookup_matched (clean_status : string)
      (items : list (string * list string)) :
  general_lookup clean_status items = None ->
  forall plugup_status raw_statuses,
    In (plugup_status, raw_statuses) items ->
    ~ In clean_status (map Py.lower raw_statuses).
Proof.
  induction items as [| [k aliases] items IH]; simpl; intros Hnone k' al Hin;
    [contradiction |].
  destruct (Py.mem clean_status (map Py.lower aliases)) eqn:E; [discriminate |].
  destruct Hin as [[= <- <-] | Hin].
  - intros Hal. apply mem_In in Hal. congruence.
  - eapply IH; eassumption.
Qed.

(** What a passing validation of one marketplace guarantees. *)
Lemma validate_mapping_sound (general : list (string * list string))
      (marketplace : string) (mapping : list (string * string)) (b : bool) :
  validate_mapping general marketplace mapping = inr b ->
  forall raw_status plugup_status,
    In (raw_status, plugup_status) mapping ->
    In plugup_status (Py.dict_keys general).
Proof.
  induction mapping as [| [r p] mapping IH]; simpl; intros Hok raw ps Hin;
    [contradiction |].
  destruct (Py.mem p (Py.dict_keys general)) eqn:E; simpl in Hok; [| discriminate].
  destruct Hin as [[= <- <-] | Hin].
  - now apply mem_In.
  - eapply IH; eassumption.
Qed.

Lemma validate_marketplaces_sound (general : list (string * list string))
      (items : list (string * list (string * string))) (b : bool) :
  validate_marketplaces general items = inr b ->
  forall marketplace mapping raw_status plugup_status,
    In (marketplace, mapping) items ->
    In (raw_status, plugup_status) mapping ->
    In plugup_status (Py.dict_keys general).
Proof.
  induction items as [| [m mp] items IH]; simpl; intros Hok mk mapping raw ps Hin Hentry;
    [contradiction |].
  destruct (validate_mapping general m mp) as [e | b'] eqn:E; [discriminate |].
  destruct Hin as [[= <- <-] | Hin].
  - eapply validate_mapping_sound; eassumption.
  - eapply IH; eassumption.
Qed.

(** The invariant for any pair of tables: once the validation at import
    has passed and the fallback is a canonical status, every result of the
    normaliser is a canonical status. *)
Lemma normalize_status_in_canonical (general : list (string * list string))
      (specific : list (string * list (string * string))) (b : bool) :
  validate_status_mapping_in general specific = inr b ->
  In "pending" (Py.dict_keys general) ->
  forall raw_status marketplace,
    In (normalize_status_in general specific raw_status marketplace)
       (Py.dict_keys general).
Proof.
  intros Hvalid Hpending raw_status marketplace.
  unfold normalize_status_in.
  destruct raw_status as [rs |]; [| assumption].
  destruct marketplace as [mp |]; [| assumption].
  destruct (negb (Py.nonempty rs) || negb (Py.nonempty mp)); [assumption |].
  destruct (Py.dict_get (Py.strip (Py.lower mp)) specific) as [mapping |] eqn:Emp.
  - destruct (Py.dict_get (Py.strip (Py.lower rs)) mapping) as [normalized |] eqn:Est.
    + eapply validate_marketplaces_sound.
      * exact Hvalid.
      * eapply dict_get_In; exact Emp.
      * eapply dict_get_In; exact Est.
    + destruct (general_lookup (Py.strip (Py.lower rs)) general) eqn:Eg;
        [eapply general_lookup_key; exact Eg | assumption].
  - simpl.
    destruct (general_lookup (Py.strip (Py.lower rs)) general) eqn:Eg;
      [eapply general_lookup_key; exact Eg | assumption].
Qed.

(** C6. A status that, once lower-cased and trimmed, has no entry in the
    table of its marketplace and is no alias of the general table is
    normalised to "pending"; so is every pair with an empty or missing
    status or marketplace (for which the premise asks nothing). The
    normaliser is a total function: it has no raising path. *)
Theorem normalize_status_unmatched_is_pending
        (raw_status marketplace : option string) :
  (forall rs mp,
      raw_status = Some rs -> marketplace = Some mp ->
      rs <> "" -> mp <> "" ->
      ~ in_specific_table (Py.strip (Py.lower rs)) (Py.strip (Py.lower mp))
      /\ ~ in_general_table (Py.strip (Py.lower rs))) ->
  normalize_status raw_status marketplace = "pending".
Proof.
  intros Hunmatched.
  unfold normalize_status, normalize_status_in.
  destruct raw_status as [rs |]; [| reflexivity].
  destruct marketplace as [mp |]; [| reflexivity].
  destruct rs as [| c rs']; [reflexivity |].
  destruct mp as [| d mp']; [reflexivity |].
  destruct (Hunmatched _ _ eq_refl eq_refl) as [Hspec Hgen]; [discriminate .. |].
  cbn [Py.nonempty negb orb].
  set (clean_status := Py.strip (Py.lower (String c rs'))) in *.
  set (clean_marketplace := Py.strip (Py.lower (String d mp'))) in *.
  assert (Hno : Py.dict_get clean_status
                  match Py.dict_get clean_marketplace MARKETPLACE_STATUS_MAPPING with
                  | Some m => m
                  | None => []
                  end = None).
  { destruct (Py.dict_get clean_marketplace MARKETPLACE_STATUS_MAPPING)
      as [mapping |] eqn:Emp; [| reflexivity].
    destruct (Py.dict_get clean_status mapping) as [normalized |] eqn:Est;
      [| reflexivity].
    exfalso. apply Hspec. exists mapping, normalized. now split. }
  rewrite Hno.
  rewrite general_lookup_unmatched; [reflexivity |].
  intros k aliases Hin Hal. apply Hgen. exists k, aliases. now split.
Qed.

(** The premise of C6 holds for the status [exploded] of marketplace
    [meli], and the status is normalised to "pending". *)
Lemma normalize_status_unmatched_is_pending_witness :
  normalize_status (Some "Exploded ") (Some "meli") = "pending".
Proof.
  apply normalize_status_unmatched_is_pending.
  intros rs mp [= <-] [= <-] _ _. split.
  - intros (mapping & normalized & Hmp & Hst).
    vm_compute in Hmp. injection Hmp as <-. vm_compute in Hst. discriminate.
  - intros (k & aliases & Hin & Hal).
    apply (general_lookup_matched (Py.strip (Py.lower "Exploded "))
             PLUGUP_STATUS_MAPPING eq_refl k aliases Hin Hal).
Defined.


End StatusMappingFacts.

(** ** Delivery with retry *)

Module DeliveryFacts.

Import Vocabulary.

(** The recursion equation of [_send_batch_to_supabase], in the shape of
    the source. *)
Lemma _send_batch_to_supabase_unfold (self : SupabaseService.Service)
      (events : list (gmap string string)) (retry_count : Z)
      (w : World (list (gmap string string))) :
  SupabaseService._send_batch_to_supabase self events retry_count w =
  let w1 := snd (post events w) in
  match fst (post events w) with
  | Response status_code text json =>
      if status_code =? 200 then
        ((true, "Success: " ++ Py.str_of_int status_code,
          match json with Some response_data => response_data | None => JDict [] end),
         w1)
      else if (status_code >=? 500)
              && (retry_count <? SupabaseService.max_retries self) then
        SupabaseService._send_batch_to_supabase
          self events (retry_count + 1) (sleep (2 ^ retry_count) w1)
      else
        ((false,
          "Failed: " ++ Py.str_of_int status_code ++ " - " ++ Py.prefix 200 text,
          JDict []), w1)
  | Timeout =>
      if retry_count <? SupabaseService.max_retries self then
        SupabaseService._send_batch_to_supabase
          self events (retry_count + 1) (sleep (2 ^ retry_count) w1)
      else
        ((false,
          "Timeout after " ++ Py.str_of_int (SupabaseService.timeout self) ++ "s",
          JDict []), w1)
  | ConnectionError e => ((false, "Connection error: " ++ e, JDict []), w1)
  | RequestException e => ((false, "Request exception: " ++ e, JDict []), w1)
  | OtherException e => ((false, "Unexpected exception: " ++ e, JDict []), w1)
  end.
Proof.
  rewrite SupabaseService._send_batch_to_supabase_equation_1.
  destruct (post events w) as [outcome w1] eqn:Hpost. cbn [fst snd].
  destruct outcome as [status_code text json | | e | e | e]; cbn; try reflexivity.
  - destruct (status_code =? 200); cbn.
    + now destruct json.
    + now destruct ((status_code >=? 500)
                    && (retry_count <? SupabaseService.max_retries self)).
  - now destruct (retry_count <? SupabaseService.max_retries self).
Qed.

(** The recursion equation of [_send_single_order]. *)
Lemma _send_single_order_unfold (self : WebhookService.Service)
      (order : gmap string OrderTransformerService.PValue) (retry_count : Z)
      (w : World (gmap string OrderTransformerService.PValue)) :
  WebhookService._send_single_order self order retry_count w =
  let w1 := snd (post order w) in
  match fst (post order w) with
  | Response status_code text _ =>
      if (status_code =? 200) || (status_code =? 201) then
        ((true, "Success: " ++ Py.str_of_int status_code), w1)
      else if (status_code >=? 500)
              && (retry_count <? WebhookService.max_retries self) then
        WebhookService._send_single_order
          self order (retry_count + 1) (sleep (2 ^ retry_count) w1)
      else
        ((false,
          "Failed: " ++ Py.str_of_int status_code ++ " - " ++ Py.prefix 100 text),
         w1)
  | Timeout =>
      if retry_count <? WebhookService.max_retries self then
        WebhookService._send_single_order
          self order (retry_count + 1) (sleep (2 ^ retry_count) w1)
      else
        ((false,
          "Timeout after " ++ Py.str_of_int (WebhookService.timeout self) ++ "s"),
         w1)
  | ConnectionError e | RequestException e | OtherException e =>
      ((false, "Exception: " ++ e), w1)
  end.
Proof.
  rewrite WebhookService._send_single_order_equation_1.
  destruct (post order w) as [outcome w1] eqn:Hpost. cbn [fst snd].
  destruct outcome as [status_code text json | | e | e | e]; cbn; try reflexivity.
  - destruct ((status_code =? 200) || (status_code =? 201)); cbn; [reflexivity |].
    now destruct ((status_code >=? 500)
                  && (retry_count <? WebhookService.max_retries self)).
  - now destruct (retry_count <? WebhookService.max_retries self).
Qed.

Lemma backoff_waits_cons (retry_count : Z) (k : nat) :
  backoff_waits retry_count (S k)
  = 2 ^ retry_count :: backoff_waits (retry_count + 1) k.
Proof.
  unfold backoff_waits. cbn [seq map].
  rewrite Z.add_0_r. f_equal.
  rewrite <- seq_shift, map_map.
  apply map_ext. intros i. f_equal. lia.
Qed.

Lemma trace_of_once {Body : Type} (body : Body) (retry_count : Z) (w : World Body) :
  trace_of body retry_count 1 w (snd (post body w)).
Proof.
  unfold trace_of, backoff_waits. cbn. now rewrite app_nil_r.
Qed.

Lemma trace_of_retry {Body : Type} (body : Body) (retry_count : Z) (k : nat)
      (w w' : World Body) :
  (1 <= k)%nat ->
  trace_of body (retry_count + 1) k (sleep (2 ^ retry_count) (snd (post body w))) w' ->
  trace_of body retry_count (S k) w w'.
Proof.
  intros Hk (Hnet & Hposts & Hsleeps). unfold trace_of.
  cbn [network posts sleeps sleep post snd] in *.
  split; [assumption |]. split.
  - rewrite Hposts, <- app_assoc. reflexivity.
  - rewrite Hsleeps, <- app_assoc. f_equal.
    destruct k as [| k]; [lia |].
    replace (S (S k) - 1)%nat with (S k) by lia.
    replace (S k - 1)%nat with k by lia.
    now rewrite backoff_waits_cons.
Qed.

(** A delivery to the edge function posts the batch [k] times, with
    [1 <= k <= remaining retries + 1]. *)
Lemma _send_batch_to_supabase_trace (self : SupabaseService.Service)
      (events : list (gmap string string)) (n : nat) :
  forall retry_count w,
    Z.to_nat (SupabaseService.max_retries self - retry_count) = n ->
    exists k, (1 <= k)%nat /\ (k <= S n)%nat
      /\ trace_of events retry_count k w
           (snd (SupabaseService._send_batch_to_supabase self events retry_count w)).
Proof.
  induction n as [n IH] using lt_wf_ind. intros retry_count w Hmeasure.
  rewrite _send_batch_to_supabase_unfold. cbn zeta.
  assert (Honce : exists k, (1 <= k)%nat /\ (k <= S n)%nat
                    /\ trace_of events retry_count k w (snd (post events w))).
  { exists 1%nat. split; [lia |]. split; [lia |]. apply trace_of_once. }
  assert (Hretry : retry_count < SupabaseService.max_retries self ->
            exists k, (1 <= k)%nat /\ (k <= S n)%nat
              /\ trace_of events retry_count k w
                   (snd (SupabaseService._send_batch_to_supabase
                           self events (retry_count + 1)
                           (sleep (2 ^ retry_count) (snd (post events w)))))).
  { intros Hlt. destruct n as [| n]; [lia |].
    destruct (IH n (Nat.lt_succ_diag_r n) (retry_count + 1)
                 (sleep (2 ^ retry_count) (snd (post events w))))
      as (k & Hk1 & Hk2 & Htrace); [lia |].
    exists (S k). split; [lia |]. split; [lia |].
    now apply trace_of_retry. }
  destruct (fst (post events w)) as [status_code text json | | e | e | e];
    try exact Honce.
  - destruct (status_code =? 200); [exact Honce |].
    destruct ((status_code >=? 500)
              && (retry_count <? SupabaseService.max_retries self)) eqn:E;
      [| exact Honce].
    apply andb_true_iff in E as [_ E]. apply Z.ltb_lt in E. now apply Hretry.
  - destruct (retry_count <? SupabaseService.max_retries self) eqn:E;
      [| exact Honce].
    apply Z.ltb_lt in E. now apply Hretry.
Qed.

(** The same for a delivery to the webhook. *)
Lemma _send_single_order_trace (self : WebhookService.Service)
      (order : gmap string OrderTransformerService.PValue) (n : nat) :
  forall retry_count w,
    Z.to_nat (WebhookService.max_retries self - retry_count) = n ->
    exists k, (1 <= k)%nat /\ (k <= S n)%nat
      /\ trace_of order retry_count k w
           (snd (WebhookService._send_single_order self order retry_count w)).
Proof.
  induction n as [n IH] using lt_wf_ind. intros retry_count w Hmeasure.
  rewrite _send_single_order_unfold. cbn zeta.
  assert (Honce : exists k, (1 <= k)%nat /\ (k <= S n)%nat
                    /\ trace_of order retry_count k w (snd (post order w))).
  { exists 1%nat. split; [lia |]. split; [lia |]. apply trace_of_once. }
  assert (Hretry : retry_count < WebhookService.max_retries self ->
            exists k, (1 <= k)%nat /\ (k <= S n)%nat
              /\ trace_of order retry_count k w
                   (snd (WebhookService._send_single_order
                           self order (retry_count + 1)
                           (sleep (2 ^ retry_count) (snd (post order w)))))).
  { intros Hlt. destruct n as [| n]; [lia |].
    destruct (IH n (Nat.lt_succ_diag_r n) (retry_count + 1)
                 (sleep (2 ^ retry_count) (snd (post order w))))
      as (k & Hk1 & Hk2 & Htrace); [lia |].
    exists (S k). split; [lia |]. split; [lia |].
    now apply trace_of_retry. }
  destruct (fst (post order w)) as [status_code text json | | e | e | e];
    try exact Honce.
  - destruct ((status_code =? 200) || (status_code =? 201)); [exact Honce |].
    destruct ((status_code >=? 500)
              && (retry_count <? WebhookService.max_retries self)) eqn:E;
      [| exact Honce].
    apply andb_true_iff in E as [_ E]. apply Z.ltb_lt in E. now apply Hretry.
  - destruct (retry_count <? WebhookService.max_retries self) eqn:E;
      [| exact Honce].
    apply Z.ltb_lt in E. now apply Hretry.
Qed.

(** C1, as the code has it. A timeout is retried: while
    [retry_count < max_retries] the client sleeps [2 ^ retry_count] and
    sends the same body again with [retry_count + 1]; once the retries
    are used up the delivery fails with the message [Timeout after Ns].
    A connection failure that is not a timeout is never retried: the
    delivery fails at once, with the cause in the message. Both delivery
    clients behave so. *)
Theorem transport_failure_handling
        (self : SupabaseService.Service) (events : list (gmap string string))
        (w : World (list (gmap string string)))
        (hook : WebhookService.Service)
        (order : gmap string OrderTransformerService.PValue)
        (v : World (gmap string OrderTransformerService.PValue))
        (retry_count : Z) :
  (network w (length (posts w)) = Timeout ->
     (retry_count < SupabaseService.max_retries self ->
        SupabaseService._send_batch_to_supabase self events retry_count w
        = SupabaseService._send_batch_to_supabase
            self events (retry_count + 1)
            (sleep (2 ^ retry_count) (snd (post events w))))
     /\ (SupabaseService.max_retries self <= retry_count ->
           SupabaseService._send_batch_to_supabase self events retry_count w
           = ((false,
               "Timeout after " ++ Py.str_of_int (SupabaseService.timeout self) ++ "s",
               JDict []),
              snd (post events w))))
  /\ (forall e,
        network w (length (posts w)) = ConnectionError e ->
        SupabaseService._send_batch_to_supabase self events retry_count w
        = ((false, "Connection error: " ++ e, JDict []), snd (post events w)))
  /\ (network v (length (posts v)) = Timeout ->
        (retry_count < WebhookService.max_retries hook ->
           WebhookService._send_single_order hook order retry_count v
           = WebhookService._send_single_order
               hook order (retry_count + 1)
               (sleep (2 ^ retry_count) (snd (post order v))))
        /\ (WebhookService.max_retries hook <= retry_count ->
              WebhookService._send_single_order hook order retry_count v
              = ((false,
                  "Timeout after " ++ Py.str_of_int (WebhookService.timeout hook) ++ "s"),
                 snd (post order v))))
  /\ (forall e,
        network v (length (posts v)) = ConnectionError e ->
        WebhookService._send_single_order hook order retry_count v
        = ((false, "Exception: " ++ e), snd (post order v))).
Proof.
  split; [| split; [| split]].
  - intros Hnet. split.
    + intros Hlt. rewrite _send_batch_to_supabase_unfold. cbn [post fst snd].
      rewrite Hnet. apply Z.ltb_lt in Hlt. now rewrite Hlt.
    + intros Hge. rewrite _send_batch_to_supabase_unfold. cbn [post fst snd].
      rewrite Hnet. apply Z.ltb_ge in Hge. now rewrite Hge.
  - intros e He. rewrite _send_batch_to_supabase_unfold. cbn [post fst snd].
    now rewrite He.
  - intros Hnet. split.
    + intros Hlt. rewrite _send_single_order_unfold. cbn [post fst snd].
      rewrite Hnet. apply Z.ltb_lt in Hlt. now rewrite Hlt.
    + intros Hge. rewrite _send_single_order_unfold. cbn [post fst snd].
      rewrite Hnet. apply Z.ltb_ge in Hge. now rewrite Hge.
  - intros e He. rewrite _send_single_order_unfold. cbn [post fst snd].
    now rewrite He.
Qed.

(** C1 at a sample: the first request times out with three retries left,
    so the batch is sent again after a wait of [2 ^ 0] seconds. *)
Lemma transport_failure_handling_witness :
  SupabaseService._send_batch_to_supabase
    Samples.supabase [Samples.event] 0 Samples.timing_out
  = SupabaseService._send_batch_to_supabase
      Samples.supabase [Samples.event] 1
      (sleep 1 (snd (post [Samples.event] Samples.timing_out))).
Proof.
  apply (transport_failure_handling
           Samples.supabase [Samples.event] Samples.timing_out
           Samples.webhook ∅ Samples.timing_out 0).
  - reflexivity.
  - reflexivity.
Defined.

(** C1 as stated fails: the endpoint refuses the connection while three
    retries remain, and the delivery fails after one request and no
    wait. *)
Lemma connection_failure_is_not_retried :
  0 < SupabaseService.max_retries Samples.supabase
  /\ network (Body := list (gmap string string)) Samples.refused 0
     = ConnectionError "refused"
  /\ fst (SupabaseService._send_batch_to_supabase
            Samples.supabase [Samples.event] 0 Samples.refused)
     = (false, "Connection error: refused", JDict [])
  /\ posts (snd (SupabaseService._send_batch_to_supabase
                   Samples.supabase [Samples.event] 0 Samples.refused))
     = [[Samples.event]]
  /\ sleeps (snd (SupabaseService._send_batch_to_supabase
                    Samples.supabase [Samples.event] 0 Samples.refused))
     = [].
Proof. repeat split. Qed.

(** C9. A delivery started at [retry_count = 0] returns after [k]
    requests for the same body, where [1 <= k <= max_retries + 1] (a
    negative [max_retries] counts as 0), and after the [k - 1] waits
    [1, 2, 4, ...] between them. Both delivery clients are total
    functions of the endpoint's answers: the recursion is well founded
    on [max_retries - retry_count]. *)
Theorem retries_are_bounded
        (self : SupabaseService.Service) (events : list (gmap string string))
        (w : World (list (gmap string string)))
        (hook : WebhookService.Service)
        (order : gmap string OrderTransformerService.PValue)
        (v : World (gmap string OrderTransformerService.PValue)) :
  (exists k,
      (1 <= k <= Z.to_nat (SupabaseService.max_retries self) + 1)%nat
      /\ posts (snd (SupabaseService._send_batch_to_supabase self events 0 w))
         = (posts w ++ repeat events k)%list
      /\ sleeps (snd (SupabaseService._send_batch_to_supabase self events 0 w))
         = (sleeps w ++ backoff_waits 0 (k - 1))%list)
  /\ (exists k,
        (1 <= k <= Z.to_nat (WebhookService.max_retries hook) + 1)%nat
        /\ posts (snd (WebhookService._send_single_order hook order 0 v))
           = (posts v ++ repeat order k)%list
        /\ sleeps (snd (WebhookService._send_single_order hook order 0 v))
           = (sleeps v ++ backoff_waits 0 (k - 1))%list).
Proof.
  split.
  - destruct (_send_batch_to_supabase_trace self events _ 0 w eq_refl)
      as (k & Hk1 & Hk2 & _ & Hposts & Hsleeps).
    exists k. rewrite Z.sub_0_r in Hk2. repeat split; try assumption. lia.
  - destruct (_send_single_order_trace hook order _ 0 v eq_refl)
      as (k & Hk1 & Hk2 & _ & Hposts & Hsleeps).
    exists k. rewrite Z.sub_0_r in Hk2. repeat split; try assumption. lia.
Qed.

(** A delivery that times out twice and then succeeds is reported as a
    success, after three requests and waits of 1 and 2 seconds. *)
Example delivery_succeeds_on_third_attempt :
  fst (SupabaseService._send_batch_to_supabase
         Samples.supabase [Samples.event] 0 Samples.slow_start)
  = (true, "Success: 200", JDict [])
  /\ posts (snd (SupabaseService._send_batch_to_supabase
                   Samples.supabase [Samples.event] 0 Samples.slow_start))
     = repeat [Samples.event] 3
  /\ sleeps (snd (SupabaseService._send_batch_to_supabase
                    Samples.supabase [Samples.event] 0 Samples.slow_start))
     = [1; 2].
Proof. repeat split. Qed.

(** Against an endpoint that always times out, with three retries, the
    bound is reached: four requests, and waits of 1, 2 and 4 seconds. *)
Example retries_exhausted :
  posts (snd (SupabaseService._send_batch_to_supabase
                Samples.supabase [Samples.event] 0 Samples.timing_out))
  = repeat [Samples.event] 4
  /\ sleeps (snd (SupabaseService._send_batch_to_supabase
                    Samples.supabase [Samples.event] 0 Samples.timing_out))
     = [1; 2; 4].
Proof. split; reflexivity. Qed.

End DeliveryFacts.

(** ** Batch dispatch *)

Module DispatchFacts.

Import Vocabulary SupabaseService.

(** The start indices [i, i + step, ...] below [stop], cut into slices,
    give back the list from [i] on. *)
Lemma chunks_concat {A : Type} (l : list A) (step : nat) :
  (1 <= step)%nat ->
  forall fuel i,
    (length l <= fuel + i)%nat ->
    concat (map (fun j => take step (drop j l)) (range_from fuel i (length l) step))
    = drop i l.
Proof.
  intros Hstep. induction fuel as [| fuel IH]; intros i Hfuel; cbn [range_from].
  - cbn. symmetry. apply drop_ge. lia.
  - destruct (i <? length l)%nat eqn:E.
    + cbn [map concat]. rewrite IH by lia.
      rewrite <- (take_drop step (drop i l)) at 2.
      now rewrite drop_drop.
    + apply Nat.ltb_ge in E. cbn. symmetry. now apply drop_ge.
Qed.

Lemma range_from_below (fuel i stop step : nat) :
  Forall (fun j => (j < stop)%nat) (range_from fuel i stop step).
Proof.
  revert i. induction fuel as [| fuel IH]; intros i; cbn [range_from];
    [constructor |].
  destruct (i <? stop)%nat eqn:E; [| constructor].
  apply Nat.ltb_lt in E. constructor; [assumption | apply IH].
Qed.

(** Every start index but the last leaves room for a full slice. *)
Lemma range_from_full (fuel i stop step : nat) (pre : list nat) (last : nat) :
  range_from fuel i stop step = (pre ++ [last])%list ->
  Forall (fun j => (j + step < stop)%nat) pre.
Proof.
  revert i pre. induction fuel as [| fuel IH]; intros i pre; cbn [range_from].
  - intros Heq. now destruct pre.
  - destruct (i <? stop)%nat eqn:E; [| intros Heq; now destruct pre].
    intros Heq. destruct pre as [| j pre]; [constructor |].
    cbn in Heq. injection Heq as <- Hrest.
    constructor; [| now apply (IH (i + step)%nat)].
    destruct fuel as [| fuel]; cbn [range_from] in Hrest;
      [now destruct pre |].
    destruct (i + step <? stop)%nat eqn:E'; [now apply Nat.ltb_lt |].
    now destruct pre.
Qed.

(** The partition [_chunk_events] computes for a positive batch size:
    the batches concatenate to the input, none is empty or longer than
    the batch size, and all but the last have exactly that size. *)
Lemma _chunk_events_partition (self : Service)
      (events : list (gmap string string)) :
  0 < batch_size self ->
  exists event_batches,
    _chunk_events self events = inr event_batches
    /\ concat event_batches = events
    /\ Forall (fun batch =>
                 (1 <= length batch <= Z.to_nat (batch_size self))%nat)
              event_batches
    /\ forall pre last,
        event_batches = (pre ++ [last])%list ->
        Forall (fun batch => length batch = Z.to_nat (batch_size self)) pre.
Proof.
  intros Hsize. unfold _chunk_events, range0.
  destruct (batch_size self =? 0) eqn:E0; [lia |].
  destruct (batch_size self <? 0) eqn:E1; [lia |].
  cbn [Py.bind]. eexists. split; [reflexivity |].
  set (step := Z.to_nat (batch_size self)).
  assert (Hstep : (1 <= step)%nat) by (unfold step; lia).
  split; [| split].
  - rewrite chunks_concat by lia. reflexivity.
  - apply Forall_map.
    eapply Forall_impl; [apply range_from_below |].
    intros j Hj. cbn in *. rewrite length_take, length_drop. lia.
  - intros pre last Heq.
    apply map_eq_app in Heq as (starts & tl & Hstarts & <- & Htl).
    destruct tl as [| j tl]; [discriminate |].
    destruct tl; [| discriminate].
    apply range_from_full in Hstarts.
    apply Forall_map. eapply Forall_impl; [exact Hstarts |].
    intros k Hk. cbn in *. rewrite length_take, length_drop. lia.
Qed.

(** A delivery leaves the endpoint as it was and logs at least one
    request for the batch. *)
Lemma delivery_posts (self : Service) (batch : list (gmap string string))
      (w : World (list (gmap string string))) :
  exists k,
    network (snd (_send_batch_to_supabase self batch 0 w)) = network w
    /\ posts (snd (_send_batch_to_supabase self batch 0 w))
       = (posts w ++ batch :: repeat batch k)%list.
Proof.
  destruct (DeliveryFacts._send_batch_to_supabase_trace self batch _ 0 w eq_refl)
    as (k & Hk1 & _ & Hnet & Hposts & _).
  destruct k as [| k]; [lia |]. exists k. now split.
Qed.

(** The loop posts every batch before it returns a tally. *)
Lemma send_batches_attempts (self : Service)
      (event_batches : list (list (gmap string string))) :
  forall batch_index t w,
  exists attempts,
    posts (snd (send_batches self batch_index event_batches t w))
    = (posts w ++ attempts)%list
    /\ forall t',
        fst (send_batches self batch_index event_batches t w) = inr t' ->
        forall batch, In batch event_batches -> In batch attempts.
Proof.
  induction event_batches as [| batch rest IH]; intros batch_index t w.
  - exists []. cbn. split; [now rewrite app_nil_r | contradiction].
  - cbn [send_batches].
    destruct (delivery_posts self batch w) as (k & _ & Hposts).
    destruct (_send_batch_to_supabase self batch 0 w)
      as [[[success message] response_data] w1] eqn:Hsend.
    cbn [snd] in Hposts.
    assert (Hcont : forall t1,
               exists attempts,
                 posts (snd (send_batches self (S batch_index) rest t1 w1))
                 = (posts w ++ attempts)%list
                 /\ forall t',
                     fst (send_batches self (S batch_index) rest t1 w1) = inr t' ->
                     forall b, In b (batch :: rest) -> In b attempts).
    { intros t1. destruct (IH (S batch_index) t1 w1) as (more & Hmore & Hall).
      exists ((batch :: repeat batch k) ++ more)%list. split.
      - now rewrite Hmore, Hposts, <- app_assoc.
      - intros t' Hret b [<- | Hb]; [now left |].
        apply in_or_app. right. now apply (Hall t'). }
    destruct success; [| apply Hcont].
    destruct (account_success batch response_data t) as [e | t1]; [| apply Hcont].
    exists (batch :: repeat batch k). cbn [fst snd]. split; [assumption |].
    discriminate.
Qed.

(** The tally only grows at the end: what was recorded stays in front. *)
Lemma account_success_prefix (batch : list (gmap string string))
      (response_data : JValue) (t t' : Tally) :
  account_success batch response_data t = inr t' ->
  exists more, error_list t' = (error_list t ++ more)%list.
Proof.
  unfold account_success.
  destruct (truthy response_data);
    [| intros [= <-]; exists []; cbn; now rewrite app_nil_r].
  repeat match goal with
         | |- Py.bind ?m _ = _ -> _ => destruct m; cbn [Py.bind]; [discriminate |]
         end.
  destruct (truthy _).
  - destruct (iterate _) as [| messages]; cbn [Py.bind]; [discriminate |].
    intros [= <-]. now exists messages.
  - intros [= <-]. exists []. cbn. now rewrite app_nil_r.
Qed.

Lemma send_batches_prefix (self : Service)
      (event_batches : list (list (gmap string string))) :
  forall batch_index t w t',
    fst (send_batches self batch_index event_batches t w) = inr t' ->
    exists more, error_list t' = (error_list t ++ more)%list.
Proof.
  induction event_batches as [| batch rest IH]; intros batch_index t w t'.
  - cbn. intros [= <-]. exists []. now rewrite app_nil_r.
  - cbn [send_batches].
    destruct (_send_batch_to_supabase self batch 0 w)
      as [[[success message] response_data] w1].
    destruct success.
    + destruct (account_success batch response_data t) as [e | t1] eqn:Hacc;
        [discriminate |].
      intros Hret. apply IH in Hret as (more & Hmore).
      apply account_success_prefix in Hacc as (first & Hfirst).
      exists (first ++ more)%list. now rewrite Hmore, Hfirst, <- app_assoc.
    + intros Hret. apply IH in Hret as (more & Hmore).
      cbn [account_failure error_list] in Hmore.
      eexists. rewrite Hmore, <- app_assoc. reflexivity.
Qed.

(** A request answered with status 200 ends the delivery at once. *)
Lemma delivery_succeeds_at_once (self : Service)
      (batch : list (gmap string string))
      (w : World (list (gmap string string))) (text : string) (json : option JValue) :
  network w (length (posts w)) = Response 200 text json ->
  _send_batch_to_supabase self batch 0 w
  = ((true, "Success: 200",
      match json with Some response_data => response_data | None => JDict [] end),
     snd (post batch w)).
Proof.
  intros Hnet. rewrite DeliveryFacts._send_batch_to_supabase_unfold.
  cbn [post fst snd]. now rewrite Hnet.
Qed.

Lemma empty_summary_accepted : summary_accepted (JDict []).
Proof. intros batch t. eexists. reflexivity. Qed.

(** Absent failures the loop issues one request per batch and never
    sleeps. *)
Lemma send_batches_all_succeed (self : Service)
      (event_batches : list (list (gmap string string))) :
  forall batch_index t w,
    always_succeeds w ->
    (exists t', fst (send_batches self batch_index event_batches t w) = inr t')
    /\ posts (snd (send_batches self batch_index event_batches t w))
       = (posts w ++ event_batches)%list
    /\ sleeps (snd (send_batches self batch_index event_batches t w)) = sleeps w.
Proof.
  induction event_batches as [| batch rest IH]; intros batch_index t w Hok.
  - cbn. split; [now exists t |]. now rewrite app_nil_r.
  - cbn [send_batches].
    destruct (Hok (length (posts w))) as (text & json & Hnet & Hjson).
    rewrite (delivery_succeeds_at_once self batch w text json Hnet).
    assert (Hacc : summary_accepted
                     match json with Some d => d | None => JDict [] end).
    { destruct json as [d |]; [now apply Hjson | apply empty_summary_accepted]. }
    destruct (Hacc batch t) as (t1 & Ht1). rewrite Ht1.
    destruct (IH (S batch_index) t1 (snd (post batch w))) as (Hret & Hposts & Hsleeps).
    { intros n. apply (Hok n). }
    split; [exact Hret |]. split.
    + rewrite Hposts. cbn [post snd posts]. now rewrite <- app_assoc.
    + rewrite Hsleeps. reflexivity.
Qed.

(** C8. With a batch size of 100, 250 payloads are cut into the three
    batches of 100, 100 and 50 payloads, in order, and absent failures
    the dispatcher issues exactly these three requests, without waiting.
    For any input the batches concatenate to the input and all but the
    last have the full size; the last may be shorter. *)
Theorem dispatch_of_250_events (self : Service)
        (events : list (gmap string string))
        (w : World (list (gmap string string))) :
  batch_size self = 100 ->
  length events = 250%nat ->
  always_succeeds w ->
  _chunk_events self events
  = inr [take 100 events; take 100 (drop 100 events); drop 200 events]
  /\ map length [take 100 events; take 100 (drop 100 events); drop 200 events]
     = [100; 100; 50]%nat
  /\ posts (snd (send_tracking_events self events w))
     = (posts w ++ [take 100 events; take 100 (drop 100 events); drop 200 events])%list
  /\ sleeps (snd (send_tracking_events self events w)) = sleeps w
  /\ (exists result,
        fst (send_tracking_events self events w) = inr result
        /\ total result = 250)
  /\ (forall payloads,
        exists event_batches,
          _chunk_events self payloads = inr event_batches
          /\ concat event_batches = payloads
          /\ forall pre last,
              event_batches = (pre ++ [last])%list ->
              Forall (fun batch => length batch = 100%nat) pre
              /\ (1 <= length last <= 100)%nat).
Proof.
  intros Hsize Hlen Hok.
  assert (Hchunks : _chunk_events self events
                    = inr [take 100 events; take 100 (drop 100 events);
                           drop 200 events]).
  { assert (Hrange : range0 250 100 = inr [0; 100; 200]%nat)
      by (vm_compute; reflexivity).
    unfold _chunk_events. rewrite Hsize, Hlen, Hrange. cbn [Py.bind map].
    change (Z.to_nat 100) with 100%nat. change (drop 0 events) with events.
    do 3 f_equal. f_equal. apply take_ge. rewrite length_drop. lia. }
  split; [exact Hchunks |]. split.
  { cbn [map]. rewrite !length_take, !length_drop, Hlen. reflexivity. }
  assert (Hne : events <> []) by (intros ->; discriminate).
  unfold send_tracking_events. rewrite Hchunks.
  destruct events as [| event events']; [contradiction |].
  set (event_batches := [take 100 (event :: events');
                         take 100 (drop 100 (event :: events'));
                         drop 200 (event :: events')]) in *.
  destruct (send_batches_all_succeed self event_batches 0 (mkTally 0 0 []) w Hok)
    as ((t' & Hret) & Hposts & Hsleeps).
  destruct (send_batches self 0 event_batches (mkTally 0 0 []) w) as [[e | t] w1];
    [discriminate |].
  cbn [fst snd] in *. split; [exact Hposts |]. split; [exact Hsleeps |].
  split.
  { eexists. split; [reflexivity |]. cbn [total]. rewrite Hlen. reflexivity. }
  intros payloads.
  destruct (_chunk_events_partition self payloads) as (bs & Hbs & Hcat & Hall & Hfull);
    [lia |].
  exists bs. split; [exact Hbs |]. split; [exact Hcat |].
  intros pre last ->. rewrite Hsize in *. split.
  - now apply (Hfull pre last).
  - apply Forall_app in Hall as [_ Hlast]. now inversion Hlast.
Qed.

(** C8 at a sample: 250 copies of an event, sent to an endpoint that
    answers 200 to everything. *)
Lemma dispatch_of_250_events_witness :
  map length (posts (snd (send_tracking_events
                            Samples.supabase (repeat Samples.event 250)
                            Samples.healthy)))
  = [100; 100; 50]%nat.
Proof.
  assert (Hok : always_succeeds
                  (Body := list (gmap string string)) Samples.healthy).
  { intros n. exists "ok", None. split; [reflexivity | discriminate]. }
  destruct (dispatch_of_250_events
              Samples.supabase (repeat Samples.event 250) Samples.healthy
              eq_refl eq_refl Hok) as (_ & Hlens & Hposts & _).
  rewrite Hposts. exact Hlens.
Defined.

(** Two results or counters are the same field by field. *)
Ltac same_tally :=
  cbn; f_equal; f_equal; f_equal;
  solve [lia | reflexivity | now rewrite ?app_nil_r, <- ?app_assoc].

(** The counters of the loop only accumulate: a run that starts from the
    counters [t] adds to them what the same run adds to empty counters. *)
Lemma account_success_shift (batch : list (gmap string string))
      (response_data : JValue) (t : Tally) :
  account_success batch response_data t
  = match account_success batch response_data (mkTally 0 0 []) with
    | inl e => inl e
    | inr a =>
        inr (mkTally (success_count t + success_count a)
                     (error_count t + error_count a)
                     (error_list t ++ error_list a)%list)
    end.
Proof.
  unfold account_success.
  destruct (truthy response_data); [| same_tally].
  repeat match goal with
         | |- context [Py.bind ?m _] =>
             destruct m; cbn [Py.bind]; [reflexivity |]
         end.
  destruct (truthy _); [| same_tally].
  destruct (iterate _) as [e | messages]; cbn [Py.bind]; [reflexivity |].
  same_tally.
Qed.

Lemma send_batches_shift (self : Service)
      (event_batches : list (list (gmap string string))) :
  forall batch_index t w,
    send_batches self batch_index event_batches t w
    = match send_batches self batch_index event_batches (mkTally 0 0 []) w with
      | (inl e, w') => (inl e, w')
      | (inr a, w') =>
          (inr (mkTally (success_count t + success_count a)
                        (error_count t + error_count a)
                        (error_list t ++ error_list a)%list), w')
      end.
Proof.
  induction event_batches as [| batch rest IH]; intros batch_index t w.
  - destruct t. same_tally.
  - cbn [send_batches].
    destruct (_send_batch_to_supabase self batch 0 w)
      as [[[success message] response_data] w1].
    destruct success.
    + rewrite (account_success_shift batch response_data t).
      destruct (account_success batch response_data (mkTally 0 0 [])) as [e | a];
        [reflexivity |].
      rewrite (IH (S batch_index) (mkTally _ _ _) w1).
      rewrite (IH (S batch_index) a w1).
      destruct (send_batches self (S batch_index) rest (mkTally 0 0 []) w1)
        as [[e | r] w2]; [reflexivity |].
      same_tally.
    + rewrite (IH (S batch_index) (account_failure batch_index batch message t) w1).
      rewrite (IH (S batch_index)
                  (account_failure batch_index batch message (mkTally 0 0 [])) w1).
      destruct (send_batches self (S batch_index) rest (mkTally 0 0 []) w1)
        as [[e | r] w2]; [reflexivity |].
      same_tally.
Qed.

(** The loop over [pre ++ rest] is the loop over [pre] followed by the
    loop over [rest]. *)
Lemma send_batches_app (self : Service)
      (pre rest : list (list (gmap string string))) :
  forall batch_index t w,
    send_batches self batch_index (pre ++ rest) t w
    = match send_batches self batch_index pre t w with
      | (inl e, w1) => (inl e, w1)
      | (inr t1, w1) => send_batches self (batch_index + length pre) rest t1 w1
      end.
Proof.
  induction pre as [| batch pre IH]; intros batch_index t w.
  - cbn. now rewrite Nat.add_0_r.
  - cbn [app send_batches length].
    destruct (_send_batch_to_supabase self batch 0 w)
      as [[[success message] response_data] w1].
    replace (batch_index + S (length pre))%nat with (S batch_index + length pre)%nat
      by lia.
    destruct success; [| apply IH].
    destruct (account_success batch response_data t) as [e | t1]; [reflexivity |].
    apply IH.
Qed.

(** A failed delivery: the loop goes on with the next batch. *)
Lemma send_batches_failed_step (self : Service) (batch_index : nat)
      (batch : list (gmap string string))
      (rest : list (list (gmap string string))) (t : Tally)
      (w : World (list (gmap string string)))
      (message : string) (response_data : JValue) :
  fst (_send_batch_to_supabase self batch 0 w) = (false, message, response_data) ->
  send_batches self batch_index (batch :: rest) t w
  = send_batches self (S batch_index) rest
                 (account_failure batch_index batch message t)
                 (snd (_send_batch_to_supabase self batch 0 w)).
Proof.
  intros Hfail. cbn [send_batches].
  destruct (_send_batch_to_supabase self batch 0 w) as [[[success m] d] w1].
  cbn [fst snd] in *. now injection Hfail as -> -> ->.
Qed.

(** The dispatcher after the first batches: it runs the loop over the
    batches that are left from the counters reached, and builds its
    result from the counters the loop ends with. *)
Lemma dispatch_after_prefix (self : Service)
      (events : list (gmap string string))
      (w : World (list (gmap string string)))
      (pre : list (list (gmap string string)))
      (batch : list (gmap string string))
      (rest : list (list (gmap string string)))
      (t1 : Tally) (w1 : World (list (gmap string string))) :
  _chunk_events self events = inr (pre ++ batch :: rest)%list ->
  send_batches self 0 pre (mkTally 0 0 []) w = (inr t1, w1) ->
  send_tracking_events self events w
  = match send_batches self (length pre) (batch :: rest) t1 w1 with
    | (inl e, w3) => (inl e, w3)
    | (inr t, w3) =>
        (inr (mkResult (Z.of_nat (length events)) (success_count t)
                       (error_count t) (error_list t)), w3)
    end.
Proof.
  intros Hchunks Hpre. unfold send_tracking_events.
  destruct events as [| event events'].
  - exfalso. unfold _chunk_events, range0 in Hchunks.
    destruct (batch_size self =? 0); [discriminate |].
    destruct (batch_size self <? 0); cbn in Hchunks;
      injection Hchunks as Hnil; now destruct pre.
  - rewrite Hchunks, send_batches_app, Hpre. reflexivity.
Qed.

(** C7. When the delivery of a batch fails, whatever the batches before
    it gave, the dispatcher adds the batch's full length to the failed
    count, leaves the success count as it is, appends the single message
    [Batch i+1: cause] and goes on with the next batch: what it returns is
    what the loop over the batches that are left returns from these
    counters. So in the result it returns, the failed count, the success
    count and the error list are those reached before the batch, the
    batch's length and its one message, and what the later batches add;
    and every batch of the partition has been posted. *)
Theorem failed_batch_is_counted_and_loop_continues (self : Service)
        (events : list (gmap string string))
        (w : World (list (gmap string string)))
        (pre : list (list (gmap string string)))
        (batch : list (gmap string string))
        (rest : list (list (gmap string string)))
        (t1 : Tally) (w1 : World (list (gmap string string)))
        (message : string) (response_data : JValue) :
  _chunk_events self events = inr (pre ++ batch :: rest)%list ->
  send_batches self 0 pre (mkTally 0 0 []) w = (inr t1, w1) ->
  fst (_send_batch_to_supabase self batch 0 w1) = (false, message, response_data) ->
  let w2 := snd (_send_batch_to_supabase self batch 0 w1) in
  let counted := account_failure (length pre) batch message t1 in
  let summary :=
    JStr ("Batch " ++ Py.str_of_int (Z.of_nat (length pre) + 1) ++ ": " ++ message) in
  (error_count counted = error_count t1 + Z.of_nat (length batch)
   /\ success_count counted = success_count t1
   /\ error_list counted = (error_list t1 ++ [summary])%list)
  /\ send_tracking_events self events w
     = match send_batches self (S (length pre)) rest counted w2 with
       | (inl e, w3) => (inl e, w3)
       | (inr t, w3) =>
           (inr (mkResult (Z.of_nat (length events)) (success_count t)
                          (error_count t) (error_list t)), w3)
       end
  /\ (forall result,
        fst (send_tracking_events self events w) = inr result ->
        exists later attempts,
          fst (send_batches self (S (length pre)) rest (mkTally 0 0 []) w2)
          = inr later
          /\ total result = Z.of_nat (length events)
          /\ failed result
             = error_count t1 + Z.of_nat (length batch) + error_count later
          /\ successful result = success_count t1 + success_count later
          /\ errors result = (error_list t1 ++ [summary] ++ error_list later)%list
          /\ posts (snd (send_tracking_events self events w))
             = (posts w ++ attempts)%list
          /\ forall b, In b (pre ++ batch :: rest)%list -> In b attempts).
Proof.
  intros Hchunks Hpre Hfail. cbn zeta.
  split; [now repeat split |].
  assert (Hrun : send_tracking_events self events w
                 = match send_batches
                           self (S (length pre)) rest
                           (account_failure (length pre) batch message t1)
                           (snd (_send_batch_to_supabase self batch 0 w1)) with
                   | (inl e, w3) => (inl e, w3)
                   | (inr t, w3) =>
                       (inr (mkResult (Z.of_nat (length events)) (success_count t)
                                      (error_count t) (error_list t)), w3)
                   end).
  { rewrite (dispatch_after_prefix self events w pre batch rest t1 w1 Hchunks Hpre).
    now rewrite (send_batches_failed_step
                   self (length pre) batch rest t1 w1 message response_data Hfail). }
  split; [exact Hrun |].
  intros result Hret.
  destruct (send_batches_attempts
              self (pre ++ batch :: rest)%list 0 (mkTally 0 0 []) w)
    as (attempts & Hposts & Hall).
  assert (Hloop : send_tracking_events self events w
                  = match send_batches self 0 (pre ++ batch :: rest)%list
                                       (mkTally 0 0 []) w with
                    | (inl e, w3) => (inl e, w3)
                    | (inr t, w3) =>
                        (inr (mkResult (Z.of_nat (length events)) (success_count t)
                                       (error_count t) (error_list t)), w3)
                    end).
  { rewrite (dispatch_after_prefix self events w pre batch rest t1 w1 Hchunks Hpre).
    rewrite send_batches_app, Hpre. reflexivity. }
  rewrite Hrun in Hret. rewrite send_batches_shift in Hret.
  destruct (send_batches self (S (length pre)) rest (mkTally 0 0 [])
                         (snd (_send_batch_to_supabase self batch 0 w1)))
    as [[e | later] w3] eqn:Hlater; [discriminate |].
  cbn [fst] in Hret. injection Hret as <-.
  exists later, attempts. cbn [total failed successful errors fst].
  cbn [account_failure success_count error_count error_list].
  split; [reflexivity |]. split; [reflexivity |]. split; [reflexivity |].
  split; [reflexivity |]. split; [now rewrite <- app_assoc |].
  rewrite Hloop.
  destruct (send_batches self 0 (pre ++ batch :: rest)%list (mkTally 0 0 []) w)
    as [[e | t] w4] eqn:Hall_batches.
  - exfalso. rewrite Hloop in Hrun. rewrite send_batches_shift, Hlater in Hrun.
    discriminate.
  - cbn [fst snd] in *. split; [exact Hposts |]. exact (Hall t eq_refl).
Qed.

(** C7 at a sample: three batches of one event; the endpoint refuses the
    second connection and answers 200 to the others. The second batch is
    counted as failed with its message, and the third is still sent. *)
Lemma failed_batch_is_counted_and_loop_continues_witness :
  send_tracking_events Samples.supabase_single (repeat Samples.event 3) Samples.flaky
  = (inr (mkResult 3 2 1 [JStr "Batch 2: Connection error: refused"]),
     mkWorld (network (Body := list (gmap string string)) Samples.flaky)
             [[Samples.event]; [Samples.event]; [Samples.event]] []).
Proof.
  rewrite (proj1 (proj2 (failed_batch_is_counted_and_loop_continues
                           Samples.supabase_single (repeat Samples.event 3)
                           Samples.flaky
                           [[Samples.event]] [Samples.event] [[Samples.event]]
                           (mkTally 1 0 []) (snd (post [Samples.event] Samples.flaky))
                           "Connection error: refused" (JDict [])
                           ltac:(vm_compute; reflexivity)
                           ltac:(vm_compute; reflexivity)
                           ltac:(vm_compute; reflexivity)))).
  vm_compute. reflexivity.
Defined.

(** C2, as the code has it. The cap of ten is applied by [to_dict]: its
    [errors] entry holds the first ten recorded messages, oldest first.
    The result the dispatcher returns keeps every message: its counters
    and its error list are those the loop over the batches ends with,
    untouched; a failed batch adds its one message and a batch summary
    adds all of its messages, after what the batches before recorded and
    before what the later batches add. *)
Theorem errors_are_capped_by_to_dict_only (self : Service) :
  (forall result,
      Py.dict_get "errors" (to_dict result) = Some (JList (take 10 (errors result)))
      /\ (length (take 10 (errors result)) <= 10)%nat
      /\ errors result = (take 10 (errors result) ++ drop 10 (errors result))%list)
  /\ (forall events w result event_batches,
        events <> [] ->
        _chunk_events self events = inr event_batches ->
        fst (send_tracking_events self events w) = inr result ->
        exists t,
          fst (send_batches self 0 event_batches (mkTally 0 0 []) w) = inr t
          /\ errors result = error_list t
          /\ failed result = error_count t
          /\ successful result = success_count t)
  /\ (forall events w pre batch rest t1 w1 result,
        _chunk_events self events = inr (pre ++ batch :: rest)%list ->
        send_batches self 0 pre (mkTally 0 0 []) w = (inr t1, w1) ->
        fst (send_tracking_events self events w) = inr result ->
        exists later,
          fst (send_batches self (S (length pre)) rest (mkTally 0 0 [])
                            (snd (_send_batch_to_supabase self batch 0 w1)))
          = inr later
          /\ (forall message response_data,
                fst (_send_batch_to_supabase self batch 0 w1)
                = (false, message, response_data) ->
                errors result
                = (error_list t1
                     ++ [JStr ("Batch " ++ Py.str_of_int (Z.of_nat (length pre) + 1)
                               ++ ": " ++ message)]
                     ++ error_list later)%list)
          /\ (forall message response_data details messages,
                fst (_send_batch_to_supabase self batch 0 w1)
                = (true, message, response_data) ->
                truthy response_data = true ->
                jget response_data "details" (JDict []) = inr details ->
                jget details "error_messages" JNull = inr (JList messages) ->
                errors result
                = (error_list t1 ++ messages ++ error_list later)%list))
  /\ (forall batch response_data t t' details messages,
        account_success batch response_data t = inr t' ->
        truthy response_data = true ->
        jget response_data "details" (JDict []) = inr details ->
        jget details "error_messages" JNull = inr (JList messages) ->
        error_list t' = (error_list t ++ messages)%list)
  /\ (forall batch_index event_batches t w t',
        fst (send_batches self batch_index event_batches t w) = inr t' ->
        exists more, error_list t' = (error_list t ++ more)%list).
Proof.
  assert (Hsummary : forall batch response_data t t' details messages,
             account_success batch response_data t = inr t' ->
             truthy response_data = true ->
             jget response_data "details" (JDict []) = inr details ->
             jget details "error_messages" JNull = inr (JList messages) ->
             error_list t' = (error_list t ++ messages)%list).
  { intros batch response_data t t' details messages Hacc Htruthy Hdetails Hmsgs.
    unfold account_success in Hacc. rewrite Htruthy in Hacc.
    repeat match type of Hacc with
           | Py.bind (jget response_data "details" _) _ = _ =>
               rewrite Hdetails in Hacc; cbn [Py.bind] in Hacc;
               rewrite Hmsgs in Hacc; cbn [Py.bind] in Hacc
           | Py.bind ?m _ = _ =>
               destruct m; cbn [Py.bind] in Hacc; [discriminate |]
           end.
    destruct messages as [| m ms]; cbn in Hacc; injection Hacc as <-; cbn;
      [now rewrite app_nil_r | reflexivity]. }
  split; [| split; [| split; [| split]]].
  - intros result. split; [reflexivity |]. split.
    + rewrite length_take. lia.
    + now rewrite take_drop.
  - intros events w result event_batches Hne Hchunks Hret.
    unfold send_tracking_events in Hret.
    destruct events as [| event events']; [contradiction |].
    rewrite Hchunks in Hret.
    destruct (send_batches self 0 event_batches (mkTally 0 0 []) w)
      as [[e | t] w3]; [discriminate |].
    cbn [fst] in Hret. injection Hret as <-. exists t. now repeat split.
  - intros events w pre batch rest t1 w1 result Hchunks Hpre Hret.
    rewrite (dispatch_after_prefix self events w pre batch rest t1 w1 Hchunks Hpre)
      in Hret.
    cbn [send_batches] in Hret.
    destruct (_send_batch_to_supabase self batch 0 w1)
      as [[[success m] d] w2] eqn:Hsend.
    cbn [fst snd].
    destruct success.
    + destruct (account_success batch d t1) as [e | t2] eqn:Hacc; [discriminate |].
      rewrite send_batches_shift in Hret.
      destruct (send_batches self (S (length pre)) rest (mkTally 0 0 []) w2)
        as [[e | later] w3]; [discriminate |].
      cbn [fst] in Hret. injection Hret as <-. exists later.
      split; [reflexivity |]. split; [discriminate |].
      intros message response_data details messages [= _ <-] Htruthy Hdetails Hmsgs.
      cbn [errors error_list].
      rewrite (Hsummary batch d t1 t2 details messages Hacc Htruthy Hdetails Hmsgs).
      now rewrite <- app_assoc.
    + rewrite send_batches_shift in Hret.
      destruct (send_batches self (S (length pre)) rest (mkTally 0 0 []) w2)
        as [[e | later] w3]; [discriminate |].
      cbn [fst] in Hret. injection Hret as <-. exists later.
      split; [reflexivity |]. split; [| discriminate].
      intros message response_data [= <- _].
      cbn [errors error_list account_failure]. now rewrite <- app_assoc.
  - exact Hsummary.
  - intros batch_index event_batches t w t'. apply send_batches_prefix.
Qed.

(** C2 at a sample: the first batch is answered with a summary of two
    messages, the second is refused; the result holds the three messages
    in this order. *)
Lemma errors_are_capped_by_to_dict_only_witness :
  exists result,
    fst (send_tracking_events Samples.supabase_single (repeat Samples.event 2)
                              Samples.reporting)
    = inr result
    /\ errors result
       = [JStr "bad sku"; JStr "bad date"; JStr "Batch 2: Connection error: refused"].
Proof.
  assert (Hret : succeeded
                   (fst (send_tracking_events
                           Samples.supabase_single (repeat Samples.event 2)
                           Samples.reporting)) = true) by (vm_compute; reflexivity).
  destruct (fst (send_tracking_events
                   Samples.supabase_single (repeat Samples.event 2)
                   Samples.reporting)) as [e | result] eqn:Hrun; [discriminate |].
  exists result. split; [reflexivity |].
  destruct (proj1 (proj2 (proj2 (errors_are_capped_by_to_dict_only
                                   Samples.supabase_single)))
              (repeat Samples.event 2) Samples.reporting
              [] [Samples.event] [[Samples.event]]
              (mkTally 0 0 []) Samples.reporting result
              ltac:(vm_compute; reflexivity) eq_refl Hrun)
    as (later & Hlater & _ & Hsummary).
  rewrite (Hsummary "Success: 200" Samples.summary
                    (JDict [("error_messages",
                              JList [JStr "bad sku"; JStr "bad date"])])
                    [JStr "bad sku"; JStr "bad date"]
                    ltac:(vm_compute; reflexivity) eq_refl eq_refl eq_refl).
  vm_compute in Hlater. injection Hlater as <-. reflexivity.
Defined.

(** C2 as stated fails: eleven batches that all fail leave eleven
    messages in the result the dispatcher returns. *)
Lemma dispatcher_result_exceeds_cap :
  exists result,
    fst (send_tracking_events Samples.supabase_single
                              (repeat Samples.event 11) Samples.refused)
    = inr result
    /\ length (errors result) = 11%nat
    /\ ~ (length (errors result) <= 10)%nat.
Proof.
  eexists. split; [vm_compute; reflexivity |]. cbn. split; [reflexivity | lia].
Qed.

End DispatchFacts.

(** ** Payload mapping *)

Module TransformerFacts.

Import Vocabulary OrderTransformerService.

#[local] Set Warnings "-clear-no-such-hyp".

Section WithEnv.

Context `{PandasEnv}.

(** The test of the loop over the optional fields. *)
Lemma optional_test (value : Cell) :
  negb (isna value)
  && negb (match value with CNone => true | _ => false end)
  && Py.nonempty (Py.strip (str value))
  = present_nonblank value.
Proof. unfold present_nonblank. now destruct value. Qed.

Lemma add_optional_other (row : gmap string Cell) (event : gmap string string)
      (item : string * string) (field : string) :
  fst item <> field ->
  ShipmentTransformerService.add_optional row event item !! field = event !! field.
Proof.
  destruct item as [event_field row_field]. cbn [fst]. intros Hne.
  unfold ShipmentTransformerService.add_optional. rewrite optional_test.
  destruct (present_nonblank (get row row_field)); [| reflexivity].
  now apply lookup_insert_ne.
Qed.

Lemma fold_add_optional_other (row : gmap string Cell)
      (items : list (string * string)) (field : string) :
  ~ In field (map fst items) ->
  forall event,
    fold_left (ShipmentTransformerService.add_optional row) items event !! field
    = event !! field.
Proof.
  induction items as [| item items IH]; intros Hnot event; [reflexivity |].
  cbn [fold_left]. rewrite IH.
  - apply add_optional_other. intros Heq. apply Hnot. now left.
  - intros Hin. apply Hnot. now right.
Qed.

(** After the loop an optional field holds the trimmed text of the row's
    value when that value is present and non-blank, and what the event
    held before otherwise. *)
Lemma fold_add_optional_lookup (row : gmap string Cell)
      (items : list (string * string)) :
  NoDup (map fst items) ->
  forall event event_field row_field,
    In (event_field, row_field) items ->
    fold_left (ShipmentTransformerService.add_optional row) items event !! event_field
    = if present_nonblank (get row row_field)
      then Some (Py.strip (str (get row row_field)))
      else event !! event_field.
Proof.
  induction items as [| [ef rf] items IH]; intros Hnodup event event_field row_field Hin;
    [contradiction |].
  cbn [map fst] in Hnodup. apply NoDup_cons in Hnodup as [Hfresh Hnodup].
  cbn [fold_left]. destruct Hin as [[= -> ->] | Hin].
  - rewrite fold_add_optional_other
      by (intros Hin; apply Hfresh; now apply list_elem_of_In).
    unfold ShipmentTransformerService.add_optional. rewrite optional_test.
    destruct (present_nonblank (get row row_field)); [| reflexivity].
    apply lookup_insert_eq.
  - rewrite (IH Hnodup _ _ _ Hin).
    destruct (present_nonblank (get row row_field)); [reflexivity |].
    apply add_optional_other. cbn [fst]. intros ->.
    apply Hfresh. apply list_elem_of_In.
    change event_field with (fst (event_field, row_field)). now apply in_map.
Qed.

Lemma present_nonblank_not_empty (value : Cell) :
  present_nonblank value = true -> Py.strip (str value) <> "".
Proof.
  unfold present_nonblank. intros Hp. apply andb_true_iff in Hp as [_ Hp].
  intros Heq. now rewrite Heq in Hp.
Qed.

(** C4, as the code has it. In a tracking event each of the four
    optional fields is present exactly when the row's value is present
    and non-blank, and then holds its trimmed text, never the empty
    string. In a webhook payload the key [shipping_promise_date] is
    always present: it holds the serialised date, or null when the
    row has no usable date. *)
Theorem optional_fields_in_payloads :
  (forall row event field,
      ShipmentTransformerService._build_tracking_event row = inr event ->
      In field tracking_optional_fields ->
      event !! field
      = (if present_nonblank (get row field)
         then Some (Py.strip (str (get row field)))
         else None)
      /\ event !! field <> Some "")
  /\ (forall order_id first_row sku_dict payload,
        _build_webhook_payload order_id first_row sku_dict = inr payload ->
        payload !! "shipping_promise_date"
        = Some match DatetimeUtils.to_iso8601_clt
                       (get first_row "shipping_promise_date") with
               | Some s => PStr s
               | None => PNone
               end).
Proof.
  split.
  - intros row event field Hbuild Hfield.
    unfold ShipmentTransformerService._build_tracking_event in Hbuild.
    repeat match type of Hbuild with
           | Py.bind ?m _ = _ =>
               destruct m; cbn [Py.bind] in Hbuild; [discriminate |]
           end.
    match type of Hbuild with
    | inr (fold_left _ _ ?base) = _ =>
        set (event0 := base) in *;
        assert (Hevent : event
                         = fold_left (ShipmentTransformerService.add_optional row)
                                     ShipmentTransformerService.optional_fields
                                     event0) by congruence
    end.
    clear Hbuild. subst event.
    assert (Hbase : event0 !! field = None).
    { subst event0. cbn in Hfield.
      destruct Hfield as [<- | [<- | [<- | [<- | []]]]];
        rewrite !lookup_insert_ne by discriminate; apply lookup_empty. }
    assert (Hlookup :
              fold_left (ShipmentTransformerService.add_optional row)
                        ShipmentTransformerService.optional_fields event0 !! field
              = if present_nonblank (get row field)
                then Some (Py.strip (str (get row field)))
                else None).
    { assert (Hnodup : NoDup (map fst ShipmentTransformerService.optional_fields)).
      { cbn. repeat constructor; rewrite ?list_elem_of_In; cbn;
          intuition discriminate. }
      rewrite (fold_add_optional_lookup row _ Hnodup event0 field field).
      - now rewrite Hbase.
      - cbn in Hfield |- *.
        destruct Hfield as [<- | [<- | [<- | [<- | []]]]]; auto. }
    split; [exact Hlookup |].
    rewrite Hlookup.
    destruct (present_nonblank (get row field)) eqn:Hp; [| discriminate].
    intros [= Heq]. now apply present_nonblank_not_empty in Hp.
  - intros order_id first_row sku_dict payload Hbuild.
    unfold _build_webhook_payload in Hbuild.
    destruct (DatetimeUtils.to_iso8601_clt (get first_row "order_created_at"));
      [| discriminate].
    repeat match type of Hbuild with
           | Py.bind ?m _ = _ =>
               destruct m; cbn [Py.bind] in Hbuild; [discriminate |]
           end.
    injection Hbuild as <-.
    rewrite lookup_insert_ne by discriminate. apply lookup_insert_eq.
Qed.

Lemma format_timestamp_unparseable (value : Cell) :
  isna value = true \/ as_timestamp value = None ->
  ShipmentTransformerService._format_timestamp value = None.
Proof.
  unfold ShipmentTransformerService._format_timestamp.
  intros [Hna | Hparse].
  - now rewrite Hna.
  - rewrite Hparse. now destruct (isna value || _).
Qed.

(** A row whose event timestamp is missing or unparseable yields no
    event. *)
Lemma build_tracking_event_fails (row : gmap string Cell) :
  (forall value, row !! "event_timestamp" = Some value ->
                 isna value = true \/ as_timestamp value = None) ->
  exists e, ShipmentTransformerService._build_tracking_event row = inl e.
Proof.
  intros Hbad. unfold ShipmentTransformerService._build_tracking_event.
  destruct (getitem row "event_status") as [e | status]; cbn [Py.bind];
    [now exists e |].
  destruct (getitem row "marketplace") as [e | marketplace]; cbn [Py.bind];
    [now exists e |].
  unfold getitem at 1.
  destruct (row !! "event_timestamp") as [value |] eqn:Hvalue; cbn [Py.bind];
    [| eexists; reflexivity].
  rewrite (format_timestamp_unparseable value (Hbad value eq_refl)).
  destruct (getitem row "marketplace_order_id") as [e | order_id];
    cbn [Py.bind]; eexists; reflexivity.
Qed.

(** C5, as the code has it. A value that parses to a timestamp without
    time zone is serialised, in the tracking flow, as date, [T], time
    and the offset [+00:00], with the microseconds or nanoseconds of
    the value between time and offset when it has any, and with
    nothing there (second-level precision) when it has none; in the
    second flow it is read as a wall time of America/Santiago and
    serialised at second-level precision with that zone's offset, or
    not at all when the zone has no such wall time. A row whose event
    timestamp is missing or unparseable is skipped by the tracking
    flow, and an order whose creation date cannot be serialised raises
    in the second flow. *)
Theorem timestamp_serialisation :
  (forall value ts,
      isna value = false ->
      as_timestamp value = Some ts ->
      utcoffset ts = None ->
      ShipmentTransformerService._format_timestamp value
      = Some (format_date ts ++ "T" ++ format_hms ts
                ++ format_fraction Auto ts ++ "+00:00")
      /\ (microsecond ts = 0%N -> nanosecond ts = 0%N ->
            ShipmentTransformerService._format_timestamp value
            = Some (format_date ts ++ "T" ++ format_hms ts ++ "+00:00"))
      /\ DatetimeUtils.to_iso8601_clt value
         = match santiago_localize ts with
           | Some off =>
               Some (format_date ts ++ "T" ++ format_hms ts
                       ++ format_offset (Some off))
           | None => None
           end)
  /\ (forall row acc,
        (forall value, row !! "event_timestamp" = Some value ->
                       isna value = true \/ as_timestamp value = None) ->
        ShipmentTransformerService.transform_step acc row
        = (fst acc, snd acc + 1))
  /\ (forall order_id first_row sku_dict,
        DatetimeUtils.to_iso8601_clt (get first_row "order_created_at") = None ->
        _build_webhook_payload order_id first_row sku_dict
        = inl ("Missing required date field: order_created_at for order "
               ++ str order_id)).
Proof.
  split; [| split].
  - intros value ts Hna Hts Hnaive.
    assert (Hutc : ShipmentTransformerService._format_timestamp value
                   = Some (format_date ts ++ "T" ++ format_hms ts
                             ++ format_fraction Auto ts ++ "+00:00")).
    { unfold ShipmentTransformerService._format_timestamp.
      rewrite Hna, Hts, Hnaive.
      replace (false || match value with CNone => true | _ => false end)
        with false by (now destruct value).
      destruct ts; reflexivity. }
    split; [exact Hutc |]. split.
    + intros Hus Hns. rewrite Hutc. unfold format_fraction.
      now rewrite Hus, Hns.
    + unfold DatetimeUtils.to_iso8601_clt. rewrite Hts, Hnaive.
      destruct value; try discriminate;
        (destruct (santiago_localize ts); [destruct ts |]; reflexivity).
  - intros row [tracking_events skipped_count] Hbad.
    unfold ShipmentTransformerService.transform_step. cbn [fst snd].
    destruct (ShipmentTransformerService._validate_required_fields row);
      [| reflexivity].
    cbn [negb]. destruct (build_tracking_event_fails row Hbad) as (e & ->).
    reflexivity.
  - intros order_id first_row sku_dict Hnone.
    unfold _build_webhook_payload. now rewrite Hnone.
Qed.

Lemma remove_dups_length (l : list string) :
  (length (remove_dups l) <= length l)%nat.
Proof.
  induction l as [| x l IH]; cbn; [lia |].
  destruct (decide_rel elem_of x l); cbn; lia.
Qed.

Lemma size_list_to_set_remove_dups (l : list string) :
  size (list_to_set l : gset string) = length (remove_dups l).
Proof.
  rewrite <- (size_list_to_set (C := gset string) (remove_dups l))
    by apply NoDup_remove_dups.
  f_equal. apply set_eq. intros x.
  now rewrite !elem_of_list_to_set, elem_of_remove_dups.
Qed.

(** One round of the loop of [_build_sku_dict]. *)
Lemma build_sku_loop_cons (row : gmap string Cell)
      (rest : list (gmap string Cell)) (sku_dict sku_dict' : gmap string SkuItem) :
  build_sku_loop (row :: rest) sku_dict = inr sku_dict' ->
  exists item,
    sku_item_of row = inr item
    /\ build_sku_loop rest (<[seller_sku_of row := item]> sku_dict) = inr sku_dict'.
Proof.
  cbn [build_sku_loop]. unfold sku_item_of, seller_sku_of, getitem, get.
  destruct (row !! "seller_sku") as [seller_sku |]; cbn [Py.bind]; [| discriminate].
  destruct (row !! "quantity") as [qty |]; cbn [Py.bind]; [| discriminate].
  destruct (int_of_cell qty) as [e | n]; cbn [Py.bind]; [discriminate |].
  destruct (row !! "sku_name") as [sku_name |]; cbn [Py.bind]; [| discriminate].
  destruct (row !! "market_place_match_id") as [match_id |]; cbn [Py.bind];
    [| discriminate].
  intros Hrest. eexists. split; [reflexivity | exact Hrest].
Qed.

Lemma build_sku_loop_dom (rows : list (gmap string Cell)) :
  forall sku_dict sku_dict',
    build_sku_loop rows sku_dict = inr sku_dict' ->
    dom sku_dict' = dom sku_dict ∪ list_to_set (map seller_sku_of rows).
Proof.
  induction rows as [| row rest IH]; intros sku_dict sku_dict' Hbuild.
  - cbn in Hbuild. injection Hbuild as <-. cbn. set_solver.
  - apply build_sku_loop_cons in Hbuild as (item & _ & Hrest).
    apply IH in Hrest. rewrite Hrest, dom_insert_L. cbn [map list_to_set].
    set_solver.
Qed.

Lemma build_sku_loop_other (rows : list (gmap string Cell)) (key : string) :
  ~ In key (map seller_sku_of rows) ->
  forall sku_dict sku_dict',
    build_sku_loop rows sku_dict = inr sku_dict' ->
    sku_dict' !! key = sku_dict !! key.
Proof.
  induction rows as [| row rest IH]; intros Hfresh sku_dict sku_dict' Hbuild.
  - cbn in Hbuild. now injection Hbuild as <-.
  - apply build_sku_loop_cons in Hbuild as (item & _ & Hrest).
    rewrite (IH (fun Hin => Hfresh (or_intror Hin)) _ _ Hrest).
    apply lookup_insert_ne. intros Heq. apply Hfresh. now left.
Qed.

(** The last row of a seller SKU decides the item kept under it. *)
Lemma build_sku_loop_last (pre : list (gmap string Cell))
      (row : gmap string Cell) (post : list (gmap string Cell)) :
  ~ In (seller_sku_of row) (map seller_sku_of post) ->
  forall sku_dict sku_dict',
    build_sku_loop (pre ++ row :: post) sku_dict = inr sku_dict' ->
    exists item,
      sku_item_of row = inr item
      /\ sku_dict' !! seller_sku_of row = Some item.
Proof.
  intros Hlast. induction pre as [| first pre IH]; intros sku_dict sku_dict' Hbuild.
  - cbn [app] in Hbuild.
    apply build_sku_loop_cons in Hbuild as (item & Hitem & Hrest).
    exists item. split; [exact Hitem |].
    rewrite (build_sku_loop_other post _ Hlast _ _ Hrest).
    apply lookup_insert_eq.
  - cbn [app] in Hbuild.
    apply build_sku_loop_cons in Hbuild as (item & _ & Hrest).
    now apply IH in Hrest.
Qed.

(** C3, as the code has it. The line-item mapping of a payload is keyed
    by the seller SKU: its keys are the seller SKUs of the group's
    rows, so it has one item per distinct seller SKU, never more items
    than rows, and as many items as rows when the seller SKUs of the
    rows differ; under each key it holds the item of the last row with
    that seller SKU. *)
Theorem line_items_are_keyed_by_seller_sku
        (order_id : Cell) (group : list (gmap string Cell))
        (payload : gmap string PValue) :
  transform_group order_id group = inr payload ->
  exists sku_dict,
    payload !! "sku" = Some (PSku sku_dict)
    /\ dom sku_dict = list_to_set (map seller_sku_of group)
    /\ size sku_dict = length (remove_dups (map seller_sku_of group))
    /\ (size sku_dict <= length group)%nat
    /\ (NoDup (map seller_sku_of group) -> size sku_dict = length group)
    /\ (forall pre row post,
          group = (pre ++ row :: post)%list ->
          ~ In (seller_sku_of row) (map seller_sku_of post) ->
          exists item,
            sku_item_of row = inr item
            /\ sku_dict !! seller_sku_of row = Some item).
Proof.
  intros Htransform. unfold transform_group in Htransform.
  destruct group as [| first_row rest] eqn:Hgroup; [discriminate |].
  rewrite <- Hgroup in *.
  destruct (_build_sku_dict group) as [e | sku_dict] eqn:Hsku;
    cbn [Py.bind] in Htransform; [discriminate |].
  exists sku_dict.
  assert (Hdom : dom sku_dict = list_to_set (map seller_sku_of group)).
  { unfold _build_sku_dict in Hsku. apply build_sku_loop_dom in Hsku.
    rewrite Hsku, dom_empty_L. set_solver. }
  assert (Hsize : size sku_dict = length (remove_dups (map seller_sku_of group))).
  { rewrite <- size_list_to_set_remove_dups, <- Hdom. symmetry. apply size_dom. }
  split.
  { unfold _build_webhook_payload in Htransform.
    destruct (DatetimeUtils.to_iso8601_clt (get first_row "order_created_at"));
      [| discriminate].
    repeat match type of Htransform with
           | Py.bind ?m _ = _ =>
               destruct m; cbn [Py.bind] in Htransform; [discriminate |]
           end.
    assert (Hpayload : payload !! "sku" = Some (PSku sku_dict));
      [| exact Hpayload].
    match type of Htransform with
    | inr ?built = _ =>
        assert (Heq : payload = built) by congruence
    end.
    rewrite Heq. apply lookup_insert_eq. }
  split; [exact Hdom |]. split; [exact Hsize |]. split.
  { rewrite Hsize. etransitivity; [apply remove_dups_length |].
    now rewrite length_map. }
  split.
  { intros Hnodup. rewrite <- size_dom, Hdom.
    rewrite size_list_to_set by exact Hnodup. apply length_map. }
  intros pre row post Hsplit Hlast.
  unfold _build_sku_dict in Hsku. rewrite Hsplit in Hsku.
  now apply (build_sku_loop_last pre row post Hlast ∅ sku_dict).
Qed.

End WithEnv.

(** C4 at a sample: the courier of the sample row is copied trimmed and
    its blank note is left out. *)
Lemma optional_fields_in_payloads_witness :
  payload_field (ShipmentTransformerService._build_tracking_event
                   (H := Samples.env) Samples.tracking_row) "courier_name"
  = Some "Correos"
  /\ payload_field (ShipmentTransformerService._build_tracking_event
                      (H := Samples.env) Samples.tracking_row) "notes"
     = None.
Proof.
  assert (Hbuilt : succeeded (ShipmentTransformerService._build_tracking_event
                                (H := Samples.env) Samples.tracking_row) = true)
    by (vm_compute; reflexivity).
  destruct (ShipmentTransformerService._build_tracking_event
              (H := Samples.env) Samples.tracking_row) as [e | event] eqn:Hbuild;
    [discriminate |].
  cbn [payload_field]. split.
  - rewrite (proj1 (proj1 (optional_fields_in_payloads (H := Samples.env))
                      Samples.tracking_row event "courier_name" Hbuild
                      (or_intror (or_introl eq_refl)))).
    vm_compute. reflexivity.
  - rewrite (proj1 (proj1 (optional_fields_in_payloads (H := Samples.env))
                      Samples.tracking_row event "notes" Hbuild
                      (or_intror (or_intror (or_intror (or_introl eq_refl)))))).
    vm_compute. reflexivity.
Defined.

(** C4 as stated fails: an order without shipping promise date gets a
    payload whose [shipping_promise_date] key is present and null. *)
Lemma shipping_promise_date_is_emitted_as_null :
  Samples.order_row "A" 1 !! "shipping_promise_date" = None
  /\ payload_field (_build_webhook_payload
                      (H := Samples.env) (CStr "o1") (Samples.order_row "A" 1) ∅)
                   "shipping_promise_date"
     = Some PNone.
Proof. split; vm_compute; reflexivity. Qed.

(** C5 at a sample: midnight of 1 January 2024, without time zone. *)
Lemma timestamp_serialisation_witness :
  ShipmentTransformerService._format_timestamp
    (H := Samples.env) (CTimestamp Samples.new_year)
  = Some "2024-01-01T00:00:00+00:00".
Proof.
  apply (proj1 (timestamp_serialisation (H := Samples.env))
           (CTimestamp Samples.new_year) Samples.new_year
           eq_refl eq_refl eq_refl);
    reflexivity.
Defined.

(** C5 as stated fails twice: the tracking flow keeps the microseconds
    of a timestamp, so its output is not at second-level precision; and
    in the second flow an unparseable shipping promise date does not stop
    the payload, which carries null for it. *)
Lemma sub_second_digits_and_null_dates_are_emitted :
  ShipmentTransformerService._format_timestamp
    (H := Samples.env) (CTimestamp Samples.half_past)
  = Some "2024-01-01T00:00:00.500000+00:00"
  /\ isoformat "T" Seconds (with_offset Samples.half_past (Some 0))
     = "2024-01-01T00:00:00+00:00"
  /\ as_timestamp (H := Samples.env) (CStr "soon") = None
  /\ payload_field
       (_build_webhook_payload
          (H := Samples.env) (CStr "o1")
          (<["shipping_promise_date" := CStr "soon"]> (Samples.order_row "A" 1)) ∅)
       "shipping_promise_date"
     = Some PNone.
Proof. repeat split; vm_compute; reflexivity. Qed.

(** C3 at a sample: two rows with different seller SKUs give two line
    items. *)
Lemma line_items_are_keyed_by_seller_sku_witness :
  match transform_group (H := Samples.env) (CStr "o1")
                        [Samples.order_row "A" 1; Samples.order_row "B" 2] with
  | inr payload => line_item_count payload = Some 2%nat
  | inl _ => False
  end.
Proof.
  assert (Hbuilt : succeeded (transform_group
                                (H := Samples.env) (CStr "o1")
                                [Samples.order_row "A" 1; Samples.order_row "B" 2])
                   = true) by (vm_compute; reflexivity).
  destruct (transform_group (H := Samples.env) (CStr "o1")
                            [Samples.order_row "A" 1; Samples.order_row "B" 2])
    as [e | payload] eqn:Htransform; [discriminate |].
  destruct (line_items_are_keyed_by_seller_sku
              (H := Samples.env) _ _ _ Htransform)
    as (sku_dict & Hsku & _ & _ & _ & Hdistinct & _).
  unfold line_item_count. rewrite Hsku. f_equal. apply Hdistinct.
  assert (Hkeys : map seller_sku_of [Samples.order_row "A" 1; Samples.order_row "B" 2]
                  = ["A"; "B"]) by (vm_compute; reflexivity).
  rewrite Hkeys. apply NoDup_cons. split.
  - rewrite list_elem_of_In. cbn. intuition discriminate.
  - apply NoDup_cons. split; [rewrite list_elem_of_In; cbn; tauto | apply NoDup_nil_2].
Defined.

(** C3 as stated fails: two rows of one order with the same seller SKU
    give a payload with one line item, that of the second row. *)
Lemma rows_sharing_a_seller_sku_are_merged :
  match transform_to_webhooks (H := Samples.env)
                              [Samples.order_row "A" 1; Samples.order_row "A" 2] with
  | inr webhooks =>
      map line_item_count webhooks = [Some 1%nat]
      /\ map (fun payload => line_item_quantity payload "A") webhooks = [Some 2]
  | inl _ => False
  end
  /\ length [Samples.order_row "A" 1; Samples.order_row "A" 2] = 2%nat.
Proof. vm_compute. repeat split. Qed.

End TransformerFacts.

(** ** Status tables: further properties *)

Module StatusTableFacts.

Import StatusMapping.

(** The result depends on the two arguments only through their cleaned
    forms: two calls with non-empty arguments that agree after
    lower-casing and trimming return the same status. *)
Theorem normalize_status_ignores_case_and_padding
        (s1 s2 m1 m2 : string) :
  s1 <> "" -> s2 <> "" -> m1 <> "" -> m2 <> "" ->
  Py.strip (Py.lower s1) = Py.strip (Py.lower s2) ->
  Py.strip (Py.lower m1) = Py.strip (Py.lower m2) ->
  normalize_status (Some s1) (Some m1) = normalize_status (Some s2) (Some m2).
Proof.
  intros Hs1 Hs2 Hm1 Hm2 Hs Hm.
  unfold normalize_status, normalize_status_in.
  destruct s1; [contradiction |]. destruct s2; [contradiction |].
  destruct m1; [contradiction |]. destruct m2; [contradiction |].
  cbn [Py.nonempty negb orb]. now rewrite Hs, Hm.
Qed.

Lemma normalize_status_ignores_case_and_padding_witness :
  normalize_status (Some " Shipped") (Some "MELI ")
  = normalize_status (Some "shipped") (Some "meli").
Proof.
  apply normalize_status_ignores_case_and_padding;
    try discriminate; reflexivity.
Defined.

Lemma validate_mapping_complete (general : list (string * list string))
      (marketplace : string) (mapping : list (string * string)) :
  (forall raw_status plugup_status,
      In (raw_status, plugup_status) mapping ->
      In plugup_status (Py.dict_keys general)) ->
  validate_mapping general marketplace mapping = inr true.
Proof.
  induction mapping as [| [r p] mapping IH]; intros Hall; cbn; [reflexivity |].
  assert (Hp : Py.mem p (Py.dict_keys general) = true)
    by (apply StatusMappingFacts.mem_In; apply (Hall r p); now left).
  rewrite Hp. cbn. apply IH. intros raw ps Hin. apply (Hall raw ps). now right.
Qed.

Lemma validate_result_shape (general : list (string * list string))
      (specific : list (string * list (string * string))) (b : bool) :
  validate_marketplaces general specific = inr b -> b = true.
Proof.
  induction specific as [| [m mp] specific IH]; cbn; [now intros [= <-] |].
  destruct (validate_mapping general m mp); [discriminate | exact IH].
Qed.

(** For any pair of tables the validation run at import passes exactly
    when every status a marketplace table maps to is a key of the general
    table; otherwise it raises. *)
Theorem validate_status_mapping_in_iff
        (general : list (string * list string))
        (specific : list (string * list (string * string))) :
  (validate_status_mapping_in general specific = inr true
   <-> forall marketplace mapping raw_status plugup_status,
      In (marketplace, mapping) specific ->
      In (raw_status, plugup_status) mapping ->
      In plugup_status (Py.dict_keys general))
  /\ ((exists e, validate_status_mapping_in general specific = inl e)
      \/ validate_status_mapping_in general specific = inr true).
Proof.
  split.
  - split.
    + intros Hok. now apply (StatusMappingFacts.validate_marketplaces_sound _ _ true).
    + unfold validate_status_mapping_in.
      induction specific as [| [m mp] specific IH]; intros Hall; cbn; [reflexivity |].
      rewrite validate_mapping_complete.
      * apply IH. intros mk mapping raw ps Hin. apply (Hall mk mapping). now right.
      * intros raw ps Hin. apply (Hall m mp raw ps); [now left | assumption].
  - unfold validate_status_mapping_in.
    destruct (validate_marketplaces general specific) as [e | b] eqn:E.
    + left. now exists e.
    + right. now rewrite (validate_result_shape _ _ _ E).
Qed.

(** A table that maps a status to a non-canonical value is rejected. *)
Example validate_rejects_unknown_target :
  validate_status_mapping_in PLUGUP_STATUS_MAPPING
                             [("meli", [("shipped", "sent")])]
  = inl "Invalid PlugUp status 'sent' in meli mapping for 'shipped'".
Proof. reflexivity. Qed.

(** The cleaned marketplace selects one of the four tables or none. *)
Lemma marketplace_table_cases (clean_marketplace : string) :
  Py.dict_get clean_marketplace MARKETPLACE_STATUS_MAPPING = None
  \/ exists name mapping,
      In name ["meli"; "fala"; "walm"; "cenc"]
      /\ Py.dict_get name MARKETPLACE_STATUS_MAPPING = Some mapping
      /\ Py.dict_get clean_marketplace MARKETPLACE_STATUS_MAPPING = Some mapping.
Proof.
  unfold MARKETPLACE_STATUS_MAPPING. cbn [Py.dict_get].
  destruct (String.eqb clean_marketplace "meli");
    [right; eexists "meli", _; cbn; intuition |].
  destruct (String.eqb clean_marketplace "fala");
    [right; eexists "fala", _; cbn; intuition |].
  destruct (String.eqb clean_marketplace "walm");
    [right; eexists "walm", _; cbn; intuition |].
  destruct (String.eqb clean_marketplace "cenc");
    [right; eexists "cenc", _; cbn; intuition |].
  now left.
Qed.

(** Normalising is not idempotent: under every marketplace each canonical
    status is normalised to itself, except [dispatched], which no table
    lists as an input and which therefore becomes [pending]. *)
Theorem canonical_statuses_renormalised (marketplace status : string) :
  marketplace <> "" ->
  In status get_supported_statuses ->
  normalize_status (Some status) (Some marketplace)
  = if String.eqb status "dispatched" then "pending" else status.
Proof.
  intros Hmp Hstatus.
  destruct marketplace as [| c mp]; [contradiction |].
  unfold normalize_status, normalize_status_in.
  set (clean_marketplace := Py.strip (Py.lower (String c mp))).
  destruct (marketplace_table_cases clean_marketplace)
    as [-> | (name & mapping & Hname & Hmapping & ->)].
  - cbn in Hstatus.
    repeat (destruct Hstatus as [<- | Hstatus]; [reflexivity |]).
    contradiction.
  - cbn in Hname, Hstatus.
    repeat (destruct Hname as [<- | Hname];
            [vm_compute in Hmapping; injection Hmapping as <-;
             repeat (destruct Hstatus as [<- | Hstatus]; [reflexivity |]);
             contradiction |]).
    contradiction.
Qed.

Lemma canonical_statuses_renormalised_witness :
  normalize_status (Some "dispatched") (Some "meli") = "pending"
  /\ normalize_status (Some "in_transit") (Some "meli") = "in_transit".
Proof.
  split.
  - apply (canonical_statuses_renormalised "meli" "dispatched");
      [discriminate | cbn; tauto].
  - apply (canonical_statuses_renormalised "meli" "in_transit");
      [discriminate | cbn; tauto].
Defined.

(** Every status [get_marketplace_statuses] lists for a marketplace is
    resolved by that marketplace's own table: normalising it returns the
    table's entry, never the general table's or the fallback. *)
Theorem listed_statuses_use_their_table (marketplace status : string) :
  In status (get_marketplace_statuses marketplace) ->
  exists mapping,
    Py.dict_get (Py.strip (Py.lower marketplace)) MARKETPLACE_STATUS_MAPPING
    = Some mapping
    /\ Py.dict_get status mapping
       = Some (normalize_status (Some status) (Some marketplace)).
Proof.
  unfold get_marketplace_statuses. intros Hstatus.
  destruct marketplace as [| c mp]; [contradiction |].
  unfold normalize_status, normalize_status_in.
  set (clean_marketplace := Py.strip (Py.lower (String c mp))) in *.
  destruct (marketplace_table_cases clean_marketplace)
    as [Hnone | (name & mapping & Hname & Hmapping & Hsome)].
  - rewrite Hnone in Hstatus. contradiction.
  - rewrite Hsome in *. exists mapping. split; [reflexivity |].
    cbn in Hname.
    repeat (destruct Hname as [<- | Hname];
            [vm_compute in Hmapping; injection Hmapping as <-;
             cbn in Hstatus;
             repeat (destruct Hstatus as [<- | Hstatus]; [reflexivity |]);
             contradiction |]).
    contradiction.
Qed.

Lemma listed_statuses_use_their_table_witness :
  exists mapping,
    Py.dict_get (Py.strip (Py.lower "Cenc")) MARKETPLACE_STATUS_MAPPING
    = Some mapping
    /\ Py.dict_get "entregada" mapping
       = Some (normalize_status (Some "entregada") (Some "Cenc")).
Proof.
  apply (listed_statuses_use_their_table "Cenc" "entregada").
  vm_compute. tauto.
Defined.

End StatusTableFacts.

(** ** Delivery with retry: further properties *)

Module RetryFacts.

Import Vocabulary.

Lemma after_retries_zero {Body : Type} (body : Body) (retry_count : Z)
      (w : World Body) :
  after_retries body retry_count 0 w = w.
Proof.
  destruct w as [net ps sl]. unfold after_retries, backoff_waits. cbn.
  now rewrite !app_nil_r.
Qed.

Lemma after_retries_succ {Body : Type} (body : Body) (retry_count : Z) (k : nat)
      (w : World Body) :
  after_retries body (retry_count + 1) k
                (sleep (2 ^ retry_count) (snd (post body w)))
  = after_retries body retry_count (S k) w.
Proof.
  unfold after_retries. cbn [post sleep snd network posts sleeps].
  rewrite DeliveryFacts.backoff_waits_cons, <- !app_assoc. reflexivity.
Qed.

(** While the endpoint keeps answering with retryable outcomes and retries
    remain, the edge function client keeps sending: after [k] such answers
    it stands where a call with [retry_count + k] would start. *)
Lemma _send_batch_to_supabase_after_retries (self : SupabaseService.Service)
      (events : list (gmap string string)) (k : nat) :
  forall retry_count w,
    retry_count + Z.of_nat k <= SupabaseService.max_retries self ->
    (forall i, (i < k)%nat ->
               retryable (network w (length (posts w) + i)) = true) ->
    SupabaseService._send_batch_to_supabase self events retry_count w
    = SupabaseService._send_batch_to_supabase
        self events (retry_count + Z.of_nat k)
        (after_retries events retry_count k w).
Proof.
  induction k as [| k IH]; intros retry_count w Hbudget Hretry.
  - now rewrite after_retries_zero, Z.add_0_r.
  - rewrite DeliveryFacts._send_batch_to_supabase_unfold. cbn zeta.
    assert (Hlt : (retry_count <? SupabaseService.max_retries self) = true)
      by (apply Z.ltb_lt; lia).
    assert (Hnext :
              SupabaseService._send_batch_to_supabase
                self events (retry_count + 1)
                (sleep (2 ^ retry_count) (snd (post events w)))
              = SupabaseService._send_batch_to_supabase
                  self events (retry_count + Z.of_nat (S k))
                  (after_retries events retry_count (S k) w)).
    { rewrite IH.
      - rewrite after_retries_succ. f_equal. lia.
      - lia.
      - intros i Hi. cbn [post sleep snd network posts].
        rewrite length_app. cbn [length].
        replace (length (posts w) + 1 + i)%nat with (length (posts w) + S i)%nat
          by lia.
        apply Hretry. lia. }
    specialize (Hretry 0%nat (Nat.lt_0_succ k)). rewrite Nat.add_0_r in Hretry.
    cbn [post fst].
    destruct (network w (length (posts w))) as [code text json | | e | e | e];
      cbn [retryable] in Hretry; try discriminate.
    + destruct (code =? 200) eqn:E200; [apply Z.eqb_eq in E200; lia |].
      rewrite Hretry, Hlt. exact Hnext.
    + rewrite Hlt. exact Hnext.
Qed.

Lemma _send_single_order_after_retries (self : WebhookService.Service)
      (order : gmap string OrderTransformerService.PValue) (k : nat) :
  forall retry_count w,
    retry_count + Z.of_nat k <= WebhookService.max_retries self ->
    (forall i, (i < k)%nat ->
               retryable (network w (length (posts w) + i)) = true) ->
    WebhookService._send_single_order self order retry_count w
    = WebhookService._send_single_order
        self order (retry_count + Z.of_nat k)
        (after_retries order retry_count k w).
Proof.
  induction k as [| k IH]; intros retry_count w Hbudget Hretry.
  - now rewrite after_retries_zero, Z.add_0_r.
  - rewrite DeliveryFacts._send_single_order_unfold. cbn zeta.
    assert (Hlt : (retry_count <? WebhookService.max_retries self) = true)
      by (apply Z.ltb_lt; lia).
    assert (Hnext :
              WebhookService._send_single_order
                self order (retry_count + 1)
                (sleep (2 ^ retry_count) (snd (post order w)))
              = WebhookService._send_single_order
                  self order (retry_count + Z.of_nat (S k))
                  (after_retries order retry_count (S k) w)).
    { rewrite IH.
      - rewrite after_retries_succ. f_equal. lia.
      - lia.
      - intros i Hi. cbn [post sleep snd network posts].
        rewrite length_app. cbn [length].
        replace (length (posts w) + 1 + i)%nat with (length (posts w) + S i)%nat
          by lia.
        apply Hretry. lia. }
    specialize (Hretry 0%nat (Nat.lt_0_succ k)). rewrite Nat.add_0_r in Hretry.
    cbn [post fst].
    destruct (network w (length (posts w))) as [code text json | | e | e | e];
      cbn [retryable] in Hretry; try discriminate.
    + destruct ((code =? 200) || (code =? 201)) eqn:Eok;
        [apply orb_true_iff in Eok as [E | E]; apply Z.eqb_eq in E; lia |].
      rewrite Hretry, Hlt. exact Hnext.
    + rewrite Hlt. exact Hnext.
Qed.

(** A delivery that meets [k] retryable answers (timeouts or statuses of
    500 or more), with [k] within the retry budget, and then status 200
    succeeds: it has sent the body [k + 1] times and slept
    [1, 2, ..., 2^(k-1)] seconds in between. The webhook client does the
    same, and also takes 201 for a success. *)
Theorem delivery_recovers_after_retries
        (self : SupabaseService.Service) (events : list (gmap string string))
        (w : World (list (gmap string string)))
        (hook : WebhookService.Service)
        (order : gmap string OrderTransformerService.PValue)
        (v : World (gmap string OrderTransformerService.PValue))
        (k : nat) (status_code : Z) (text : string) (json : option JValue) :
  (Z.of_nat k <= SupabaseService.max_retries self ->
   (forall i, (i < k)%nat -> retryable (network w (length (posts w) + i)) = true) ->
   network w (length (posts w) + k) = Response 200 text json ->
   SupabaseService._send_batch_to_supabase self events 0 w
   = ((true, "Success: 200",
       match json with Some response_data => response_data | None => JDict [] end),
      after_retries events 0 k (snd (post events w))))
  /\ (Z.of_nat k <= WebhookService.max_retries hook ->
      (forall i, (i < k)%nat -> retryable (network v (length (posts v) + i)) = true) ->
      network v (length (posts v) + k) = Response status_code text json ->
      status_code = 200 \/ status_code = 201 ->
      WebhookService._send_single_order hook order 0 v
      = ((true, "Success: " ++ Py.str_of_int status_code),
         after_retries order 0 k (snd (post order v)))).
Proof.
  assert (Hworld : forall (Body : Type) (body : Body) (u : World Body),
             snd (post body (after_retries body 0 k u))
             = after_retries body 0 k (snd (post body u))).
  { intros Body body u. unfold after_retries.
    cbn [post snd network posts sleeps]. f_equal.
    rewrite <- !app_assoc. f_equal. clear.
    induction k as [| k IH]; [reflexivity |]. cbn. now rewrite IH. }
  split.
  - intros Hbudget Hretry Hok.
    rewrite (RetryFacts._send_batch_to_supabase_after_retries self events k 0 w)
      by (assumption || lia).
    rewrite DeliveryFacts._send_batch_to_supabase_unfold. cbn zeta.
    rewrite Hworld. cbn [post fst after_retries posts network].
    rewrite length_app, repeat_length, Hok. reflexivity.
  - intros Hbudget Hretry Hok Hcode.
    rewrite (RetryFacts._send_single_order_after_retries hook order k 0 v)
      by (assumption || lia).
    rewrite DeliveryFacts._send_single_order_unfold. cbn zeta.
    rewrite Hworld. cbn [post fst after_retries posts network].
    rewrite length_app, repeat_length, Hok.
    now destruct Hcode as [-> | ->].
Qed.

(** Two timeouts, then status 200, with three retries allowed. *)
Lemma delivery_recovers_after_retries_witness :
  SupabaseService._send_batch_to_supabase
    Samples.supabase [Samples.event] 0 Samples.slow_start
  = ((true, "Success: 200", JDict []),
     after_retries [Samples.event] 0 2
                   (snd (post [Samples.event] Samples.slow_start))).
Proof.
  apply (proj1 (delivery_recovers_after_retries
                  Samples.supabase [Samples.event] Samples.slow_start
                  Samples.webhook ∅ Samples.slow_start 2 200 "ok" None)).
  - cbn. lia.
  - intros i Hi. destruct i as [| [| i]]; [reflexivity | reflexivity | lia].
  - reflexivity.
Defined.

(** A delivery whose every answer is retryable gives up when the budget
    is used: with [max_retries >= 0] it reports a failure after exactly
    [max_retries + 1] requests and the waits [1, 2, ..., 2^(max_retries-1)]. *)
Theorem delivery_gives_up_after_budget
        (self : SupabaseService.Service) (events : list (gmap string string))
        (w : World (list (gmap string string)))
        (hook : WebhookService.Service)
        (order : gmap string OrderTransformerService.PValue)
        (v : World (gmap string OrderTransformerService.PValue)) :
  (0 <= SupabaseService.max_retries self ->
   (forall i, retryable (network w (length (posts w) + i)) = true) ->
   fst (fst (fst (SupabaseService._send_batch_to_supabase self events 0 w))) = false
   /\ snd (SupabaseService._send_batch_to_supabase self events 0 w)
      = after_retries events 0 (Z.to_nat (SupabaseService.max_retries self))
                      (snd (post events w)))
  /\ (0 <= WebhookService.max_retries hook ->
      (forall i, retryable (network v (length (posts v) + i)) = true) ->
      fst (fst (WebhookService._send_single_order hook order 0 v)) = false
      /\ snd (WebhookService._send_single_order hook order 0 v)
         = after_retries order 0 (Z.to_nat (WebhookService.max_retries hook))
                         (snd (post order v))).
Proof.
  assert (Hworld : forall (Body : Type) (body : Body) (k : nat) (u : World Body),
             snd (post body (after_retries body 0 k u))
             = after_retries body 0 k (snd (post body u))).
  { intros Body body k u. unfold after_retries.
    cbn [post snd network posts sleeps]. f_equal.
    rewrite <- !app_assoc. f_equal.
    induction k as [| k IH]; [reflexivity |]. cbn. now rewrite IH. }
  split.
  - intros Hmax Hretry.
    set (k := Z.to_nat (SupabaseService.max_retries self)).
    rewrite (RetryFacts._send_batch_to_supabase_after_retries self events k 0 w)
      by (unfold k; intros; (apply Hretry || lia)).
    rewrite DeliveryFacts._send_batch_to_supabase_unfold. cbn zeta.
    rewrite Hworld. cbn [post fst after_retries posts network].
    rewrite length_app, repeat_length.
    specialize (Hretry k).
    assert (Hge : (0 + Z.of_nat k <? SupabaseService.max_retries self) = false)
      by (apply Z.ltb_ge; unfold k; lia).
    destruct (network w (length (posts w) + k)) as [code text json | | e | e | e];
      cbn [retryable] in Hretry; try discriminate.
    + destruct (code =? 200) eqn:E200; [apply Z.eqb_eq in E200; lia |].
      rewrite Hge, andb_false_r. now split.
    + rewrite Hge. now split.
  - intros Hmax Hretry.
    set (k := Z.to_nat (WebhookService.max_retries hook)).
    rewrite (RetryFacts._send_single_order_after_retries hook order k 0 v)
      by (unfold k; intros; (apply Hretry || lia)).
    rewrite DeliveryFacts._send_single_order_unfold. cbn zeta.
    rewrite Hworld. cbn [post fst after_retries posts network].
    rewrite length_app, repeat_length.
    specialize (Hretry k).
    assert (Hge : (0 + Z.of_nat k <? WebhookService.max_retries hook) = false)
      by (apply Z.ltb_ge; unfold k; lia).
    destruct (network v (length (posts v) + k)) as [code text json | | e | e | e];
      cbn [retryable] in Hretry; try discriminate.
    + destruct ((code =? 200) || (code =? 201)) eqn:Eok;
        [apply orb_true_iff in Eok as [E | E]; apply Z.eqb_eq in E; lia |].
      rewrite Hge, andb_false_r. now split.
    + rewrite Hge. now split.
Qed.

(** Against an endpoint that always times out: four requests, then
    failure. *)
Lemma delivery_gives_up_after_budget_witness :
  fst (fst (fst (SupabaseService._send_batch_to_supabase
                   Samples.supabase [Samples.event] 0 Samples.timing_out)))
  = false
  /\ snd (SupabaseService._send_batch_to_supabase
            Samples.supabase [Samples.event] 0 Samples.timing_out)
     = after_retries [Samples.event] 0 3
                     (snd (post [Samples.event] Samples.timing_out)).
Proof.
  apply (proj1 (delivery_gives_up_after_budget
                  Samples.supabase [Samples.event] Samples.timing_out
                  Samples.webhook ∅ Samples.timing_out)).
  - cbn. lia.
  - intros i. reflexivity.
Defined.

Lemma total_wait_app (xs ys : list Z) :
  total_wait (xs ++ ys) = total_wait xs + total_wait ys.
Proof.
  unfold total_wait. induction xs as [| x xs IH]; cbn; [reflexivity |].
  rewrite IH. lia.
Qed.

(** The waits of [k] retries from [retry_count = 0] add up to
    [2^k - 1]. *)
Lemma total_wait_backoff (k : nat) :
  total_wait (backoff_waits 0 k) = 2 ^ Z.of_nat k - 1.
Proof.
  assert (Hgen : forall retry_count, 0 <= retry_count ->
             total_wait (backoff_waits retry_count k)
             = 2 ^ retry_count * (2 ^ Z.of_nat k - 1)).
  { induction k as [| k IH]; intros retry_count Hrc.
    - cbn. lia.
    - rewrite DeliveryFacts.backoff_waits_cons.
      change (total_wait (2 ^ retry_count :: backoff_waits (retry_count + 1) k))
        with (2 ^ retry_count + total_wait (backoff_waits (retry_count + 1) k)).
      rewrite IH by lia.
      replace (2 ^ (retry_count + 1)) with (2 * 2 ^ retry_count)
        by (rewrite Z.add_1_r, Z.pow_succ_r by lia; reflexivity).
      replace (2 ^ Z.of_nat (S k)) with (2 * 2 ^ Z.of_nat k)
        by (rewrite Nat2Z.inj_succ, Z.pow_succ_r by lia; reflexivity).
      ring. }
  rewrite Hgen by lia. rewrite Z.pow_0_r. lia.
Qed.

(** The time one delivery spends sleeping is bounded by the retry budget:
    at most [2^max_retries - 1] seconds (a negative [max_retries]
    counting as 0), whatever the endpoint answers. *)
Theorem delivery_wait_is_bounded
        (self : SupabaseService.Service) (events : list (gmap string string))
        (w : World (list (gmap string string)))
        (hook : WebhookService.Service)
        (order : gmap string OrderTransformerService.PValue)
        (v : World (gmap string OrderTransformerService.PValue)) :
  (exists waits,
      sleeps (snd (SupabaseService._send_batch_to_supabase self events 0 w))
      = (sleeps w ++ waits)%list
      /\ 0 <= total_wait waits
         <= 2 ^ Z.max 0 (SupabaseService.max_retries self) - 1)
  /\ (exists waits,
        sleeps (snd (WebhookService._send_single_order hook order 0 v))
        = (sleeps v ++ waits)%list
        /\ 0 <= total_wait waits
           <= 2 ^ Z.max 0 (WebhookService.max_retries hook) - 1).
Proof.
  assert (Hbound : forall (k : nat) (budget : Z),
             (1 <= k)%nat -> (k <= S (Z.to_nat (budget - 0)))%nat ->
             0 <= total_wait (backoff_waits 0 (k - 1)) <= 2 ^ Z.max 0 budget - 1).
  { intros k budget Hk1 Hk2. rewrite total_wait_backoff.
    assert (Hle : Z.of_nat (k - 1) <= Z.max 0 budget) by lia.
    pose proof (Z.pow_le_mono_r 2 (Z.of_nat (k - 1)) (Z.max 0 budget)) as Hmono.
    pose proof (Z.pow_pos_nonneg 2 (Z.of_nat (k - 1))) as Hpos.
    lia. }
  split.
  - destruct (DeliveryFacts._send_batch_to_supabase_trace self events _ 0 w eq_refl)
      as (k & Hk1 & Hk2 & _ & _ & Hsleeps).
    exists (backoff_waits 0 (k - 1)). split; [exact Hsleeps | now apply Hbound].
  - destruct (DeliveryFacts._send_single_order_trace hook order _ 0 v eq_refl)
      as (k & Hk1 & Hk2 & _ & _ & Hsleeps).
    exists (backoff_waits 0 (k - 1)). split; [exact Hsleeps | now apply Hbound].
Qed.

(** How a response status ends or continues a delivery to the edge
    function: only 200 is a success (201 is not); a status below 500 is a
    failure at once, with the status and the first 200 characters of the
    body in the message; a status of 500 or more is retried, after a
    sleep of [2^retry_count] seconds, while [0 <= retry_count < max_retries]
    and is a failure once [max_retries <= retry_count]. The webhook
    client differs in taking 201 for a success too and in quoting 100
    characters. *)
Theorem response_status_handling
        (self : SupabaseService.Service) (events : list (gmap string string))
        (w : World (list (gmap string string)))
        (hook : WebhookService.Service)
        (order : gmap string OrderTransformerService.PValue)
        (v : World (gmap string OrderTransformerService.PValue))
        (retry_count status_code : Z) (text : string) (json : option JValue) :
  (network w (length (posts w)) = Response status_code text json ->
   (status_code = 200 ->
    SupabaseService._send_batch_to_supabase self events retry_count w
    = ((true, "Success: 200",
        match json with Some response_data => response_data | None => JDict [] end),
       snd (post events w)))
   /\ (status_code <> 200 ->
       status_code < 500 \/ SupabaseService.max_retries self <= retry_count ->
       SupabaseService._send_batch_to_supabase self events retry_count w
       = ((false,
           "Failed: " ++ Py.str_of_int status_code ++ " - " ++ Py.prefix 200 text,
           JDict []),
          snd (post events w)))
   /\ (500 <= status_code ->
       0 <= retry_count < SupabaseService.max_retries self ->
       SupabaseService._send_batch_to_supabase self events retry_count w
       = SupabaseService._send_batch_to_supabase
           self events (retry_count + 1)
           (sleep (2 ^ retry_count) (snd (post events w)))))
  /\ (network v (length (posts v)) = Response status_code text json ->
      (status_code = 200 \/ status_code = 201 ->
       WebhookService._send_single_order hook order retry_count v
       = ((true, "Success: " ++ Py.str_of_int status_code), snd (post order v)))
      /\ (status_code <> 200 -> status_code <> 201 ->
          status_code < 500 \/ WebhookService.max_retries hook <= retry_count ->
          WebhookService._send_single_order hook order retry_count v
          = ((false,
              "Failed: " ++ Py.str_of_int status_code ++ " - " ++ Py.prefix 100 text),
             snd (post order v)))
      /\ (500 <= status_code ->
          0 <= retry_count < WebhookService.max_retries hook ->
          WebhookService._send_single_order hook order retry_count v
          = WebhookService._send_single_order
              hook order (retry_count + 1)
              (sleep (2 ^ retry_count) (snd (post order v))))).
Proof.
  split.
  - intros Hnet. rewrite DeliveryFacts._send_batch_to_supabase_unfold.
    cbn [post fst snd]. rewrite Hnet. cbn zeta. split; [| split].
    + intros ->. reflexivity.
    + intros Hne Hstop.
      destruct (status_code =? 200) eqn:E; [apply Z.eqb_eq in E; contradiction |].
      replace ((status_code >=? 500)
               && (retry_count <? SupabaseService.max_retries self))
        with false; [reflexivity |].
      symmetry. apply andb_false_iff.
      destruct Hstop; [left | right; apply Z.ltb_ge]; lia.
    + intros Hge Hlt.
      destruct (status_code =? 200) eqn:E; [apply Z.eqb_eq in E; lia |].
      replace ((status_code >=? 500)
               && (retry_count <? SupabaseService.max_retries self))
        with true; [reflexivity |].
      symmetry. apply andb_true_iff. split; [lia | apply Z.ltb_lt; lia].
  - intros Hnet. rewrite DeliveryFacts._send_single_order_unfold.
    cbn [post fst snd]. rewrite Hnet. cbn zeta. split; [| split].
    + intros [-> | ->]; reflexivity.
    + intros Hne Hne' Hstop.
      replace ((status_code =? 200) || (status_code =? 201)) with false
        by (symmetry; apply orb_false_iff; split; apply Z.eqb_neq; assumption).
      replace ((status_code >=? 500)
               && (retry_count <? WebhookService.max_retries hook))
        with false; [reflexivity |].
      symmetry. apply andb_false_iff.
      destruct Hstop; [left | right; apply Z.ltb_ge]; lia.
    + intros Hge Hlt.
      replace ((status_code =? 200) || (status_code =? 201)) with false
        by (symmetry; apply orb_false_iff; split; apply Z.eqb_neq; lia).
      replace ((status_code >=? 500)
               && (retry_count <? WebhookService.max_retries hook))
        with true; [reflexivity |].
      symmetry. apply andb_true_iff. split; [lia | apply Z.ltb_lt; lia].
Qed.

(** A 404 from the edge function is not retried. *)
Lemma response_status_handling_witness :
  SupabaseService._send_batch_to_supabase
    Samples.supabase [Samples.event] 0
    (mkWorld (fun _ => Response 404 "missing" None) [] [])
  = ((false, "Failed: 404 - missing", JDict []),
     mkWorld (fun _ => Response 404 "missing" None) [[Samples.event]] []).
Proof.
  apply (proj1 (response_status_handling
                  Samples.supabase [Samples.event]
                  (mkWorld (fun _ => Response 404 "missing" None) [] [])
                  Samples.webhook ∅ Samples.healthy 0 404 "missing" None)
           eq_refl).
  - lia.
  - left. lia.
Defined.

End RetryFacts.

(** ** Batch dispatch: further properties *)

Module DispatchMoreFacts.

Import Vocabulary SupabaseService.

(** A batch size that is not positive: 0 makes the dispatcher raise before
    any request; a negative one yields no batch at all, so nothing is sent
    and the result reports neither successes nor failures. *)
Theorem nonpositive_batch_size (self : Service)
        (events : list (gmap string string))
        (w : World (list (gmap string string))) :
  events <> [] ->
  (batch_size self = 0 ->
   send_tracking_events self events w
   = (inl "ValueError: range() arg 3 must not be zero", w))
  /\ (batch_size self < 0 ->
      send_tracking_events self events w
      = (inr (mkResult (Z.of_nat (length events)) 0 0 []), w)).
Proof.
  intros Hne. destruct events as [| event events']; [contradiction |].
  unfold send_tracking_events, _chunk_events, range0. split.
  - intros ->. reflexivity.
  - intros Hneg.
    destruct (batch_size self =? 0) eqn:E0; [apply Z.eqb_eq in E0; lia |].
    destruct (batch_size self <? 0) eqn:E1; [reflexivity |].
    apply Z.ltb_ge in E1. lia.
Qed.

Lemma nonpositive_batch_size_witness :
  send_tracking_events (mkService 30 3 (-5)) [Samples.event; Samples.event]
                       Samples.refused
  = (inr (mkResult 2 0 0 []), Samples.refused).
Proof.
  apply (nonpositive_batch_size (mkService 30 3 (-5))
                                [Samples.event; Samples.event] Samples.refused).
  - discriminate.
  - cbn. lia.
Defined.

(** The number of start indices is the quotient rounded up. *)
Lemma range_from_length (stop step : nat) :
  (1 <= step)%nat ->
  forall fuel i,
    (stop <= fuel + i)%nat ->
    (stop - i <= length (range_from fuel i stop step) * step)%nat
    /\ (length (range_from fuel i stop step) * step < stop - i + step)%nat.
Proof.
  intros Hstep. induction fuel as [| fuel IH]; intros i Hfuel; cbn [range_from].
  - cbn. lia.
  - destruct (i <? stop)%nat eqn:E.
    + apply Nat.ltb_lt in E. cbn [length].
      destruct (IH (i + step)%nat) as [Hlo Hhi]; [lia |].
      set (count := length (range_from fuel (i + step) stop step)) in *.
      rewrite Nat.mul_succ_l.
      destruct (le_lt_dec (i + step) stop) as [Hroom | Hlast]; [lia |].
      destruct count as [| count]; [lia |].
      rewrite Nat.mul_succ_l in Hhi. lia.
    + apply Nat.ltb_ge in E. cbn. lia.
Qed.

(** For a positive batch size the dispatcher cuts [n] payloads into
    [ceil(n / batch_size)] batches, and absent failures it issues exactly
    that many requests. *)
Theorem number_of_batches (self : Service)
        (events : list (gmap string string))
        (w : World (list (gmap string string))) :
  0 < batch_size self ->
  exists event_batches,
    _chunk_events self events = inr event_batches
    /\ Z.of_nat (length event_batches)
       = (Z.of_nat (length events) + batch_size self - 1) / batch_size self
    /\ (always_succeeds w ->
        Z.of_nat (length (posts (snd (send_tracking_events self events w))))
        = Z.of_nat (length (posts w))
          + (Z.of_nat (length events) + batch_size self - 1) / batch_size self).
Proof.
  intros Hsize. unfold _chunk_events, range0.
  destruct (batch_size self =? 0) eqn:E0; [apply Z.eqb_eq in E0; lia |].
  destruct (batch_size self <? 0) eqn:E1; [apply Z.ltb_lt in E1; lia |].
  cbn [Py.bind]. eexists. split; [reflexivity |].
  set (step := Z.to_nat (batch_size self)).
  set (starts := range_from (length events) 0 (length events) step).
  assert (Hcount : Z.of_nat (length starts)
                   = (Z.of_nat (length events) + batch_size self - 1)
                       / batch_size self).
  { destruct (range_from_length (length events) step) with
        (fuel := length events) (i := 0%nat) as [Hlo Hhi];
      [unfold step; lia | lia |].
    fold starts in Hlo, Hhi.
    apply (Z.div_unique_pos _ _ _
             (Z.of_nat (length events) + batch_size self - 1
              - batch_size self * Z.of_nat (length starts)));
      unfold step in *; nia. }
  split; [now rewrite length_map |].
  intros Hok. unfold send_tracking_events.
  destruct events as [| event events'].
  - cbn [snd]. rewrite <- Hcount. subst starts. cbn [length range_from]. lia.
  - unfold _chunk_events, range0. rewrite E0, E1. cbn [Py.bind].
    fold step. fold starts.
    set (event_batches :=
           map (fun i => take step (drop i (event :: events'))) starts).
    destruct (DispatchFacts.send_batches_all_succeed
                self event_batches 0 (mkTally 0 0 []) w Hok)
      as ((t' & Hret) & Hposts & _).
    destruct (send_batches self 0 event_batches (mkTally 0 0 []) w)
      as [[e | t] w1]; [discriminate |].
    cbn [snd] in *. rewrite Hposts, length_app. unfold event_batches.
    rewrite length_map, <- Hcount. lia.
Qed.

Lemma number_of_batches_witness :
  exists event_batches,
    _chunk_events Samples.supabase (repeat Samples.event 7) = inr event_batches
    /\ Z.of_nat (length event_batches) = (Z.of_nat 7 + 100 - 1) / 100
    /\ (always_succeeds (Body := list (gmap string string)) Samples.healthy ->
        Z.of_nat (length (posts (snd (send_tracking_events
                                        Samples.supabase (repeat Samples.event 7)
                                        Samples.healthy))))
        = Z.of_nat 0 + (Z.of_nat 7 + 100 - 1) / 100).
Proof.
  apply (number_of_batches Samples.supabase (repeat Samples.event 7) Samples.healthy).
  cbn. lia.
Defined.

(** The summary a successful delivery returns is the decoded body of a
    200 response of the endpoint, or the empty dict. *)
Lemma success_data_from_network (self : Service)
      (events : list (gmap string string)) (n : nat) :
  forall retry_count w message response_data,
    Z.to_nat (max_retries self - retry_count) = n ->
    fst (_send_batch_to_supabase self events retry_count w)
    = (true, message, response_data) ->
    exists index text json,
      network w index = Response 200 text json
      /\ response_data
         = match json with Some d => d | None => JDict [] end.
Proof.
  induction n as [n IH] using lt_wf_ind.
  intros retry_count w message response_data Hmeasure.
  rewrite DeliveryFacts._send_batch_to_supabase_unfold. cbn zeta.
  assert (Hretry : retry_count < max_retries self ->
            fst (_send_batch_to_supabase
                   self events (retry_count + 1)
                   (sleep (2 ^ retry_count) (snd (post events w))))
            = (true, message, response_data) ->
            exists index text json,
              network w index = Response 200 text json
              /\ response_data
                 = match json with Some d => d | None => JDict [] end).
  { intros Hlt Hret. destruct n as [| n]; [lia |].
    apply (IH n (Nat.lt_succ_diag_r n)) in Hret; [exact Hret | lia]. }
  cbn [post fst].
  destruct (network w (length (posts w))) as [code text json | | e | e | e] eqn:Hnet;
    try (cbn [fst]; discriminate).
  - destruct (code =? 200) eqn:E200.
    + apply Z.eqb_eq in E200. subst code. cbn [fst]. intros [= _ <-].
      now exists (length (posts w)), text, json.
    + destruct ((code >=? 500) && (retry_count <? max_retries self)) eqn:E;
        [| cbn [fst]; discriminate].
      apply andb_true_iff in E as [_ E]. apply Z.ltb_lt in E. now apply Hretry.
  - destruct (retry_count <? max_retries self) eqn:E; [| cbn [fst]; discriminate].
    apply Z.ltb_lt in E. now apply Hretry.
Qed.

Lemma delivery_keeps_network (self : Service)
      (batch : list (gmap string string))
      (w : World (list (gmap string string))) :
  network (snd (_send_batch_to_supabase self batch 0 w)) = network w.
Proof.
  destruct (DispatchFacts.delivery_posts self batch w) as (k & Hnet & _).
  exact Hnet.
Qed.

(** Without structured summaries every batch is counted once, as a
    success or as a failure. *)
Lemma send_batches_unstructured (self : Service)
      (event_batches : list (list (gmap string string))) :
  forall batch_index t w,
    unstructured w ->
    exists t',
      fst (send_batches self batch_index event_batches t w) = inr t'
      /\ success_count t <= success_count t'
      /\ error_count t <= error_count t'
      /\ success_count t' + error_count t'
         = success_count t + error_count t + batch_items event_batches.
Proof.
  induction event_batches as [| batch rest IH]; intros batch_index t w Hplain.
  - exists t. cbn. unfold batch_items. cbn. repeat split; lia.
  - cbn [send_batches].
    pose proof (delivery_keeps_network self batch w) as Hnet.
    pose proof (success_data_from_network
                  self batch (Z.to_nat (max_retries self - 0)) 0 w) as Hdata.
    destruct (_send_batch_to_supabase self batch 0 w)
      as [[[success message] response_data] w1].
    cbn [fst snd] in *.
    assert (Hplain1 : unstructured w1).
    { intros n text d Hn. rewrite Hnet in Hn. exact (Hplain n text d Hn). }
    assert (Hitems : batch_items (batch :: rest)
                     = Z.of_nat (length batch) + batch_items rest).
    { unfold batch_items. cbn [concat]. rewrite length_app. lia. }
    destruct success.
    + destruct (Hdata message response_data eq_refl eq_refl)
        as (index & text & json & Hindex & ->).
      assert (Hfalsy : truthy match json with Some d => d | None => JDict [] end
                       = false).
      { destruct json as [d |]; [exact (Hplain index text d Hindex) | reflexivity]. }
      unfold account_success. rewrite Hfalsy.
      destruct (IH (S batch_index)
                   (mkTally (success_count t + Z.of_nat (length batch))
                            (error_count t) (error_list t)) w1 Hplain1)
        as (t' & Hret & Hs & He & Hsum).
      exists t'. cbn [success_count error_count] in *. rewrite Hitems.
      repeat split; [exact Hret | lia ..].
    + destruct (IH (S batch_index) (account_failure batch_index batch message t)
                   w1 Hplain1)
        as (t' & Hret & Hs & He & Hsum).
      exists t'. cbn [account_failure success_count error_count] in *.
      rewrite Hitems. repeat split; [exact Hret | lia ..].
Qed.

(** When the endpoint never returns a structured summary, the dispatcher
    accounts for every payload exactly once: the result is returned, its
    total is the number of payloads and successful + failed = total. *)
Theorem unstructured_accounting (self : Service)
        (events : list (gmap string string))
        (w : World (list (gmap string string))) :
  0 < batch_size self ->
  unstructured w ->
  exists result,
    fst (send_tracking_events self events w) = inr result
    /\ total result = Z.of_nat (length events)
    /\ 0 <= successful result
    /\ 0 <= failed result
    /\ successful result + failed result = total result.
Proof.
  intros Hsize Hplain. unfold send_tracking_events.
  destruct events as [| event events'] eqn:Hevents.
  - eexists. split; [reflexivity |]. cbn. lia.
  - rewrite <- Hevents in *.
    destruct (DispatchFacts._chunk_events_partition self events Hsize)
      as (event_batches & -> & Hconcat & _).
    destruct (send_batches_unstructured self event_batches 0 (mkTally 0 0 []) w Hplain)
      as (t' & Hret & Hs & He & Hsum).
    destruct (send_batches self 0 event_batches (mkTally 0 0 []) w)
      as [[e | t] w1]; [discriminate |].
    cbn [fst] in Hret. injection Hret as ->.
    eexists. split; [reflexivity |].
    cbn [total successful failed success_count error_count] in *.
    unfold batch_items in Hsum. rewrite Hconcat in Hsum. lia.
Qed.

(** Three events in batches of one, the endpoint refusing every
    connection: all three are counted as failed. *)
Lemma unstructured_accounting_witness :
  exists result,
    fst (send_tracking_events Samples.supabase_single
                              (repeat Samples.event 3) Samples.refused)
    = inr result
    /\ total result = Z.of_nat (length (repeat Samples.event 3))
    /\ 0 <= successful result
    /\ 0 <= failed result
    /\ successful result + failed result = total result.
Proof.
  apply (unstructured_accounting Samples.supabase_single
                                 (repeat Samples.event 3) Samples.refused).
  - cbn. lia.
  - intros n text d Hn. discriminate Hn.
Defined.

(** A structured summary is taken at its word: a 200 response whose JSON
    body is a non-empty dict without counts leaves the batch counted
    neither as succeeded nor as failed. *)
Example summary_without_counts :
  fst (send_tracking_events
         Samples.supabase [Samples.event; Samples.event]
         (mkWorld (fun _ => Response 200 "{}" (Some (JDict [("ok", JBool true)])))
                  [] []))
  = inr (mkResult 2 0 0 []).
Proof. vm_compute. reflexivity. Qed.

(** The loop of [send_batch] counts every order once and records one
    message per failed order. *)
Lemma send_orders_accounting (hook : WebhookService.Service)
      (orders : list (gmap string OrderTransformerService.PValue)) :
  forall success_count error_count errors w,
    let r := WebhookService.send_orders hook orders success_count error_count errors w in
    success_count <= fst (fst (fst r))
    /\ error_count <= snd (fst (fst r))
    /\ fst (fst (fst r)) + snd (fst (fst r))
       = success_count + error_count + Z.of_nat (length orders)
    /\ Z.of_nat (length (snd (fst r))) - snd (fst (fst r))
       = Z.of_nat (length errors) - error_count
    /\ exists attempts,
        posts (snd r) = (posts w ++ attempts)%list
        /\ forall order, In order orders -> In order attempts.
Proof.
  induction orders as [| order rest IH]; intros success_count error_count errors w.
  - cbn. repeat split; try lia. exists []. split; [now rewrite app_nil_r | contradiction].
  - cbn [WebhookService.send_orders].
    destruct (DeliveryFacts._send_single_order_trace hook order _ 0 w eq_refl)
      as (k & Hk1 & _ & _ & Hposts & _).
    destruct (WebhookService._send_single_order hook order 0 w)
      as [[success message] w1].
    cbn [snd] in Hposts.
    assert (Hattempts : forall more,
               (forall o, In o rest -> In o more) ->
               forall o, In o (order :: rest) -> In o (repeat order k ++ more)%list).
    { intros more Hmore o [<- | Ho]; apply in_or_app;
        [left; destruct k; [lia | now left] | right; now apply Hmore]. }
    destruct success.
    + specialize (IH (success_count + 1) error_count errors w1). cbn zeta in IH.
      destruct IH as (Hs & He & Hsum & Herr & more & Hmore & Hall).
      cbn zeta. cbn [length]. repeat split; try lia.
      exists (repeat order k ++ more)%list. split.
      * now rewrite Hmore, Hposts, <- app_assoc.
      * now apply Hattempts.
    + match goal with
      | |- context [WebhookService.send_orders _ _ _ _ ?errs _] =>
          specialize (IH success_count (error_count + 1) errs w1)
      end.
      cbn zeta in IH.
      destruct IH as (Hs & He & Hsum & Herr & more & Hmore & Hall).
      rewrite length_app in Herr. cbn [length] in Herr.
      cbn zeta. cbn [length]. repeat split; try lia.
      exists (repeat order k ++ more)%list. split.
      * now rewrite Hmore, Hposts, <- app_assoc.
      * now apply Hattempts.
Qed.

(** The webhook dispatcher: every order is posted and counted exactly
    once, as a success or as a failure, and the result holds one error
    message per failed order. *)
Theorem send_batch_accounting (hook : WebhookService.Service)
        (orders : list (gmap string OrderTransformerService.PValue))
        (w : World (gmap string OrderTransformerService.PValue)) :
  WebhookService.total (fst (WebhookService.send_batch hook orders w))
  = Z.of_nat (length orders)
  /\ 0 <= WebhookService.successful (fst (WebhookService.send_batch hook orders w))
  /\ WebhookService.successful (fst (WebhookService.send_batch hook orders w))
     + WebhookService.failed (fst (WebhookService.send_batch hook orders w))
     = Z.of_nat (length orders)
  /\ Z.of_nat (length (WebhookService.errors
                         (fst (WebhookService.send_batch hook orders w))))
     = WebhookService.failed (fst (WebhookService.send_batch hook orders w))
  /\ exists attempts,
      posts (snd (WebhookService.send_batch hook orders w))
      = (posts w ++ attempts)%list
      /\ forall order, In order orders -> In order attempts.
Proof.
  unfold WebhookService.send_batch.
  pose proof (send_orders_accounting hook orders 0 0 [] w) as Hacc.
  cbn zeta in Hacc.
  destruct (WebhookService.send_orders hook orders 0 0 [] w)
    as [[[success_count error_count] errors] w1].
  cbn [fst snd] in *. destruct Hacc as (Hs & He & Hsum & Herr & Hposts).
  cbn [WebhookService.total WebhookService.successful WebhookService.failed
       WebhookService.errors length] in *.
  repeat split; try lia. exact Hposts.
Qed.

End DispatchMoreFacts.

(** ** Tracking events: further properties *)

Module TrackingEventFacts.

Import Vocabulary ShipmentTransformerService.

Section WithEnv.

Context `{PandasEnv}.

(** The loop only appends: its state after some rows is the state before
    them extended by what the rows yield on their own. *)
Lemma fold_transform_step (df : list (gmap string Cell)) :
  forall tracking_events skipped_count,
    fold_left transform_step df (tracking_events, skipped_count)
    = ((tracking_events ++ fst (fold_left transform_step df ([], 0)))%list,
       skipped_count + snd (fold_left transform_step df ([], 0))).
Proof.
  induction df as [| row df IH]; intros tracking_events skipped_count.
  - cbn. rewrite app_nil_r. f_equal. lia.
  - cbn [fold_left].
    assert (Hstep : exists produced skipped,
               (forall evs n, transform_step (evs, n) row
                              = ((evs ++ produced)%list, n + skipped))
               /\ Z.of_nat (length produced) + skipped = 1 /\ 0 <= skipped).
    { unfold transform_step.
      destruct (_validate_required_fields row); cbn [negb].
      - destruct (_build_tracking_event row) as [e | event].
        + exists [], 1. split; [intros; now rewrite app_nil_r | cbn; lia].
        + exists [event], 0. split; [intros; f_equal; lia | cbn; lia].
      - exists [], 1. split; [intros; now rewrite app_nil_r | cbn; lia]. }
    destruct Hstep as (produced & skipped & Hstep & _).
    rewrite !Hstep. rewrite IH. rewrite (IH ([] ++ produced)%list).
    cbn [fst snd app]. rewrite app_assoc. f_equal. lia.
Qed.

Lemma transform_as_fold (df : list (gmap string Cell)) :
  transform_to_tracking_events df = fst (fold_left transform_step df ([], 0)).
Proof. now destruct df. Qed.

Lemma transform_cons (row : gmap string Cell) (df : list (gmap string Cell)) :
  transform_to_tracking_events (row :: df)
  = (transform_to_tracking_events [row] ++ transform_to_tracking_events df)%list.
Proof.
  rewrite !transform_as_fold. cbn [fold_left].
  destruct (transform_step ([], 0) row) as [evs n].
  now rewrite fold_transform_step.
Qed.

(** What one row yields. *)
Lemma transform_single (row : gmap string Cell) :
  transform_to_tracking_events [row]
  = if _validate_required_fields row
    then match _build_tracking_event row with
         | inr event => [event]
         | inl _ => []
         end
    else [].
Proof.
  rewrite transform_as_fold. cbn [fold_left]. unfold transform_step.
  destruct (_validate_required_fields row); cbn [negb]; [| reflexivity].
  now destruct (_build_tracking_event row).
Qed.

Lemma transform_app (df1 df2 : list (gmap string Cell)) :
  transform_to_tracking_events (df1 ++ df2)
  = (transform_to_tracking_events df1 ++ transform_to_tracking_events df2)%list.
Proof.
  induction df1 as [| row df1 IH]; [reflexivity |].
  cbn [app]. rewrite transform_cons, IH, (transform_cons row df1).
  now rewrite app_assoc.
Qed.

(** Every row is counted once, as an event or as skipped. *)
Lemma transform_counts (df : list (gmap string Cell)) :
  Z.of_nat (length (transform_to_tracking_events df))
  + snd (fold_left transform_step df ([], 0))
  = Z.of_nat (length df)
  /\ 0 <= snd (fold_left transform_step df ([], 0)).
Proof.
  rewrite transform_as_fold.
  induction df as [| row df IH]; [cbn; lia |].
  cbn [fold_left].
  destruct (transform_step ([], 0) row) as [evs n] eqn:Hstep.
  rewrite fold_transform_step. cbn [fst snd].
  rewrite length_app. cbn [length].
  assert (Hone : Z.of_nat (length evs) + n = 1 /\ 0 <= n).
  { unfold transform_step in Hstep.
    destruct (_validate_required_fields row); cbn [negb] in Hstep.
    - destruct (_build_tracking_event row); injection Hstep as <- <-; cbn; lia.
    - injection Hstep as <- <-. cbn. lia. }
  lia.
Qed.

(** Rows are transformed independently of each other and in order: the
    events of a table are the events of its parts, one after the other, so
    a row that is skipped changes nothing for the rows around it; and every
    row either gives one event or is skipped. *)
Theorem rows_are_transformed_independently
        (df1 df2 : list (gmap string Cell)) :
  transform_to_tracking_events (df1 ++ df2)
  = (transform_to_tracking_events df1 ++ transform_to_tracking_events df2)%list
  /\ Z.of_nat (length (transform_to_tracking_events df1))
     + snd (fold_left transform_step df1 ([], 0))
     = Z.of_nat (length df1)
  /\ 0 <= snd (fold_left transform_step df1 ([], 0)).
Proof.
  split; [apply transform_app | apply transform_counts].
Qed.

Lemma format_date_nonempty (ts : Timestamp) (rest : string) :
  Py.nonempty (format_date ts ++ rest) = true.
Proof.
  unfold format_date. destruct (zfill 4 (year ts)); reflexivity.
Qed.

(** A formatted timestamp is never the empty string. *)
Lemma format_timestamp_nonempty (value : Cell) (s : string) :
  _format_timestamp value = Some s -> Py.nonempty s = true.
Proof.
  unfold _format_timestamp.
  destruct (isna value || _); [discriminate |].
  destruct (as_timestamp value) as [ts |]; [| discriminate].
  intros [= <-]. unfold isoformat. apply format_date_nonempty.
Qed.

Lemma lower_nonempty (s : string) : s <> "" -> Py.lower s <> "".
Proof. now destruct s. Qed.

Lemma strip_nonblank (s : string) : Py.strip s <> "" -> s <> "".
Proof. intros Hs ->. now apply Hs. Qed.

(** What validation establishes for a required field. *)
Lemma validated_field (row : gmap string Cell) (field : string) :
  _validate_required_fields row = true ->
  In field required_fields ->
  exists value,
    row !! field = Some value /\ isna value = false
    /\ Py.strip (str value) <> "".
Proof.
  unfold _validate_required_fields. rewrite forallb_forall.
  intros Hall Hfield. specialize (Hall field Hfield). unfold get in Hall.
  destruct (row !! field) as [value |]; [| discriminate].
  exists value. split; [reflexivity |].
  apply negb_true_iff in Hall. apply orb_false_iff in Hall as [Hna Hblank].
  apply orb_false_iff in Hna as [Hna _]. split; [exact Hna |].
  intros Heq. rewrite Heq in Hblank. discriminate.
Qed.

(** A validated row raises no [KeyError]: the event is built unless the
    timestamp cannot be formatted or the company is unknown, and these two
    failures carry their own messages. *)
Theorem validated_row_outcomes (row : gmap string Cell) :
  _validate_required_fields row = true ->
  (_format_timestamp (get row "event_timestamp") = None ->
   _build_tracking_event row
   = inl ("Invalid event_timestamp for order "
          ++ str (get row "marketplace_order_id")))
  /\ (forall e,
        _format_timestamp (get row "event_timestamp") <> None ->
        CompanyMapping.get_company_uuid (str (get row "company_id")) = inl e ->
        _build_tracking_event row
        = inl ("Company mapping error for order "
               ++ str (get row "marketplace_order_id") ++ ": " ++ e))
  /\ (forall uuid,
        _format_timestamp (get row "event_timestamp") <> None ->
        CompanyMapping.get_company_uuid (str (get row "company_id")) = inr uuid ->
        exists event, _build_tracking_event row = inr event).
Proof.
  intros Hvalid.
  destruct (validated_field row "event_status" Hvalid) as (status & Hstatus & _);
    [cbn; tauto |].
  destruct (validated_field row "marketplace" Hvalid) as (mp & Hmp & _);
    [cbn; tauto |].
  destruct (validated_field row "event_timestamp" Hvalid) as (raw & Hraw & _);
    [cbn; tauto |].
  destruct (validated_field row "company_id" Hvalid) as (company & Hcompany & _);
    [cbn; tauto |].
  destruct (validated_field row "marketplace_order_id" Hvalid) as (oid & Hoid & _);
    [cbn; tauto |].
  unfold _build_tracking_event, getitem, get.
  rewrite Hstatus, Hmp, Hraw, Hcompany, Hoid. cbn [Py.bind].
  split; [| split].
  - intros ->. reflexivity.
  - intros e Hts Hco.
    destruct (_format_timestamp raw) as [ts |] eqn:Hfmt; [| contradiction].
    rewrite (format_timestamp_nonempty raw ts Hfmt). cbn [Py.bind].
    rewrite Hco. reflexivity.
  - intros uuid Hts Hco.
    destruct (_format_timestamp raw) as [ts |] eqn:Hfmt; [| contradiction].
    rewrite (format_timestamp_nonempty raw ts Hfmt). cbn [Py.bind].
    rewrite Hco. cbn [Py.bind]. eexists. reflexivity.
Qed.

(** Every event of the output comes from a validated row of the input. *)
Lemma transform_In (df : list (gmap string Cell)) (event : gmap string string) :
  In event (transform_to_tracking_events df) ->
  exists row,
    In row df /\ _validate_required_fields row = true
    /\ _build_tracking_event row = inr event.
Proof.
  induction df as [| row df IH]; [contradiction |].
  rewrite transform_cons, transform_single. intros Hin.
  apply in_app_or in Hin as [Hin | Hin].
  - exists row. split; [now left |].
    destruct (_validate_required_fields row); [| contradiction].
    destruct (_build_tracking_event row) as [e | built]; [contradiction |].
    destruct Hin as [<- | []]. now split.
  - destruct (IH Hin) as (r & Hr & Hvalid & Hbuild).
    exists r. split; [now right | now split].
Qed.

(** The event before the optional fields are added. *)
Lemma base_event_lookup (a b c d e key : string) :
  (<["event_timestamp" := a]>
   (<["event_status" := b]>
   (<["company_id" := c]>
   (<["marketplace" := d]>
   (<["marketplace_order_id" := e]> (∅ : gmap string string)))))) !! key
  = if String.eqb key "event_timestamp" then Some a
    else if String.eqb key "event_status" then Some b
    else if String.eqb key "company_id" then Some c
    else if String.eqb key "marketplace" then Some d
    else if String.eqb key "marketplace_order_id" then Some e
    else None.
Proof.
  repeat (match goal with
          | |- context [String.eqb key ?k] =>
              destruct (String.eqb_spec key k) as [-> | ?Hne];
              [now rewrite lookup_insert_eq
              | rewrite lookup_insert_ne by congruence]
          end).
  apply lookup_empty.
Qed.

Lemma supported_status_nonempty (status : string) :
  In status StatusMapping.get_supported_statuses -> status <> "".
Proof.
  cbn. intros Hin.
  repeat (destruct Hin as [<- | Hin]; [discriminate |]). contradiction.
Qed.

Lemma known_company_uuid_nonempty (company_name uuid : string) :
  CompanyMapping.get_company_uuid company_name = inr uuid -> uuid <> "".
Proof.
  unfold CompanyMapping.get_company_uuid, CompanyMapping.COMPANY_NAME_TO_UUID.
  cbn [Py.dict_get].
  destruct (String.eqb company_name "bamo_company"); [| discriminate].
  intros [= <-]. discriminate.
Qed.

(** Every event the transformer emits is well formed: its five required
    fields are present and not empty, its status is one of the canonical
    statuses, and it has no key outside the nine known ones and no empty
    value. *)
Theorem emitted_events_are_well_formed
        (df : list (gmap string Cell)) (event : gmap string string) :
  In event (transform_to_tracking_events df) ->
  (forall field, In field required_fields ->
                 exists v, event !! field = Some v /\ v <> "")
  /\ (exists status,
        event !! "event_status" = Some status
        /\ In status StatusMapping.get_supported_statuses)
  /\ (forall key v, event !! key = Some v ->
                    In key tracking_event_keys /\ v <> "").
Proof.
  intros Hin. destruct (transform_In df event Hin) as (row & _ & Hvalid & Hbuild).
  destruct (validated_field row "event_status" Hvalid) as (status & Hstatus & _ & _);
    [cbn; tauto |].
  destruct (validated_field row "marketplace" Hvalid) as (mp & Hmp & _ & Hmpne);
    [cbn; tauto |].
  destruct (validated_field row "event_timestamp" Hvalid) as (raw & Hraw & _ & _);
    [cbn; tauto |].
  destruct (validated_field row "company_id" Hvalid) as (company & Hcompany & _ & _);
    [cbn; tauto |].
  destruct (validated_field row "marketplace_order_id" Hvalid)
    as (oid & Hoid & _ & Hoidne); [cbn; tauto |].
  unfold _build_tracking_event, getitem in Hbuild.
  rewrite Hstatus, Hmp, Hraw, Hcompany, Hoid in Hbuild. cbn [Py.bind] in Hbuild.
  destruct (_format_timestamp raw) as [ts |] eqn:Hfmt; [| discriminate].
  pose proof (format_timestamp_nonempty raw ts Hfmt) as Hts.
  rewrite Hts in Hbuild. cbn [Py.bind] in Hbuild.
  destruct (CompanyMapping.get_company_uuid (str company)) as [e | uuid] eqn:Hco;
    [discriminate |].
  cbn [Py.bind] in Hbuild.
  set (canonical := StatusMapping.normalize_status (Some (str status)) (Some (str mp)))
    in *.
  assert (Hcanonical : In canonical StatusMapping.get_supported_statuses).
  { apply (StatusMappingFacts.normalize_status_in_canonical _ _ true);
      [reflexivity | now left]. }
  match type of Hbuild with
  | inr (fold_left _ _ ?base) = _ =>
      set (event0 := base) in *;
      assert (Hevent : event
                       = fold_left (add_optional row) optional_fields event0)
        by congruence
  end.
  clear Hbuild.
  assert (Hnodup : NoDup (map fst optional_fields)).
  { cbn. repeat constructor; rewrite ?list_elem_of_In; cbn; intuition discriminate. }
  assert (Hrequired : forall key,
             In key required_fields -> event !! key = event0 !! key).
  { intros key Hkey. rewrite Hevent.
    apply TransformerFacts.fold_add_optional_other.
    cbn in Hkey |- *. intuition (subst; discriminate). }
  assert (Hbase : forall key v,
             event0 !! key = Some v -> In key required_fields /\ v <> "").
  { intros key v. unfold event0. rewrite base_event_lookup.
    repeat (match goal with
            | |- context [String.eqb key ?k] =>
                destruct (String.eqb_spec key k) as [-> | _]
            end);
      try discriminate; intros [= <-]; (split; [cbn; tauto |]).
    - intros Heq. now rewrite Heq in Hts.
    - now apply supported_status_nonempty.
    - now apply (known_company_uuid_nonempty (str company)).
    - apply lower_nonempty. now apply strip_nonblank.
    - now apply strip_nonblank. }
  split; [| split].
  - intros field Hfield. rewrite (Hrequired field Hfield).
    unfold event0. rewrite base_event_lookup.
    cbn in Hfield.
    destruct Hfield as [<- | [<- | [<- | [<- | [<- | []]]]]]; cbn;
      eexists; (split; [reflexivity |]).
    + now apply strip_nonblank.
    + apply lower_nonempty. now apply strip_nonblank.
    + now apply (known_company_uuid_nonempty (str company)).
    + now apply supported_status_nonempty.
    + intros Heq. now rewrite Heq in Hts.
  - exists canonical. split; [| exact Hcanonical].
    rewrite (Hrequired "event_status") by (cbn; tauto).
    unfold event0. now rewrite base_event_lookup.
  - intros key v Hlookup. unfold tracking_event_keys.
    destruct (in_dec String.string_dec key (map fst optional_fields)) as [Hopt | Hother].
    + assert (Hpair : In (key, key) optional_fields).
      { cbn in Hopt |- *. intuition (subst; auto). }
      rewrite Hevent,
        (TransformerFacts.fold_add_optional_lookup row _ Hnodup event0 key key Hpair)
        in Hlookup.
      destruct (present_nonblank (get row key)) eqn:Hp.
      * injection Hlookup as <-. split.
        -- apply in_or_app. right. exact Hopt.
        -- now apply TransformerFacts.present_nonblank_not_empty.
      * destruct (Hbase key v Hlookup) as [Hkey Hv]. split; [| exact Hv].
        apply in_or_app. now left.
    + rewrite Hevent, (TransformerFacts.fold_add_optional_other row _ key Hother)
        in Hlookup.
      destruct (Hbase key v Hlookup) as [Hkey Hv]. split; [| exact Hv].
      apply in_or_app. now left.
Qed.

End WithEnv.

(** The sample row is validated, its timestamp formats and its company is
    known: the event is built. *)
Lemma validated_row_outcomes_witness :
  exists event,
    _build_tracking_event (H := Samples.env) Samples.tracking_row = inr event.
Proof.
  apply (proj2 (proj2 (validated_row_outcomes
                         (H := Samples.env) Samples.tracking_row
                         ltac:(vm_compute; reflexivity)))
           "c12585ee-c8f4-4103-b7f0-37bd62401a65").
  - vm_compute. discriminate.
  - vm_compute. reflexivity.
Defined.

(** The sample row gives one event, and what the theorem says of every
    emitted event holds of it. *)
Lemma emitted_events_are_well_formed_witness :
  length (transform_to_tracking_events (H := Samples.env) [Samples.tracking_row])
  = 1%nat
  /\ forall event,
      In event (transform_to_tracking_events (H := Samples.env)
                                             [Samples.tracking_row]) ->
      exists status,
        event !! "event_status" = Some status
        /\ In status StatusMapping.get_supported_statuses.
Proof.
  split; [vm_compute; reflexivity |].
  intros event Hin.
  exact (proj1 (proj2 (emitted_events_are_well_formed
                         (H := Samples.env) [Samples.tracking_row] event Hin))).
Defined.

End TrackingEventFacts.

(** ** Webhook payloads: further properties *)

Module OrderPayloadFacts.

Import Vocabulary OrderTransformerService.

Section WithEnv.

Context `{PandasEnv}.

(** The nine entries of a payload. *)
Lemma payload_lookup (v1 v2 v3 v4 v5 v6 v7 v8 v9 : PValue) (key : string) :
  (<["sku" := v9]>
   (<["shipping_promise_date" := v8]>
   (<["order_created_at" := v7]>
   (<["market_place" := v6]>
   (<["logistic_type" := v5]>
   (<["shipping_status" := v4]>
   (<["status" := v3]>
   (<["shipping_id" := v2]>
   (<["order" := v1]> (∅ : gmap string PValue)))))))))) !! key
  = if String.eqb key "sku" then Some v9
    else if String.eqb key "shipping_promise_date" then Some v8
    else if String.eqb key "order_created_at" then Some v7
    else if String.eqb key "market_place" then Some v6
    else if String.eqb key "logistic_type" then Some v5
    else if String.eqb key "shipping_status" then Some v4
    else if String.eqb key "status" then Some v3
    else if String.eqb key "shipping_id" then Some v2
    else if String.eqb key "order" then Some v1
    else None.
Proof.
  repeat (match goal with
          | |- context [String.eqb key ?k] =>
              destruct (String.eqb_spec key k) as [-> | ?Hne];
              [now rewrite lookup_insert_eq
              | rewrite lookup_insert_ne by congruence]
          end).
  apply lookup_empty.
Qed.

Lemma built_payload_order (order_id : Cell) (first_row : gmap string Cell)
      (sku_dict : gmap string SkuItem) (payload : gmap string PValue) :
  _build_webhook_payload order_id first_row sku_dict = inr payload ->
  payload !! "order" = Some (PStr (str order_id)).
Proof.
  intros Hbuild. unfold _build_webhook_payload in Hbuild.
  destruct (DatetimeUtils.to_iso8601_clt (get first_row "order_created_at"));
    [| discriminate].
  repeat match type of Hbuild with
         | Py.bind ?m _ = _ =>
             destruct m; cbn [Py.bind] in Hbuild; [discriminate |]
         end.
  match type of Hbuild with
  | inr ?built = _ => assert (Heq : payload = built) by congruence
  end.
  rewrite Heq, payload_lookup. reflexivity.
Qed.

(** Every webhook payload has the same nine keys, whatever the row holds:
    the order identifier and the five order-level fields as text, the
    creation date as the text [to_iso8601_clt] gives, the shipping promise
    date, and the line items. *)
Theorem webhook_payload_shape (order_id : Cell) (first_row : gmap string Cell)
        (sku_dict : gmap string SkuItem) (payload : gmap string PValue) :
  _build_webhook_payload order_id first_row sku_dict = inr payload ->
  (forall key, is_Some (payload !! key) <-> In key webhook_payload_keys)
  /\ payload !! "order" = Some (PStr (str order_id))
  /\ payload !! "market_place" = Some (PStr (str (get first_row "marketplace")))
  /\ payload !! "sku" = Some (PSku sku_dict)
  /\ exists created,
      DatetimeUtils.to_iso8601_clt (get first_row "order_created_at") = Some created
      /\ payload !! "order_created_at" = Some (PStr created).
Proof.
  intros Hbuild. unfold _build_webhook_payload in Hbuild.
  destruct (DatetimeUtils.to_iso8601_clt (get first_row "order_created_at"))
    as [created |]; [| discriminate].
  unfold getitem, get in *.
  destruct (first_row !! "shipping_id"); cbn [Py.bind] in Hbuild; [| discriminate].
  destruct (first_row !! "status"); cbn [Py.bind] in Hbuild; [| discriminate].
  destruct (first_row !! "shipping_status"); cbn [Py.bind] in Hbuild; [| discriminate].
  destruct (first_row !! "logistic_type"); cbn [Py.bind] in Hbuild; [| discriminate].
  destruct (first_row !! "marketplace"); cbn [Py.bind] in Hbuild; [| discriminate].
  match type of Hbuild with
  | inr ?built = _ => assert (Heq : payload = built) by congruence
  end.
  clear Hbuild. subst payload. split; [| split; [| split; [| split]]].
  - intros key. rewrite payload_lookup. unfold webhook_payload_keys. split.
    + repeat (match goal with
              | |- context [String.eqb key ?k] =>
                  destruct (String.eqb_spec key k) as [-> | ?Hne];
                  [intros _; cbn; auto 12 |]
              end).
      intros [v Hv]. discriminate.
    + intros Hin. cbn in Hin.
      repeat (destruct Hin as [<- | Hin]; [cbn; eauto |]). contradiction.
  - rewrite payload_lookup. reflexivity.
  - rewrite payload_lookup. reflexivity.
  - rewrite payload_lookup. reflexivity.
  - exists created. split; [reflexivity |]. rewrite payload_lookup. reflexivity.
Qed.

Lemma transform_to_webhooks_groups (df : list (gmap string Cell))
      (webhooks : list (gmap string PValue)) :
  transform_to_webhooks df = inr webhooks ->
  df = [] /\ webhooks = []
  \/ exists groups,
      groupby "order_id" df = inr groups /\ webhooks = transform_groups groups.
Proof.
  unfold transform_to_webhooks. destruct df as [| row df].
  - intros [= <-]. now left.
  - destruct (groupby "order_id" (row :: df)) as [e | groups]; cbn [Py.bind];
      [discriminate |].
    intros [= <-]. right. now exists groups.
Qed.

Lemma groups_bound {A B : Type} (groups : list (A * list B)) :
  Forall (fun g => snd g <> []) groups ->
  (length groups <= length (concat (map snd groups)))%nat.
Proof.
  induction groups as [| [k rows] groups IH]; intros Hne; [cbn; lia |].
  apply Forall_cons in Hne as [Hrows Hne]. cbn [map snd concat length] in *.
  rewrite length_app. specialize (IH Hne).
  destruct rows; [contradiction | cbn [length]; lia].
Qed.

(** The loop over the groups keeps what it has and adds at most one
    payload per group. *)
Lemma transform_groups_fold (groups : list (Cell * list (gmap string Cell))) :
  forall webhooks,
    let result :=
      fold_left
        (fun webhooks '(order_id, group) =>
           match transform_group order_id group with
           | inr webhook => (webhooks ++ [webhook])%list
           | inl _ => webhooks
           end) groups webhooks in
    (length result <= length webhooks + length groups)%nat
    /\ forall payload,
        In payload result ->
        In payload webhooks
        \/ exists order_id group,
            In (order_id, group) groups
            /\ transform_group order_id group = inr payload.
Proof.
  induction groups as [| [order_id group] groups IH]; intros webhooks; cbn [fold_left].
  - cbn. split; [lia | tauto].
  - cbn zeta in IH |- *.
    destruct (transform_group order_id group) as [e | webhook] eqn:Hgroup.
    + destruct (IH webhooks) as [Hlen Hin]. split; [cbn [length]; lia |].
      intros payload Hp. destruct (Hin payload Hp) as [Hold | (o & g & Hg & Ht)];
        [now left | right; exists o, g; split; [now right | exact Ht]].
    + destruct (IH (webhooks ++ [webhook])%list) as [Hlen Hin].
      rewrite length_app in Hlen. cbn [length] in *. split; [lia |].
      intros payload Hp. destruct (Hin payload Hp) as [Hold | (o & g & Hg & Ht)].
      * apply in_app_or in Hold as [Hold | [<- | []]]; [now left |].
        right. exists order_id, group. split; [now left | exact Hgroup].
      * right. exists o, g. split; [now right | exact Ht].
Qed.

(** Every payload of the output is the payload of one group of rows of the
    input: the group is not empty, its rows have an order identifier that
    is not null, which for an integer or a string is the group's, and the
    payload carries the group's identifier as text; there are at most as
    many payloads as rows with an order identifier. *)
Theorem webhook_payloads_come_from_groups
        (df : list (gmap string Cell)) (webhooks : list (gmap string PValue))
        (payload : gmap string PValue) :
  GroupbyContract ->
  transform_to_webhooks df = inr webhooks ->
  In payload webhooks ->
  (exists order_id group,
      transform_group order_id group = inr payload
      /\ group <> []
      /\ (forall row, In row group ->
                      In row df
                      /\ has_group_key "order_id" row = true
                      /\ (plain_key order_id = true ->
                          get row "order_id" = order_id))
      /\ payload !! "order" = Some (PStr (str order_id)))
  /\ (length webhooks
      <= length (List.filter (has_group_key "order_id") df))%nat.
Proof.
  intros Hcontract Hrun Hin.
  apply transform_to_webhooks_groups in Hrun
      as [[-> ->] | (groups & Hgroups & ->)]; [contradiction |].
  pose proof (groupby_partition Hcontract _ _ _ Hgroups) as Hperm.
  pose proof (groupby_groups Hcontract _ _ _ Hgroups) as Hok.
  destruct (transform_groups_fold groups []) as [Hlen Hfrom].
  cbn zeta in Hlen, Hfrom. fold (transform_groups groups) in Hlen, Hfrom.
  split.
  - destruct (Hfrom payload Hin) as [[] | (order_id & group & Hgroup & Htransform)].
    exists order_id, group. split; [exact Htransform |].
    assert (Hg : group_ok "order_id" (order_id, group)).
    { rewrite Forall_forall in Hok. apply Hok. now apply list_elem_of_In. }
    destruct Hg as [Hne Hrows]. cbn [fst snd] in *.
    split; [exact Hne |]. split.
    + intros row Hrow.
      assert (Hfiltered : In row (List.filter (has_group_key "order_id") df)).
      { apply (Permutation_in _ Hperm). apply in_concat.
        exists group. split; [| exact Hrow].
        change group with (snd (order_id, group)). now apply in_map. }
      apply filter_In in Hfiltered as [Hdf Hkey].
      split; [exact Hdf |]. split; [exact Hkey | now apply Hrows].
    + unfold transform_group in Htransform.
      destruct group as [| first_row rest]; [contradiction |].
      destruct (_build_sku_dict (first_row :: rest)) as [e | sku_dict];
        cbn [Py.bind] in Htransform; [discriminate |].
      now apply (built_payload_order order_id first_row sku_dict payload).
  - cbn [length] in Hlen. rewrite <- (Permutation_length Hperm).
    etransitivity; [exact Hlen |]. cbn [Nat.add]. apply groups_bound.
    eapply Forall_impl; [exact Hok |]. now intros g [Hne _].
Qed.

(** One unusable row drops its whole order: when a row of the group has no
    seller SKU or no line item can be made of it (a missing column, a
    quantity that is no integer), the group yields no payload. *)
Theorem bad_row_drops_the_order (order_id : Cell)
        (group : list (gmap string Cell)) (row : gmap string Cell) :
  In row group ->
  (row !! "seller_sku" = None \/ exists e, sku_item_of row = inl e) ->
  exists e, transform_group order_id group = inl e.
Proof.
  intros Hrow Hbad.
  assert (Hloop : forall sku_dict,
             exists e, build_sku_loop group sku_dict = inl e).
  { induction group as [| first rest IH]; [contradiction |].
    intros sku_dict. destruct Hrow as [<- | Hrow].
    - cbn [build_sku_loop]. unfold getitem at 1.
      destruct Hbad as [Hmissing | (e & He)].
      + rewrite Hmissing. cbn [Py.bind]. eexists. reflexivity.
      + destruct (first !! "seller_sku"); cbn [Py.bind]; [| eexists; reflexivity].
        unfold sku_item_of in He.
        repeat match type of He with
               | Py.bind ?m _ = _ =>
                   destruct m; cbn [Py.bind] in He |- *; [eexists; reflexivity |]
               end.
        discriminate.
    - destruct (build_sku_loop (first :: rest) sku_dict) as [e | built] eqn:Hbuild;
        [now exists e |].
      apply TransformerFacts.build_sku_loop_cons in Hbuild as (item & _ & Hrest).
      destruct (IH Hrow (<[seller_sku_of first := item]> sku_dict)) as (e & He).
      congruence. }
  unfold transform_group. destruct group as [| first_row rest]; [contradiction |].
  destruct (Hloop ∅) as (e & He). unfold _build_sku_dict. rewrite He.
  cbn [Py.bind]. now exists e.
Qed.

End WithEnv.

(** The grouping of the sample environment keeps the contract. *)
Lemma key_eqb_eq (a b : Cell) : Samples.key_eqb a b = true -> a = b.
Proof.
  destruct a, b; cbn; try discriminate.
  - intros Heq. apply String.eqb_eq in Heq. now subst.
  - intros Heq. apply Z.eqb_eq in Heq. now subst.
Qed.

(** Adding a row to the groups adds it once. *)
Lemma insert_row_perm (key : Cell) (row : gmap string Cell)
      (groups : list (Cell * list (gmap string Cell))) :
  Permutation (concat (map snd (Samples.insert_row key row groups)))
              (row :: concat (map snd groups)).
Proof.
  induction groups as [| [k rows] groups IH]; cbn [Samples.insert_row];
    [reflexivity |].
  destruct (Samples.key_eqb key k).
  - cbn [map snd concat]. rewrite <- app_assoc. cbn [app].
    symmetry. apply Permutation_middle.
  - destruct (Samples.key_ltb key k); [reflexivity |].
    cbn [map snd concat]. rewrite IH. symmetry. apply Permutation_middle.
Qed.

Lemma insert_row_ok (column : string) (key : Cell) (row : gmap string Cell)
      (groups : list (Cell * list (gmap string Cell))) :
  get row column = key ->
  Forall (group_ok column) groups ->
  Forall (group_ok column) (Samples.insert_row key row groups).
Proof.
  intros Hkey. induction groups as [| [k rows] groups IH]; intros Hgroups;
    cbn [Samples.insert_row].
  - constructor; [| constructor]. split; [discriminate |].
    intros r [<- | []] _. exact Hkey.
  - apply Forall_cons in Hgroups as [[Hne Hrows] Hgroups].
    destruct (Samples.key_eqb key k) eqn:Eeq.
    + apply key_eqb_eq in Eeq. subst k. constructor; [| exact Hgroups].
      split; cbn [fst snd] in *.
      * now destruct rows.
      * intros r Hr Hplain. apply in_app_or in Hr as [Hr | [<- | []]];
          [now apply Hrows | exact Hkey].
    + destruct (Samples.key_ltb key k).
      * constructor; [| constructor; [now split | exact Hgroups]].
        split; [discriminate |]. intros r [<- | []] _. exact Hkey.
      * constructor; [now split | now apply IH].
Qed.

Lemma group_rows_fold (column : string) (df : list (gmap string Cell)) :
  forall groups,
    Forall (group_ok column) groups ->
    let result :=
      fold_left
        (fun groups row =>
           match get row column with
           | (CInt _ | CStr _) as key => Samples.insert_row key row groups
           | _ => groups
           end) df groups in
    Forall (group_ok column) result
    /\ Permutation (concat (map snd result))
                   (concat (map snd groups)
                      ++ List.filter (fun row => plain_key (get row column)) df).
Proof.
  induction df as [| row df IH]; intros groups Hgroups; cbn [fold_left List.filter].
  - split; [exact Hgroups | now rewrite app_nil_r].
  - destruct (get row column) eqn:Hkey; cbn [plain_key];
      try solve [apply IH; exact Hgroups].
    all: match goal with
         | |- context [Samples.insert_row ?key ?r ?gs] =>
             destruct (IH (Samples.insert_row key r gs)) as [Hok Hperm];
             [now apply insert_row_ok |]
         end.
    all: split; [exact Hok |].
    all: cbn zeta in Hperm; rewrite Hperm, insert_row_perm.
    all: cbn [app]; apply Permutation_middle.
Qed.

Lemma sample_groupby_inr (column : string) (df : list (gmap string Cell))
      (groups : list (Cell * list (gmap string Cell))) :
  Samples.sample_groupby column df = inr groups ->
  groups = Samples.group_rows column df
  /\ forall row, In row df ->
                 isna (get row column) || plain_key (get row column) = true.
Proof.
  unfold Samples.sample_groupby.
  destruct (forallb _ df); [| discriminate].
  destruct (forallb (fun row => isna (get row column) || plain_key (get row column)) df)
    eqn:Hkeys; [| discriminate].
  intros [= <-]. split; [reflexivity |].
  intros row Hrow. rewrite forallb_forall in Hkeys. now apply Hkeys.
Qed.

Lemma sample_groupby_contract : GroupbyContract (H := Samples.env).
Proof.
  split; cbn [groupby Samples.env].
  - intros column [| row df] Hne Hmissing; [contradiction |].
    unfold Samples.sample_groupby. cbn [forallb].
    rewrite (Hmissing row) by now left. cbn. eexists. reflexivity.
  - intros column df groups Hrun.
    apply sample_groupby_inr in Hrun as [-> Hkeys].
    destruct (group_rows_fold column df [] (List.Forall_nil _)) as [_ Hperm].
    cbn zeta in Hperm. cbn [map concat app] in Hperm.
    fold (Samples.group_rows column df) in Hperm. rewrite Hperm.
    erewrite filter_ext_in; [reflexivity |].
    intros row Hrow. specialize (Hkeys row Hrow). unfold has_group_key.
    now destruct (get row column).
  - intros column df groups Hrun.
    apply sample_groupby_inr in Hrun as [-> _].
    now destruct (group_rows_fold column df [] (List.Forall_nil _)) as [Hok _].
  - intros column df Hcolumn Hkeys. unfold Samples.sample_groupby.
    replace (forallb _ df) with true.
    + replace (forallb _ df) with true; [now eexists |].
      symmetry. apply forallb_forall. exact Hkeys.
    + symmetry. apply forallb_forall. intros row Hrow.
      now destruct (Hcolumn row Hrow) as [c ->].
Qed.

(** The payload of the sample order carries its order identifier. *)
Lemma webhook_payload_shape_witness :
  match _build_webhook_payload (H := Samples.env) (CStr "o1")
                               (Samples.order_row "A" 1) ∅ with
  | inr payload => payload !! "order" = Some (PStr "o1")
  | inl _ => False
  end.
Proof.
  assert (Hbuilt : succeeded (_build_webhook_payload
                                (H := Samples.env) (CStr "o1")
                                (Samples.order_row "A" 1) ∅) = true)
    by (vm_compute; reflexivity).
  destruct (_build_webhook_payload (H := Samples.env) (CStr "o1")
                                   (Samples.order_row "A" 1) ∅)
    as [e | payload] eqn:Hbuild; [discriminate |].
  exact (proj1 (proj2 (webhook_payload_shape (H := Samples.env) _ _ _ _ Hbuild))).
Defined.

(** Two rows of one order give one payload, and it comes from their
    group. *)
Lemma webhook_payloads_come_from_groups_witness :
  exists webhooks,
    transform_to_webhooks
      (H := Samples.env) [Samples.order_row "A" 1; Samples.order_row "B" 2]
    = inr webhooks
    /\ length webhooks = 1%nat
    /\ forall payload,
        In payload webhooks ->
        exists order_id group,
          transform_group (H := Samples.env) order_id group = inr payload
          /\ group <> []
          /\ (forall row, In row group ->
                          In row [Samples.order_row "A" 1; Samples.order_row "B" 2]
                          /\ has_group_key "order_id" row = true
                          /\ (plain_key order_id = true ->
                              get row "order_id" = order_id))
          /\ payload !! "order" = Some (PStr (str order_id)).
Proof.
  assert (Hcount : match transform_to_webhooks
                           (H := Samples.env)
                           [Samples.order_row "A" 1; Samples.order_row "B" 2] with
                   | inr webhooks => length webhooks
                   | inl _ => 0%nat
                   end = 1%nat) by (vm_compute; reflexivity).
  destruct (transform_to_webhooks
              (H := Samples.env) [Samples.order_row "A" 1; Samples.order_row "B" 2])
    as [e | webhooks] eqn:Hrun; [discriminate |].
  exists webhooks. split; [reflexivity |]. split; [exact Hcount |].
  intros payload Hin.
  exact (proj1 (webhook_payloads_come_from_groups
                  (H := Samples.env) _ webhooks payload
                  sample_groupby_contract Hrun Hin)).
Defined.

(** A quantity that is no integer in the second row drops the order. *)
Lemma bad_row_drops_the_order_witness :
  exists e,
    transform_group
      (H := Samples.env) (CStr "o1")
      [Samples.order_row "A" 1;
       <["quantity" := CStr "many"]> (Samples.order_row "B" 1)]
    = inl e.
Proof.
  apply (bad_row_drops_the_order
           (H := Samples.env) (CStr "o1") _
           (<["quantity" := CStr "many"]> (Samples.order_row "B" 1))).
  - right. left. reflexivity.
  - right. eexists. vm_compute. reflexivity.
Defined.

End OrderPayloadFacts.

(** ** The two entry points *)

Module MainFacts.

Import Vocabulary.

(** The configuration is accepted exactly when both the endpoint URL and
    the service key are set to non-empty values; then the service takes
    its timeout, retry budget and batch size from it. *)
Theorem service_needs_url_and_key (cfg : Config.Config) :
  (Config.validate cfg = inr true
   <-> is_set (Config.SUPABASE_URL cfg)
       /\ is_set (Config.SUPABASE_SERVICE_ROLE_KEY cfg))
  /\ (forall self,
        SupabaseService.__init__ cfg = inr self ->
        is_set (Config.SUPABASE_URL cfg)
        /\ is_set (Config.SUPABASE_SERVICE_ROLE_KEY cfg)
        /\ self = SupabaseService.mkService (Config.SUPABASE_TIMEOUT cfg)
                                            (Config.MAX_RETRY_ATTEMPTS cfg)
                                            (Config.BATCH_SIZE cfg))
  /\ ((exists e, Config.validate cfg = inl e) \/ Config.validate cfg = inr true).
Proof.
  assert (Hset : forall value : option string,
             match value with Some v => Py.nonempty v | None => false end = true
             <-> is_set value).
  { intros [[| c v] |]; cbn; split; try discriminate.
    - intros (s & [= <-] & Hne). contradiction.
    - intros _. eexists. split; [reflexivity | discriminate].
    - intros _. reflexivity.
    - intros (s & Hs & _). discriminate. }
  assert (Hiff : Config.validate cfg = inr true
                 <-> is_set (Config.SUPABASE_URL cfg)
                     /\ is_set (Config.SUPABASE_SERVICE_ROLE_KEY cfg)).
  { rewrite <- !Hset. unfold Config.validate, Config.missing_vars.
    cbn [List.filter Config.required_vars Config.getattr String.eqb Ascii.eqb
         Bool.eqb].
    cbn.
    destruct (match Config.SUPABASE_URL cfg with
              | Some v => Py.nonempty v | None => false end);
      destruct (match Config.SUPABASE_SERVICE_ROLE_KEY cfg with
                | Some v => Py.nonempty v | None => false end);
      cbn; split; (tauto || intuition discriminate). }
  split; [exact Hiff |]. split.
  - intros self Hinit. unfold SupabaseService.__init__ in Hinit.
    destruct (Config.validate cfg) as [e | b] eqn:Hvalid; cbn [Py.bind] in Hinit;
      [discriminate |].
    assert (b = true) as ->.
    { unfold Config.validate in Hvalid. destruct (Config.missing_vars cfg);
        [now injection Hvalid | discriminate]. }
    destruct (proj1 Hiff eq_refl) as [Hurl Hkey]. injection Hinit as <-. tauto.
  - unfold Config.validate. destruct (Config.missing_vars cfg);
      [now right | left; eexists; reflexivity].
Qed.

(** Only the key is missing. *)
Example missing_key_is_reported :
  Config.validate (Config.mkConfig (Some "https://x.supabase.co") None 30 3 20 100)
  = inl "Missing required environment variables: SUPABASE_SERVICE_ROLE_KEY".
Proof. reflexivity. Qed.

(** The probe sends one request with no events and never waits; it fails
    exactly on the answers of [probe_fails]. *)
Lemma test_connectivity_spec (self : SupabaseService.Service)
      (w : World (list (gmap string string))) :
  fst (fst (SupabaseService.test_connectivity self w))
  = negb (probe_fails (network w (length (posts w))))
  /\ snd (SupabaseService.test_connectivity self w) = snd (post [] w).
Proof.
  unfold SupabaseService.test_connectivity. cbn [post].
  destruct (network w (length (posts w))) as [code text json | | e | e | e];
    cbn [probe_fails]; try (split; reflexivity).
  destruct (code =? 400) eqn:E400.
  - apply Z.eqb_eq in E400. subst code. now split.
  - destruct (code =? 401); [now split |].
    destruct (code =? 404); now split.
Qed.

Section WithEnv.

Context `{PandasEnv}.

(** When there is nothing to send, a sync cycle makes no request: a failed
    fetch answers 500, and an empty table or a table without a single
    valid row answers 200, even with a configuration that would be
    rejected. With events to send, a rejected configuration answers 500
    before any request. *)
Theorem sync_without_work_makes_no_request
        (cfg : Config.Config) (fetch : string + list (gmap string Cell))
        (w : World (list (gmap string string))) :
  (forall e, fetch = inl e ->
             snd (fst (ShipmentTrackingMain.sync_shipment_tracking cfg fetch w)) = 500
             /\ snd (ShipmentTrackingMain.sync_shipment_tracking cfg fetch w) = w)
  /\ (forall events_df,
        fetch = inr events_df ->
        ShipmentTransformerService.transform_to_tracking_events events_df = [] ->
        snd (fst (ShipmentTrackingMain.sync_shipment_tracking cfg fetch w)) = 200
        /\ snd (ShipmentTrackingMain.sync_shipment_tracking cfg fetch w) = w)
  /\ (forall events_df e,
        fetch = inr events_df ->
        ShipmentTransformerService.transform_to_tracking_events events_df <> [] ->
        Config.validate cfg = inl e ->
        snd (fst (ShipmentTrackingMain.sync_shipment_tracking cfg fetch w)) = 500
        /\ snd (ShipmentTrackingMain.sync_shipment_tracking cfg fetch w) = w).
Proof.
  unfold ShipmentTrackingMain.sync_shipment_tracking. split; [| split].
  - intros e ->. now split.
  - intros events_df -> Hnone. destruct events_df; [now split |].
    rewrite Hnone. now split.
  - intros events_df e -> Hsome Hcfg. destruct events_df as [| row df].
    + now contradiction Hsome.
    + destruct (ShipmentTransformerService.transform_to_tracking_events (row :: df));
        [contradiction |].
      unfold SupabaseService.__init__. rewrite Hcfg. cbn [Py.bind]. now split.
Qed.

(** A failed probe ends the cycle: with events to send and an accepted
    configuration, an answer of 401 or 404 or an exception on the probe
    gives status 500, and the probe is the only request made: no batch is
    sent and nothing is retried. *)
Theorem sync_stops_on_failed_probe
        (cfg : Config.Config) (events_df : list (gmap string Cell))
        (w : World (list (gmap string string))) (self : SupabaseService.Service) :
  ShipmentTransformerService.transform_to_tracking_events events_df <> [] ->
  SupabaseService.__init__ cfg = inr self ->
  probe_fails (network w (length (posts w))) = true ->
  snd (fst (ShipmentTrackingMain.sync_shipment_tracking cfg (inr events_df) w)) = 500
  /\ posts (snd (ShipmentTrackingMain.sync_shipment_tracking cfg (inr events_df) w))
     = (posts w ++ [[]])%list
  /\ sleeps (snd (ShipmentTrackingMain.sync_shipment_tracking cfg (inr events_df) w))
     = sleeps w.
Proof.
  intros Hsome Hinit Hprobe.
  unfold ShipmentTrackingMain.sync_shipment_tracking.
  destruct events_df as [| row df]; [now contradiction Hsome |].
  destruct (ShipmentTransformerService.transform_to_tracking_events (row :: df));
    [contradiction |].
  rewrite Hinit.
  destruct (test_connectivity_spec self w) as [Hflag Hworld].
  destruct (SupabaseService.test_connectivity self w) as [[ok msg] w1].
  cbn [fst snd] in *. rewrite Hprobe in Hflag. cbn in Hflag. subst ok w1.
  cbn. repeat split.
Qed.

(** After a probe that passes, the batches follow: the probe is the first
    request of the cycle, and a cycle that completes answers 200, reports
    every valid event in [total_events] and has posted every batch. *)
Theorem sync_probes_before_sending
        (cfg : Config.Config) (events_df : list (gmap string Cell))
        (w : World (list (gmap string string))) (self : SupabaseService.Service) :
  ShipmentTransformerService.transform_to_tracking_events events_df <> [] ->
  SupabaseService.__init__ cfg = inr self ->
  probe_fails (network w (length (posts w))) = false ->
  exists attempts,
    posts (snd (ShipmentTrackingMain.sync_shipment_tracking cfg (inr events_df) w))
    = (posts w ++ [] :: attempts)%list
    /\ (Py.dict_get
          "status"
          (fst (fst (ShipmentTrackingMain.sync_shipment_tracking cfg (inr events_df) w)))
        = Some (JStr "completed") ->
        snd (fst (ShipmentTrackingMain.sync_shipment_tracking cfg (inr events_df) w))
        = 200
        /\ Py.dict_get
             "total_events"
             (fst (fst (ShipmentTrackingMain.sync_shipment_tracking cfg (inr events_df) w)))
           = Some (JInt (Z.of_nat
                           (length (ShipmentTransformerService.transform_to_tracking_events
                                      events_df))))
        /\ forall event_batches,
            SupabaseService._chunk_events
              self (ShipmentTransformerService.transform_to_tracking_events events_df)
            = inr event_batches ->
            forall batch, In batch event_batches -> In batch attempts).
Proof.
  intros Hsome Hinit Hprobe.
  unfold ShipmentTrackingMain.sync_shipment_tracking.
  destruct events_df as [| row rest] eqn:Hdf; [now contradiction Hsome |].
  rewrite <- Hdf in *. clear Hdf.
  destruct (ShipmentTransformerService.transform_to_tracking_events events_df)
    as [| event tracking_events]; [contradiction |].
  rewrite Hinit.
  destruct (test_connectivity_spec self w) as [Hflag Hworld].
  destruct (SupabaseService.test_connectivity self w) as [[ok msg] w1].
  cbn [fst snd] in Hflag, Hworld. rewrite Hprobe in Hflag. cbn in Hflag.
  subst ok w1. cbn [negb].
  unfold SupabaseService.send_tracking_events.
  destruct (SupabaseService._chunk_events self (event :: tracking_events))
    as [e | event_batches] eqn:Hchunk.
  - exists []. cbn. split; [reflexivity | discriminate].
  - destruct (DispatchFacts.send_batches_attempts
                self event_batches 0 (SupabaseService.mkTally 0 0 [])
                (snd (post [] w)))
      as (attempts & Hposts & Hall).
    destruct (SupabaseService.send_batches
                self 0 event_batches (SupabaseService.mkTally 0 0 [])
                (snd (post [] w)))
      as [[e | t] w2].
    + exists attempts. cbn [fst snd] in *. split; [| cbn; discriminate].
      rewrite Hposts. cbn [post snd posts]. now rewrite <- app_assoc.
    + exists attempts. cbn [fst snd] in *. split.
      * rewrite Hposts. cbn [post snd posts]. now rewrite <- app_assoc.
      * intros _. split; [reflexivity |]. split; [reflexivity |].
        intros event_batches' [= <-]. exact (Hall t eq_refl).
Qed.

(** A sync cycle always answers 200 or 500, and 500 exactly when the
    body's status is [error]; a cycle that completes reports at most as
    many valid events as fetched rows and at most ten error messages. *)
Theorem sync_response_codes
        (cfg : Config.Config) (fetch : string + list (gmap string Cell))
        (w : World (list (gmap string string))) :
  let response := fst (ShipmentTrackingMain.sync_shipment_tracking cfg fetch w) in
  (snd response = 200 \/ snd response = 500)
  /\ (snd response = 500
      <-> Py.dict_get "status" (fst response) = Some (JStr "error"))
  /\ (Py.dict_get "status" (fst response) = Some (JStr "completed") ->
      exists fetched valid errors,
        Py.dict_get "bigquery_events" (fst response) = Some (JInt fetched)
        /\ Py.dict_get "valid_events" (fst response) = Some (JInt valid)
        /\ Py.dict_get "errors" (fst response) = Some (JList errors)
        /\ 0 < valid <= fetched
        /\ (length errors <= 10)%nat).
Proof.
  cbn zeta. unfold ShipmentTrackingMain.sync_shipment_tracking.
  destruct fetch as [e | events_df];
    [cbn; split; [now right |]; split; [tauto | discriminate] |].
  destruct events_df as [| row rest] eqn:Hdf;
    [cbn; split; [now left |]; split; [split; discriminate | discriminate] |].
  rewrite <- Hdf.
  pose proof (TrackingEventFacts.transform_counts events_df)
    as (Hcount & Hskipped).
  destruct (ShipmentTransformerService.transform_to_tracking_events events_df)
    as [| event tracking_events] eqn:Hevents;
    [cbn; split; [now left |]; split; [split; discriminate | discriminate] |].
  destruct (SupabaseService.__init__ cfg) as [e | self];
    [cbn; split; [now right |]; split; [tauto | discriminate] |].
  destruct (SupabaseService.test_connectivity self w) as [[ok msg] w1].
  destruct ok; cbn [negb];
    [| cbn; split; [now right |]; split; [tauto | discriminate]].
  destruct (SupabaseService.send_tracking_events self (event :: tracking_events) w1)
    as [[e | result] w2];
    [cbn; split; [now right |]; split; [tauto | discriminate] |].
  cbn [fst snd]. split; [now left |]. split; [cbn; split; discriminate |].
  intros _. eexists _, _, _. cbn [Py.dict_get app SupabaseService.to_dict].
  cbn. split; [reflexivity |]. split; [reflexivity |]. split; [reflexivity |].
  split; [cbn [length] in Hcount |- *; lia |].
  rewrite length_take. lia.
Qed.




End WithEnv.

(** A configuration with both variables set gives the service its three
    settings. *)
Lemma service_needs_url_and_key_witness :
  is_set (Some "https://x.supabase.co")
  /\ is_set (Some "key")
  /\ Samples.supabase = SupabaseService.mkService 30 3 100.
Proof.
  exact (proj1 (proj2 (service_needs_url_and_key
                         (Config.mkConfig (Some "https://x.supabase.co")
                                          (Some "key") 30 3 20 100)))
           Samples.supabase eq_refl).
Defined.

(** A table whose only row is empty gives no event: the cycle answers 200
    without a request, although the configuration is unset. *)
Lemma sync_without_work_makes_no_request_witness :
  snd (fst (ShipmentTrackingMain.sync_shipment_tracking
              (H := Samples.env) (Config.mkConfig None None 30 3 20 100)
              (inr [∅]) Samples.healthy)) = 200
  /\ snd (ShipmentTrackingMain.sync_shipment_tracking
            (H := Samples.env) (Config.mkConfig None None 30 3 20 100)
            (inr [∅]) Samples.healthy) = Samples.healthy.
Proof.
  apply (proj1 (proj2 (sync_without_work_makes_no_request
                         (H := Samples.env)
                         (Config.mkConfig None None 30 3 20 100)
                         (inr [∅]) Samples.healthy)) [∅]).
  - reflexivity.
  - vm_compute. reflexivity.
Defined.

(** The endpoint refuses the connection: one request, the probe. *)
Lemma sync_stops_on_failed_probe_witness :
  snd (fst (ShipmentTrackingMain.sync_shipment_tracking
              (H := Samples.env)
              (Config.mkConfig (Some "https://x.supabase.co") (Some "key") 30 3 20 100)
              (inr [Samples.tracking_row]) Samples.refused)) = 500
  /\ posts (snd (ShipmentTrackingMain.sync_shipment_tracking
                   (H := Samples.env)
                   (Config.mkConfig (Some "https://x.supabase.co") (Some "key")
                                    30 3 20 100)
                   (inr [Samples.tracking_row]) Samples.refused))
     = ([] ++ [[]])%list
  /\ sleeps (snd (ShipmentTrackingMain.sync_shipment_tracking
                    (H := Samples.env)
                    (Config.mkConfig (Some "https://x.supabase.co") (Some "key")
                                     30 3 20 100)
                    (inr [Samples.tracking_row]) Samples.refused))
     = [].
Proof.
  apply (sync_stops_on_failed_probe
           (H := Samples.env)
           (Config.mkConfig (Some "https://x.supabase.co") (Some "key") 30 3 20 100)
           [Samples.tracking_row] Samples.refused Samples.supabase).
  - intros Hnone. apply (f_equal (@length _)) in Hnone. vm_compute in Hnone.
    discriminate.
  - reflexivity.
  - reflexivity.
Defined.

(** A healthy endpoint: the probe, then the one batch. *)
Lemma sync_probes_before_sending_witness :
  exists attempts,
    posts (snd (ShipmentTrackingMain.sync_shipment_tracking
                  (H := Samples.env)
                  (Config.mkConfig (Some "https://x.supabase.co") (Some "key")
                                   30 3 20 100)
                  (inr [Samples.tracking_row]) Samples.healthy))
    = ([] ++ [] :: attempts)%list
    /\ snd (fst (ShipmentTrackingMain.sync_shipment_tracking
                   (H := Samples.env)
                   (Config.mkConfig (Some "https://x.supabase.co") (Some "key")
                                    30 3 20 100)
                   (inr [Samples.tracking_row]) Samples.healthy)) = 200.
Proof.
  destruct (sync_probes_before_sending
              (H := Samples.env)
              (Config.mkConfig (Some "https://x.supabase.co") (Some "key") 30 3 20 100)
              [Samples.tracking_row] Samples.healthy Samples.supabase)
    as (attempts & Hposts & Hdone).
  - intros Hnone. apply (f_equal (@length _)) in Hnone. vm_compute in Hnone.
    discriminate.
  - reflexivity.
  - reflexivity.
  - exists attempts. split; [exact Hposts |].
    apply Hdone. vm_compute. reflexivity.
Defined.

(** The same cycle: one row fetched, one valid event, no error. *)
Lemma sync_response_codes_witness :
  exists fetched valid errors,
    Py.dict_get
      "bigquery_events"
      (fst (fst (ShipmentTrackingMain.sync_shipment_tracking
                   (H := Samples.env)
                   (Config.mkConfig (Some "https://x.supabase.co") (Some "key")
                                    30 3 20 100)
                   (inr [Samples.tracking_row]) Samples.healthy)))
    = Some (JInt fetched)
    /\ Py.dict_get
         "valid_events"
         (fst (fst (ShipmentTrackingMain.sync_shipment_tracking
                      (H := Samples.env)
                      (Config.mkConfig (Some "https://x.supabase.co") (Some "key")
                                       30 3 20 100)
                      (inr [Samples.tracking_row]) Samples.healthy)))
       = Some (JInt valid)
    /\ Py.dict_get
         "errors"
         (fst (fst (ShipmentTrackingMain.sync_shipment_tracking
                      (H := Samples.env)
                      (Config.mkConfig (Some "https://x.supabase.co") (Some "key")
                                       30 3 20 100)
                      (inr [Samples.tracking_row]) Samples.healthy)))
       = Some (JList errors)
    /\ 0 < valid <= fetched
    /\ (length errors <= 10)%nat.
Proof.
  apply (proj2 (proj2 (sync_response_codes
                         (H := Samples.env)
                         (Config.mkConfig (Some "https://x.supabase.co") (Some "key")
                                          30 3 20 100)
                         (inr [Samples.tracking_row]) Samples.healthy))).
  vm_compute. reflexivity.
Defined.


End MainFacts.
